(** * COVID19cz: the exponential trend projection of [covid.py]

    A shallow embedding of [get_exponential] (covid.py, lines 45-72) and of the
    pandas, numpy and scipy operations it calls, followed by the properties of
    the projection that the specification states.

    - Index labels are Python strings holding ISO dates; [>=] on them is the
      lexicographic order of strings, as in the source. On labels of the form
      [YYYY-MM-DD] it is the chronological order ([iso_compare]).
    - Cells are IEEE binary64 floats; a missing cell is NaN, as in pandas.
    - DataFrames are objects of a store, a list addressed by position:
      [assign], [append], [pd.DataFrame] and boolean selection allocate a new
      frame, [.loc[...] = ...] updates a frame in place.
    - [np.exp] and [scipy.optimize.curve_fit] are parameters of the
      development: their floating-point results are not computed here.
    - [pd.date_range] reads a label of the form [YYYY-MM-DD] within the range
      of [pd.Timestamp]; labels in other forms are outside the model. *)

From Stdlib Require Import ZArith Ascii String Floats Lia.
From stdpp Require Import strings list.

Local Open Scope string_scope.
Local Open Scope list_scope.
Local Open Scope nat_scope.

(** ** Python strings: the order used by [dataset.index >= start] *)

Module Str.

(** [a >= b] on Python strings. *)
Definition ge (a b : string) : bool := String.leb b a.

(** [a > b] on Python strings. *)
Definition gt (a b : string) : bool := String.ltb b a.

(** Truthiness of an optional string argument whose default is [False]:
    [False] and the empty string are falsy. *)
Definition truthy (o : option string) : bool :=
  match o with
  | Some s => negb (String.eqb s "")
  | None => false
  end.

End Str.

(** ** Calendar dates, as [pd.date_range] and [strftime] see them *)

Module Calendar.

Record date := Date { year : nat; month : nat; day : nat }.

Definition is_leap (y : nat) : bool :=
  (y mod 4 =? 0) && (negb (y mod 100 =? 0) || (y mod 400 =? 0)).

Definition days_in_month (y m : nat) : nat :=
  match m with
  | 2 => if is_leap y then 29 else 28
  | 4 | 6 | 9 | 11 => 30
  | _ => 31
  end.

Definition valid (d : date) : bool :=
  (1 <=? month d) && (month d <=? 12) &&
  (1 <=? day d) && (day d <=? days_in_month (year d) (month d)).

(** Adding one day ([freq='D']). *)
Definition next_day (d : date) : date :=
  if day d <? days_in_month (year d) (month d) then
    Date (year d) (month d) (S (day d))
  else if month d <? 12 then Date (year d) (S (month d)) 1
  else Date (S (year d)) 1 1.

(** A number that orders dates chronologically. *)
Definition ord (d : date) : nat := (year d * 16 + month d) * 32 + day d.

(** Chronological order, by year, then month, then day. *)
Definition leb (d1 d2 : date) : bool :=
  (year d1 <? year d2)
  || ((year d1 =? year d2)
      && ((month d1 <? month d2)
          || ((month d1 =? month d2) && (day d1 <=? day d2)))).

(** The midnights a pandas [Timestamp] (64-bit nanoseconds) can hold. *)
Definition Timestamp_min : date := Date 1677 9 22.
Definition Timestamp_max : date := Date 2262 4 11.

Definition in_bounds (d : date) : bool := leb Timestamp_min d && leb d Timestamp_max.

(** Decimal digits. *)
Definition digit (n : nat) : ascii := ascii_of_nat (48 + n).

Definition digit_value (c : ascii) : option nat :=
  let n := nat_of_ascii c in
  if (48 <=? n) && (n <=? 57) then Some (n - 48) else None.

Definition fmt2 (n : nat) (rest : string) : string :=
  String (digit (n / 10 mod 10)) (String (digit (n mod 10)) rest).

Definition fmt4 (n : nat) (rest : string) : string :=
  String (digit (n / 1000 mod 10)) (String (digit (n / 100 mod 10)) (fmt2 n rest)).

(** [strftime('%Y-%m-%d')]. *)
Definition strftime (d : date) : string :=
  fmt4 (year d) (String "-" (fmt2 (month d) (String "-" (fmt2 (day d) EmptyString)))).

Definition num2 (a b : ascii) : option nat :=
  match digit_value a, digit_value b with
  | Some x, Some y => Some (10 * x + y)
  | _, _ => None
  end.

Definition num4 (a b c d : ascii) : option nat :=
  match num2 a b, num2 c d with
  | Some x, Some y => Some (100 * x + y)
  | _, _ => None
  end.

(** Reading an ISO label [YYYY-MM-DD]; any other text is rejected. *)
Definition parse_iso (s : string) : option date :=
  match s with
  | String y1 (String y2 (String y3 (String y4 (String sep1
      (String m1 (String m2 (String sep2 (String d1 (String d2 EmptyString))))))))) =>
      if Ascii.eqb sep1 "-" && Ascii.eqb sep2 "-" then
        match num4 y1 y2 y3 y4, num2 m1 m2, num2 d1 d2 with
        | Some y, Some m, Some d =>
            let r := Date y m d in if valid r then Some r else None
        | _, _, _ => None
        end
      else None
  | _ => None
  end.

(** The date [k] days after [d]. *)
Definition add_days (d : date) (k : nat) : date := Nat.iter k next_day d.

(** [periods] consecutive days starting at [d]. *)
Fixpoint days_from (d : date) (periods : nat) : list date :=
  match periods with
  | 0 => []
  | S p => d :: days_from (next_day d) p
  end.

End Calendar.

(** ** Python values and exceptions *)

Module Py.

Inductive exn :=
| KeyError (key : string)
| IndexError
| ValueError
| TypeError
| RuntimeError
| ParserError
| OutOfBoundsDatetime
| IndexingError
| NoSuchObject.

Inductive result (A : Type) :=
| Ok (a : A)
| Raise (e : exn).

Arguments Ok {A} a.
Arguments Raise {A} e.

(** [l[i]] with Python's negative indices. *)
Definition getitem {A : Type} (l : list A) (i : Z) : result A :=
  let n := Z.of_nat (length l) in
  let j := if (i <? 0)%Z then (n + i)%Z else i in
  if (j <? 0)%Z || (n <=? j)%Z then Raise IndexError
  else match l !! Z.to_nat j with
       | Some x => Ok x
       | None => Raise IndexError
       end.

(** [range(n)]. *)
Definition range (n : nat) : list nat := seq 0 n.

(** Sequencing of fallible steps: an exception ends the computation. *)
Definition and_then {A B : Type} (r : result A) (k : A -> result B) : result B :=
  match r with
  | Ok a => k a
  | Raise e => Raise e
  end.

Declare Scope result_scope.
Delimit Scope result_scope with result.

Notation "x <~ r ;; k" := (and_then r (fun x => k))
  (at level 100, r at next level, right associativity) : result_scope.

End Py.

(** ** numpy: float64 cells *)

Module Np.

Definition nan : float := PrimFloat.nan.

Definition isnan (x : float) : bool := PrimFloat.is_nan x.

(** An integer of a [range] converted to float64 (exact below 2^53). *)
Definition of_int (k : nat) : float := PrimFloat.of_uint63 (Uint63.of_Z (Z.of_nat k)).

(** Boolean-mask selection [l[mask]]. *)
Fixpoint select {A : Type} (mask : list bool) (l : list A) : list A :=
  match mask, l with
  | m :: mask', x :: l' => if m then x :: select mask' l' else select mask' l'
  | _, _ => []
  end.

(** Number of [True] entries of a mask. *)
Fixpoint count (mask : list bool) : nat :=
  match mask with
  | [] => 0
  | m :: mask' => (if m then 1 else 0) + count mask'
  end.

(** [old[mask] = vals]: the selected positions receive the values in order,
    the others keep what they had. *)
Fixpoint scatter (mask : list bool) (vals old : list float) : list float :=
  match mask, old with
  | m :: mask', o :: old' =>
      if m then
        match vals with
        | v :: vals' => v :: scatter mask' vals' old'
        | [] => o :: scatter mask' [] old'
        end
      else o :: scatter mask' vals old'
  | _, _ => old
  end.

End Np.

(** ** pandas: DataFrames *)

Module Pd.

Import Py.

Record DataFrame := mkDataFrame {
  index : list string;
  columns : list (string * list float)
}.

(** [df.keys()]: the column names, in order. *)
Definition keys (df : DataFrame) : list string := map fst (columns df).

Fixpoint lookup_column (name : string) (cols : list (string * list float)) : option (list float) :=
  match cols with
  | [] => None
  | (k, v) :: rest => if String.eqb k name then Some v else lookup_column name rest
  end.

Definition has_column (name : string) (cols : list (string * list float)) : bool :=
  existsb (String.eqb name) (map fst cols).

(** Replace the column [name], or add it after the others when it is new. *)
Definition set_column (name : string) (f : option (list float) -> list float)
    (cols : list (string * list float)) : list (string * list float) :=
  if has_column name cols then
    map (fun kv => if String.eqb (fst kv) name then (fst kv, f (Some (snd kv))) else kv) cols
  else cols ++ [(name, f None)].

(** Every column has one cell per index label. *)
Definition well_formed (df : DataFrame) : Prop :=
  Forall (fun kv => length (snd kv) = length (index df)) (columns df).

(** [df[name]]. *)
Definition getitem_column (df : DataFrame) (name : string) : result (list float) :=
  match lookup_column name (columns df) with
  | Some v => Ok v
  | None => Raise (KeyError name)
  end.

(** [df[mask]] and [df.loc[mask]]: the rows selected by a boolean mask. *)
Definition getitem_mask (df : DataFrame) (mask : list bool) : result DataFrame :=
  if length mask =? length (index df) then
    Ok {| index := Np.select mask (index df);
          columns := map (fun kv => (fst kv, Np.select mask (snd kv))) (columns df) |}
  else Raise ValueError.

(** [df.assign(name=x)]: a copy with the column [name] set to the scalar [x]. *)
Definition assign (df : DataFrame) (name : string) (x : float) : DataFrame :=
  {| index := index df;
     columns := set_column name (fun _ => replicate (length (index df)) x) (columns df) |}.

(** [pd.DataFrame(index=idx, columns=names)]: a frame with no data. *)
Definition DataFrame_empty (idx : list string) (names : list string) : DataFrame :=
  {| index := idx;
     columns := map (fun k => (k, replicate (length idx) Np.nan)) names |}.

(** [df.append(other)]: the rows of [other] below those of [df]; a column
    missing on one side is NaN there. *)
Definition append (df other : DataFrame) : DataFrame :=
  {| index := index df ++ index other;
     columns :=
       map (fun kv =>
              (fst kv,
               snd kv ++ default (replicate (length (index other)) Np.nan)
                                 (lookup_column (fst kv) (columns other))))
           (columns df)
       ++ map (fun kv => (fst kv, replicate (length (index df)) Np.nan ++ snd kv))
              (filter (fun kv => has_column (fst kv) (columns df) = false) (columns other)) |}.

(** [df.loc[mask, name] = vals], as a function of the frame's contents. *)
Definition loc_setitem (df : DataFrame) (mask : list bool) (name : string)
    (vals : list float) : result DataFrame :=
  if negb (length mask =? length (index df)) then Raise IndexingError
  else if negb (length vals =? Np.count mask) then Raise ValueError
  else
    Ok {| index := index df;
          columns :=
            set_column name
              (fun old => Np.scatter mask vals
                            (default (replicate (length (index df)) Np.nan) old))
              (columns df) |}.

(** [pd.Timestamp(label)] for an ISO label. *)
Definition to_datetime (s : string) : result Calendar.date :=
  match Calendar.parse_iso s with
  | Some d => if Calendar.in_bounds d then Ok d else Raise OutOfBoundsDatetime
  | None => Raise ParserError
  end.

(** [pd.date_range(start, periods=periods)], daily. *)
Definition date_range (start : string) (periods : Z) : result (list Calendar.date) :=
  match to_datetime start with
  | Raise e => Raise e
  | Ok d =>
      if (periods <? 0)%Z then Raise ValueError
      else
        let l := Calendar.days_from d (Z.to_nat periods) in
        if forallb Calendar.in_bounds l then Ok l else Raise OutOfBoundsDatetime
  end.

End Pd.

(** ** The object store *)

Module Store.

Import Py Pd.

Abbreviation ref := nat.
Abbreviation heap := (list DataFrame).

(** A computation reads and updates the store, and returns or raises. *)
Definition M (A : Type) : Type := heap -> result (A * heap).

Definition ret {A : Type} (a : A) : M A := fun h => Ok (a, h).

Definition raise {A : Type} (e : exn) : M A := fun _ => Raise e.

Definition bind {A B : Type} (m : M A) (k : A -> M B) : M B :=
  fun h =>
    match m h with
    | Ok (a, h') => k a h'
    | Raise e => Raise e
    end.

Definition lift {A : Type} (r : result A) : M A :=
  fun h =>
    match r with
    | Ok a => Ok (a, h)
    | Raise e => Raise e
    end.

(** A new object, at the next address. *)
Definition alloc (df : DataFrame) : M ref :=
  fun h => Ok (length h, h ++ [df]).

Definition load (l : ref) : M DataFrame :=
  fun h =>
    match h !! l with
    | Some df => Ok (df, h)
    | None => Raise NoSuchObject
    end.

(** An update in place of the object at [l]. *)
Definition update (l : ref) (f : DataFrame -> result DataFrame) : M unit :=
  fun h =>
    match h !! l with
    | Some df =>
        match f df with
        | Ok df' => Ok (tt, <[l := df']> h)
        | Raise e => Raise e
        end
    | None => Raise NoSuchObject
    end.

Declare Scope py_scope.
Delimit Scope py_scope with py.

Notation "x <- c1 ;; c2" := (bind c1 (fun x => c2))
  (at level 100, c1 at next level, right associativity) : py_scope.
Notation "c1 ;;; c2" := (bind c1 (fun _ => c2))
  (at level 100, right associativity) : py_scope.

End Store.

(** ** pandas operations on references *)

Module Frame.

Import Py Pd Store.
Local Open Scope py_scope.

(** [dataset.index]. *)
Definition get_index (l : ref) : M (list string) :=
  df <- load l ;; ret (index df).

(** [dataset.index[i]]. *)
Definition index_getitem (l : ref) (i : Z) : M string :=
  idx <- get_index l ;; lift (getitem idx i).

(** [dataset.keys()]. *)
Definition get_keys (l : ref) : M (list string) :=
  df <- load l ;; ret (keys df).

(** [dataset[mask]]: a new frame. *)
Definition getitem_mask (l : ref) (mask : list bool) : M ref :=
  df <- load l ;; sub <- lift (Pd.getitem_mask df mask) ;; alloc sub.

(** [subset[name].values]. *)
Definition getitem_values (l : ref) (name : string) : M (list float) :=
  df <- load l ;; lift (getitem_column df name).

(** [dataset.assign(name=x)]: a new frame. *)
Definition assign (l : ref) (name : string) (x : float) : M ref :=
  df <- load l ;; alloc (Pd.assign df name x).

(** [pd.DataFrame(index=idx, columns=names)]: a new frame. *)
Definition new (idx names : list string) : M ref :=
  alloc (DataFrame_empty idx names).

(** [dataset.append(other)]: a new frame. *)
Definition append (l other : ref) : M ref :=
  df <- load l ;; o <- load other ;; alloc (Pd.append df o).

(** [len(dataset.loc[mask])]. *)
Definition loc_len (l : ref) (mask : list bool) : M nat :=
  df <- load l ;; sel <- lift (Pd.getitem_mask df mask) ;; ret (length (index sel)).

(** [dataset.loc[mask, name] = vals]: in place. *)
Definition loc_setitem (l : ref) (mask : list bool) (name : string) (vals : list float) : M unit :=
  update l (fun df => Pd.loc_setitem df mask name vals).

(** [pd.date_range(start, periods=periods)[1:].strftime('%Y-%m-%d')]. *)
Definition date_range_tail (start : string) (periods : Z) : M (list string) :=
  dates <- lift (date_range start periods) ;;
  ret (map Calendar.strftime (drop 1 dates)).

End Frame.

(** ** covid.py *)

Module Covid.

Import Py Pd Store.
Local Open Scope py_scope.

(** The name that [dataset.assign(new_col_name=np.nan)] gives its column:
    the keyword itself. *)
Definition placeholder : string := "new_col_name".

(** [dataset.index >= start]. *)
Definition index_ge (idx : list string) (start : string) : list bool :=
  map (fun d => Str.ge d start) idx.

(** [stop >= dataset.index]. *)
Definition ge_index (stop : string) (idx : list string) : list bool :=
  map (fun d => Str.ge stop d) idx.

(** [m1 & m2]. *)
Definition mask_and (m1 m2 : list bool) : list bool := zip_with andb m1 m2.

(** [arg if arg else dflt]. *)
Definition if_else (arg : option string) (dflt : M string) : M string :=
  match arg with
  | Some s => if Str.truthy arg then ret s else dflt
  | None => dflt
  end.

(** The value of [arg if arg else idx[i]]. *)
Definition resolve (arg : option string) (idx : list string) (i : Z) : result string :=
  match arg with
  | Some s => if Str.truthy arg then Ok s else getitem idx i
  | None => getitem idx i
  end.

(** The 0-based position of row [i] among the rows of [idx] whose label is
    at least [start]. *)
Definition offset (idx : list string) (start : string) (i : nat) : nat :=
  length (filter (fun d => Str.ge d start = true) (take i idx)).

(** A daily cadence: every label reads as the day after the one before it. *)
Definition daily (idx : list string) : Prop :=
  forall i a b, idx !! i = Some a -> idx !! S i = Some b ->
    exists d, Calendar.parse_iso a = Some d /\ Calendar.parse_iso b = Some (Calendar.next_day d).

(** What a computation that returns a frame yields: the returned frame's
    contents, or the exception. *)
Definition outcome (m : M ref) (h : heap) : result (option DataFrame) :=
  match m h with
  | Ok (r, h') => Ok (h' !! r)
  | Raise e => Raise e
  end.

(** The columns after lines 66-69: the placeholder column is set to NaN and
    every column receives one NaN cell per appended label. *)
Definition padded (df : DataFrame) (ext : list string) : list (string * list float) :=
  map (fun kv => (fst kv, snd kv ++ replicate (length ext) Np.nan))
      (set_column placeholder (fun _ => replicate (length (index df)) Np.nan) (columns df)).

Section Projection.

(** [np.exp] on a float64. *)
Variable np_exp : float -> float.

(** [optimize.curve_fit(f, x, y, p0=p0)], its optimal parameters. *)
Variable curve_fit :
  (float -> float -> float -> float) -> list nat -> list float -> float * float ->
  result (float * float).

(** [lambda t, a, b: a * np.exp(b * t)]. *)
Definition exponential (t a b : float) : float :=
  PrimFloat.mul a (np_exp (PrimFloat.mul b t)).

(** One cell of [a * np.exp(b * x_e)]. *)
Definition projected (a b : float) (k : nat) : float :=
  PrimFloat.mul a (np_exp (PrimFloat.mul b (Np.of_int k))).

(** [a * np.exp(b * x_e)] over a range. *)
Definition projection (a b : float) (x_e : list nat) : list float :=
  map (projected a b) x_e.

Definition get_exponential (dataset : ref) (col_name new_col_name : string)
    (start stop : option string) (horizon : Z) : M ref :=
  start <- if_else start (Frame.index_getitem dataset (-28)) ;;
  stop <- if_else stop (Frame.index_getitem dataset (-1)) ;;
  idx <- Frame.get_index dataset ;;
  subset <- Frame.getitem_mask dataset (mask_and (ge_index stop idx) (index_ge idx start)) ;;
  sidx <- Frame.get_index subset ;;
  let x := range (length sidx) in
  y <- Frame.getitem_values subset col_name ;;
  ab <- lift (curve_fit exponential x y (PrimFloat.zero, PrimFloat.zero)) ;;
  let a := fst ab in
  let b := snd ab in
  dataset <- Frame.assign dataset placeholder Np.nan ;;
  last <- Frame.index_getitem dataset (-1) ;;
  index_extension <- Frame.date_range_tail last (horizon + 1) ;;
  names <- Frame.get_keys dataset ;;
  dataset_extension <- Frame.new index_extension names ;;
  dataset <- Frame.append dataset dataset_extension ;;
  idx <- Frame.get_index dataset ;;
  n <- Frame.loc_len dataset (index_ge idx start) ;;
  let x_e := range n in
  idx <- Frame.get_index dataset ;;
  Frame.loc_setitem dataset (index_ge idx start) new_col_name (projection a b x_e) ;;;
  ret dataset.

(** The cells of the new column after line 71, given what the column held
    before (nothing, when the column is new). *)
Definition written (idx : list string) (start : string) (a b : float)
    (old : option (list float)) : list float :=
  Np.scatter (index_ge idx start)
    (projection a b (range (Np.count (index_ge idx start))))
    (default (replicate (length idx) Np.nan) old).

(** *** The same computation on frame contents

    The steps of [get_exponential] as functions of the contents of the frame
    it is given; [get_exponential_run] below relates them to the computation
    on the store. *)

(** Lines 61-65: the parameters fitted over the rows between [start] and [stop]. *)
Definition fit (df : DataFrame) (col_name start stop : string) : result (float * float) :=
  (subset <~ Pd.getitem_mask df
              (mask_and (ge_index stop (index df)) (index_ge (index df) start)) ;;
   y <~ getitem_column subset col_name ;;
   curve_fit exponential (range (length (index subset))) y (PrimFloat.zero, PrimFloat.zero))%result.

(** Line 67: the labels appended to the index. *)
Definition index_extension (idx : list string) (horizon : Z) : result (list string) :=
  (last <~ getitem idx (-1) ;;
   dates <~ date_range last (horizon + 1) ;;
   Ok (map Calendar.strftime (drop 1 dates)))%result.

(** Lines 66-69: the frame with the placeholder column and the appended rows. *)
Definition extended (df : DataFrame) (horizon : Z) : result DataFrame :=
  (let df1 := Pd.assign df placeholder Np.nan in
   ext <~ index_extension (index df1) horizon ;;
   Ok (Pd.append df1 (DataFrame_empty ext (keys df1))))%result.

(** Lines 59-72: the contents of the frame that a call returns. *)
Definition returned (df : DataFrame) (col_name new_col_name : string)
    (start stop : option string) (horizon : Z) : result DataFrame :=
  (start <~ resolve start (index df) (-28) ;;
   stop <~ resolve stop (index df) (-1) ;;
   ab <~ fit df col_name start stop ;;
   big <~ extended df horizon ;;
   let mask := index_ge (index big) start in
   sel <~ Pd.getitem_mask big mask ;;
   Pd.loc_setitem big mask new_col_name
     (projection (fst ab) (snd ab) (range (length (index sel)))))%result.

End Projection.

End Covid.

(** ** Example data

    Stand-ins for the two numerical routines and a few small frames, on which
    the computation can be run. *)

Module Demo.

Import Py Pd Store.

(** A stand-in for [np.exp]: its Taylor polynomial of degree two, exact at 0. *)
Definition exp_taylor (x : float) : float :=
  PrimFloat.add 1%float (PrimFloat.add x (PrimFloat.div (PrimFloat.mul x x) 2%float)).

(** A stand-in for [curve_fit] on constant series: for [y = c, c, ...] with at
    least two points the least-squares optimum is [a = c], [b = 0], with no
    residual. Fewer than two points are refused as the parameters outnumber
    them, and other series are not fitted. *)
Definition fit_constant (f : float -> float -> float -> float) (x : list nat)
    (y : list float) (p0 : float * float) : result (float * float) :=
  match y with
  | c :: _ :: _ =>
      if forallb (PrimFloat.eqb c) y then Ok (c, PrimFloat.zero) else Raise RuntimeError
  | _ => Raise TypeError
  end.

(** Three days of a constant series. *)
Definition september : DataFrame :=
  {| index := ["2021-09-08"; "2021-09-09"; "2021-09-10"];
     columns := [("cases", [5%float; 5%float; 5%float])] |}.

(** The same days, with a column that already bears the name asked for the
    projection. *)
Definition reprojected : DataFrame :=
  {| index := ["2021-09-08"; "2021-09-09"; "2021-09-10"];
     columns := [("cases", [5%float; 5%float; 5%float]);
                 ("cases_exp", [7%float; 7%float; 7%float])] |}.

(** The same days, with a column that bears the placeholder's name. *)
Definition with_placeholder : DataFrame :=
  {| index := ["2021-09-08"; "2021-09-09"; "2021-09-10"];
     columns := [("cases", [5%float; 5%float; 5%float]);
                 ("new_col_name", [1%float; 2%float; 3%float])] |}.

(** Twenty-nine consecutive days ending on 2021-09-10. *)
Definition month : DataFrame :=
  {| index := map Calendar.strftime (Calendar.days_from (Calendar.Date 2021 8 13) 29);
     columns := [("cases", replicate 29 5%float)] |}.

(** A store holding one frame, at address 0. *)
Definition store_of (df : DataFrame) : heap := [df].

(** The store that a computation leaves, when it returns. *)
Definition store_after {A : Type} (m : M A) (h : heap) : heap :=
  match m h with
  | Ok (_, h') => h'
  | Raise _ => h
  end.

End Demo.

(** ** The rest of covid.py: downloading, drawing, saving

    The functions around [get_exponential]: [download_data], the decorator
    [handle_fig], the three views and [robot_export].

    - What they do to the outside (matplotlib calls, the pickled file) is
      recorded in order, as a list of effects; whether a figure file can be
      written is outside the model. [pd.read_csv] and [Series.max] are
      parameters.
    - A computation ends with a value or an exception, and in both cases with
      the world it leaves: frames modified and figures saved before an
      exception stay so.
    - Keyword arguments are a dictionary of booleans and strings; the views
      are applied to the frame as their one positional argument, as
      everywhere in the file.
    - Paths are joined as on a POSIX system. *)

(** *** os.path *)

Module Os.

(** [s.startswith('/')]. *)
Definition startswith_sep (s : string) : bool :=
  match s with
  | String c _ => Ascii.eqb c "/"
  | EmptyString => false
  end.

(** [s.endswith('/')]. *)
Fixpoint endswith_sep (s : string) : bool :=
  match s with
  | EmptyString => false
  | String c EmptyString => Ascii.eqb c "/"
  | String _ rest => endswith_sep rest
  end.

(** [os.path.join(a, b)]. *)
Definition path_join (a b : string) : string :=
  if startswith_sep b then b
  else if String.eqb a "" || endswith_sep a then String.append a b
  else String.append a (String "/" b).

End Os.

(** *** Keyword arguments *)

Module Kw.

Import Py.

Inductive value :=
| Bool (b : bool)
| Text (s : string).

Definition dict := list (string * value).

Fixpoint get (d : dict) (k : string) : option value :=
  match d with
  | [] => None
  | (k', v) :: rest => if String.eqb k' k then Some v else get rest k
  end.

(** [k in d]. *)
Definition contains (k : string) (d : dict) : bool :=
  match get d k with
  | Some _ => true
  | None => false
  end.

(** [d[k]]. *)
Definition getitem (d : dict) (k : string) : result value :=
  match get d k with
  | Some v => Ok v
  | None => Raise (KeyError k)
  end.

(** Truthiness: [False] and the empty string are falsy. *)
Definition truthy (v : value) : bool :=
  match v with
  | Bool b => b
  | Text s => negb (String.eqb s "")
  end.

End Kw.

(** *** Series arithmetic and more of pandas *)

Module Series.

(** [a - b] on two columns of one frame. *)
Definition sub (a b : list float) : list float := zip_with PrimFloat.sub a b.

(** [a + b] on two columns of one frame. *)
Definition add (a b : list float) : list float := zip_with PrimFloat.add a b.

End Series.

Module Table.

Import Py Pd.

(** [df[name] = vals], with [vals] a column of [df]: as a function of the
    frame's contents. *)
Definition setitem (df : DataFrame) (name : string) (vals : list float) : DataFrame :=
  {| index := index df;
     columns := set_column name (fun _ => vals) (columns df) |}.

(** The positions of [label] in [idx], counted from [k]. *)
Fixpoint positions (k : nat) (label : string) (idx : list string) : list nat :=
  match idx with
  | [] => []
  | a :: rest =>
      (if String.eqb a label then [k] else []) ++ positions (S k) label rest
  end.

(** The rows of the other frame that a row labelled [label] is joined with:
    those with that label, or else none, which gives one row of NaN. *)
Definition matches (label : string) (idx : list string) : list (option nat) :=
  match positions 0 label idx with
  | [] => [None]
  | js => map Some js
  end.

Definition cell (v : list float) (o : option nat) : float :=
  match o with
  | Some j => default Np.nan (v !! j)
  | None => Np.nan
  end.

(** [Index.is_unique]: no label twice. *)
Fixpoint is_unique (idx : list string) : bool :=
  match idx with
  | [] => true
  | a :: rest => negb (existsb (String.eqb a) rest) && is_unique rest
  end.

(** A row, known by its label and position, put into rows sorted by label:
    before the first row whose label is not smaller. *)
Fixpoint insert_row (a : string * nat) (rows : list (string * nat)) : list (string * nat) :=
  match rows with
  | [] => [a]
  | b :: rest => if String.leb (fst a) (fst b) then a :: b :: rest else b :: insert_row a rest
  end.

(** The positions of the rows in the order of their labels, rows of one label
    in the order they had: a stable sort. *)
Definition sorter (idx : list string) : list nat :=
  map snd (foldr insert_row [] (zip idx (seq 0 (length idx)))).

(** [df.take(rows)]: the rows at the given positions. *)
Definition take_rows (df : DataFrame) (rows : list nat) : DataFrame :=
  {| index := omap (fun i => index df !! i) rows;
     columns := map (fun kv => (fst kv, map (fun i => default Np.nan (snd kv !! i)) rows))
                    (columns df) |}.

(** [df.join(other)]: a left join on the index. Names that are columns of
    both frames are refused, as no suffix is given. Each row of [df] is joined
    with the rows of [other] that bear its label, in their order, or with
    NaN when there is none. The rows of [df] keep their order when no label is
    repeated in either index, or when [other] has no row; pandas sorts them
    by label otherwise. *)
Definition join (df other : DataFrame) : result DataFrame :=
  if existsb (fun k => has_column k (columns df)) (keys other) then Raise ValueError
  else
    let df :=
      if (is_unique (index df) && is_unique (index other))
         || Nat.eqb (length (index other)) 0
      then df
      else take_rows df (sorter (index df)) in
    let rows := map (fun a => matches a (index other)) (index df) in
    Ok {| index := concat (zip_with (fun a ms => map (fun _ => a) ms) (index df) rows);
          columns :=
            map (fun kv =>
                   (fst kv,
                    concat (zip_with (fun x ms => map (fun _ : option nat => x) ms)
                              (snd kv) rows)))
                (columns df)
            ++ map (fun kv => (fst kv, concat (map (map (cell (snd kv))) rows)))
                   (columns other) |}.

End Table.

Module Object.

Import Py Pd Store.
Local Open Scope py_scope.

(** [dataframe[name] = vals]: in place. *)
Definition setitem (l : ref) (name : string) (vals : list float) : M unit :=
  update l (fun df => Ok (Table.setitem df name vals)).

(** [dataframe.loc[:, name] = vals]: in place. *)
Definition loc_setitem_all (l : ref) (name : string) (vals : list float) : M unit :=
  update l (fun df => Ok (Table.setitem df name vals)).

(** [dataframe.copy()]: a new frame. *)
Definition copy (l : ref) : M ref :=
  df <- load l ;; alloc df.

(** [dataframe.join(other)]: a new frame. *)
Definition join (l other : ref) : M ref :=
  df <- load l ;; o <- load other ;; j <- lift (Table.join df o) ;; alloc j.

End Object.

(** *** matplotlib *)

Module Plt.

(** A figure, known by the name of its window. *)
Definition Figure := string.

Inductive axis := xaxis | yaxis.

Inductive formatter :=
| thousands        (* FuncFormatter(lambda x, p: "{}k".format(int(int(x) / 1000))) *)
| ScalarFormatter.

Inductive call :=
| figure (num : string) (figsize : Z * Z)
| gca
| plot (x : list string) (y : list float) (fmt : string)
       (linestyle marker label : option string)
| fill_between (x : list string) (y1 y2 : list float) (color label : string)
| xlim (left right : string)
| ylim (bottom : Z) (top : float)
| set_major_locator (a : axis) (MaxNLocator : Z)
| xticks (rotation : Z)
| grid
| legend
| set_major_formatter (a : axis) (f : formatter)
| tight_layout
| savefig (fig : Figure) (fname : string) (dpi : Z)
| close (fig : Figure)
| clf (fig : Figure)
| show.

End Plt.

(** *** The world of a run: frames, and what was drawn and written *)

Module World.

Import Py Pd Store.

Inductive effect :=
| Draw (c : Plt.call)
| to_pickle (path : string) (df : DataFrame).

#[projections(primitive=yes)]
Record world := mkWorld {
  frames : heap;
  effects : list effect
}.

Inductive error :=
| Exn (e : exn)
| UnboundLocalError (name : string).

Inductive outcome (A : Type) :=
| Returns (a : A) (w : world)
| Raises (e : error) (w : world).

Arguments Returns {A} a w.
Arguments Raises {A} e w.

(** The world that a run leaves. *)
Definition final {A : Type} (o : outcome A) : world :=
  match o with
  | Returns _ w => w
  | Raises _ w => w
  end.

Definition W (A : Type) : Type := world -> outcome A.

Definition ret {A : Type} (a : A) : W A := fun w => Returns a w.

Definition raise {A : Type} (e : error) : W A := fun w => Raises e w.

Definition bind {A B : Type} (m : W A) (k : A -> W B) : W B :=
  fun w =>
    match m w with
    | Returns a w' => k a w'
    | Raises e w' => Raises e w'
    end.

Definition lift {A : Type} (r : result A) : W A :=
  match r with
  | Ok a => ret a
  | Raise e => raise (Exn e)
  end.

(** A computation on the store. When it raises, the frames it had made are
    no longer reachable, and those it was given are as they were. *)
Definition run {A : Type} (m : M A) : W A :=
  fun w =>
    match m (frames w) with
    | Ok (a, h) => Returns a {| frames := h; effects := effects w |}
    | Raise e => Raises (Exn e) w
    end.

Definition emit (e : effect) : W unit :=
  fun w => Returns tt {| frames := frames w; effects := effects w ++ [e] |}.

Definition draw (c : Plt.call) : W unit := emit (Draw c).

Declare Scope world_scope.
Delimit Scope world_scope with world.

Notation "x <- c1 ;; c2" := (bind c1 (fun x => c2))
  (at level 100, c1 at next level, right associativity) : world_scope.
Notation "c1 ;;; c2" := (bind c1 (fun _ => c2))
  (at level 100, right associativity) : world_scope.

(** [for x in l: last = body(x)], giving the value of [last] after the loop,
    if the loop has set it. *)
Fixpoint for_each {A B : Type} (l : list A) (body : A -> W B) (last : option B)
    : W (option B) :=
  match l with
  | [] => ret last
  | x :: rest => bind (body x) (fun b => for_each rest body (Some b))
  end.

(** Reading a variable that a loop sets. *)
Definition local {B : Type} (name : string) (v : option B) : W B :=
  match v with
  | Some b => ret b
  | None => raise (UnboundLocalError name)
  end.

(** The run of [m] from [w] returns a value and a world in [Q], or raises an
    exception in a world in [E]. *)
Definition wp {A : Type} (m : W A) (Q : A -> world -> Prop)
    (E : error -> world -> Prop) (w : world) : Prop :=
  match m w with
  | Returns a w' => Q a w'
  | Raises e w' => E e w'
  end.

(** The calls to [fill_between] among some effects. *)
Definition is_fill_between (e : effect) : bool :=
  match e with
  | Draw (Plt.fill_between _ _ _ _ _) => true
  | _ => false
  end.

(** The effects that reach the user: files written, windows opened, closed
    and shown. *)
Definition is_output (e : effect) : bool :=
  match e with
  | to_pickle _ _ => true
  | Draw (Plt.figure _ _) => true
  | Draw (Plt.savefig _ _ _) => true
  | Draw (Plt.close _) => true
  | Draw (Plt.clf _) => true
  | Draw Plt.show => true
  | _ => false
  end.

End World.

(** *** covid.py, lines 10-42 and 74-235 *)

Module Td.

(** An entry of [to_draw]: column name, plot label, plot colour. *)
Record t := mk { n : string; l : string; c : string }.

End Td.

Module Script.

Import Py Pd Store World.
Local Open Scope world_scope.

(** [FIG_PATH = os.path.join("figs")]. *)
Definition FIG_PATH : string := "figs".

Definition DATES : list (string * string) :=
  [("new_age", "2020-09-01"); ("wave3", "2021-08-30")].

(** [DATES[key]]. *)
Definition DATES_getitem (key : string) : W string :=
  match List.find (fun kv => String.eqb (fst kv) key) DATES with
  | Some kv => ret (snd kv)
  | None => raise (Exn (KeyError key))
  end.

Definition URL_BASE : string :=
  "https://onemocneni-aktualne.mzcr.cz/api/v2/covid-19/nakazeni-vyleceni-umrti-testy.csv".

Definition URL_HOSP : string :=
  "https://onemocneni-aktualne.mzcr.cz/api/v2/covid-19/hospitalizace.csv".

(** [dataframe.index > date]. *)
Definition index_gt (idx : list string) (date : string) : list bool :=
  map (fun d => Str.gt d date) idx.

(** [os.path.join(FIG_PATH, kwargs["filename"])]: a name that is not a string
    is refused. *)
Definition figure_path (name : Kw.value) : W string :=
  match name with
  | Kw.Text s => ret (Os.path_join FIG_PATH s)
  | Kw.Bool _ => raise (Exn TypeError)
  end.

(** Lines 25-42: what [handle_fig(func)] is, applied to a frame and keyword
    arguments. *)
Definition handle_fig (func : ref -> Kw.dict -> W Plt.Figure)
    (dataframe : ref) (kwargs : Kw.dict) : W unit :=
  fig <- func dataframe kwargs ;;
  (if Kw.contains "filename" kwargs then
     name <- lift (Kw.getitem kwargs "filename") ;;
     filepath <- figure_path name ;;
     draw (Plt.savefig fig filepath 100)
   else ret tt) ;;;
  display <- lift (Kw.getitem kwargs "display") ;;
  if negb (Kw.truthy display) then
    draw (Plt.close fig) ;;;
    draw (Plt.clf fig)
  else ret tt.

(** The call [func(dataframe, **kwargs)] of a view: a keyword named as the
    positional parameter is refused. *)
Definition apply_view (body : W Plt.Figure) (kwargs : Kw.dict) : W Plt.Figure :=
  if Kw.contains "dataframe" kwargs then raise (Exn TypeError) else body.

Section Views.

Variable np_exp : float -> float.

Variable curve_fit :
  (float -> float -> float -> float) -> list nat -> list float -> float * float ->
  result (float * float).

(** [Series.max()]. *)
Variable series_max : list float -> float.

(** [pd.read_csv(url, index_col=index_col)]: what the download gives. *)
Variable read_csv : string -> string -> result DataFrame.

Abbreviation get_exponential := (Covid.get_exponential np_exp curve_fit).

(** Lines 10-23. *)
Definition download_data (data_path : string) : W ref :=
  base <- lift (read_csv URL_BASE "datum") ;;
  dataframe_base <- run (alloc base) ;;
  hosp <- lift (read_csv URL_HOSP "datum") ;;
  dataframe_hosp <- run (alloc hosp) ;;
  dataframe <- run (Object.join dataframe_base dataframe_hosp) ;;
  df <- run (load dataframe) ;;
  emit (to_pickle data_path df) ;;;
  ret dataframe.

(** The right-hand side of lines 86 and 172: infected, less dead, less
    recovered. *)
Definition currently_infected (dataframe : ref) : W (list float) :=
  a <- run (Frame.getitem_values dataframe "kumulativni_pocet_nakazenych") ;;
  b <- run (Frame.getitem_values dataframe "kumulativni_pocet_umrti") ;;
  c <- run (Frame.getitem_values dataframe "kumulativni_pocet_vylecenych") ;;
  ret (Series.sub (Series.sub a b) c).

(** [dataframe[dataframe.index > DATES["new_age"]]]. *)
Definition since_new_age (dataframe : ref) : W ref :=
  idx <- run (Frame.get_index dataframe) ;;
  new_age <- DATES_getitem "new_age" ;;
  run (Frame.getitem_mask dataframe (index_gt idx new_age)).

(** The body of the loops of lines 100-104 and 188-192, which differ in the
    marker: a series and its projection. *)
Definition plot_with_trend (marker : string) (subset : ref) (td : Td.t) : W ref :=
  let new_column_name := String.append (Td.n td) "_exp" in
  wave3 <- DATES_getitem "wave3" ;;
  augmented_subset <-
    run (get_exponential subset (Td.n td) new_column_name (Some wave3) None 14) ;;
  idx <- run (Frame.get_index augmented_subset) ;;
  y <- run (Frame.getitem_values augmented_subset (Td.n td)) ;;
  draw (Plt.plot idx y (Td.c td) (Some "-") (Some marker) (Some (Td.l td))) ;;;
  idx <- run (Frame.get_index augmented_subset) ;;
  y <- run (Frame.getitem_values augmented_subset new_column_name) ;;
  draw (Plt.plot idx y (String.append ":" (Td.c td)) None None None) ;;;
  ret augmented_subset.

(** Lines 105-113, 149-157 and 193-201: limits, ticks, grid, legend; they
    differ in the column that bounds the y axis and in the tick labels. *)
Definition decorate (augmented_subset : option ref) (subset : ref) (ycol : string)
    (f : Plt.formatter) : W unit :=
  augmented_subset <- local "augmented_subset" augmented_subset ;;
  left <- run (Frame.index_getitem augmented_subset 0) ;;
  right <- run (Frame.index_getitem augmented_subset (-1)) ;;
  draw (Plt.xlim left right) ;;;
  y <- run (Frame.getitem_values subset ycol) ;;
  (* 0x1.0cccccccccccdp+0 is the float64 of 1.05 *)
  draw (Plt.ylim 0 (PrimFloat.mul (series_max y) 0x1.0cccccccccccdp+0%float)) ;;;
  draw (Plt.set_major_locator Plt.xaxis 100) ;;;
  draw (Plt.set_major_locator Plt.yaxis 25) ;;;
  draw (Plt.xticks 90) ;;;
  draw Plt.grid ;;;
  draw Plt.legend ;;;
  draw (Plt.set_major_formatter Plt.yaxis f) ;;;
  draw Plt.tight_layout.

(** Lines 75-114, before decoration. *)
Definition basic_view_figure (dataframe : ref) (kwargs : Kw.dict) : W Plt.Figure :=
  apply_view
    (let FIGSIZE := (19, 8)%Z in
     let WINDOWNAME := "Základní přehled" in
     infected <- currently_infected dataframe ;;
     run (Object.setitem dataframe "aktualne_nakazenych" infected) ;;;
     subset <- since_new_age dataframe ;;
     draw (Plt.figure WINDOWNAME FIGSIZE) ;;;
     draw Plt.gca ;;;
     let to_draw :=
       [Td.mk "aktualne_nakazenych" "Aktualně nakažení" "r";
        Td.mk "pocet_hosp" "Počet hospitalizovaných" "k";
        Td.mk "prirustkovy_pocet_nakazenych" "Přírustkový počet hospitalizovaných" "b";
        Td.mk "prirustkovy_pocet_provedenych_testu" "Počet testů" "y"] in
     augmented_subset <- for_each to_draw (plot_with_trend "x" subset) None ;;
     decorate augmented_subset subset "aktualne_nakazenych" Plt.thousands ;;;
     ret WINDOWNAME)
    kwargs.

(** The body of the loop of lines 142-148: one more band of the stack, and
    the projection of its upper edge. *)
Definition stack_band (subset : ref) (td : Td.t) : W ref :=
  next <- run (Frame.getitem_values subset "sum td next") ;;
  run (Object.setitem subset "sum td prev" next) ;;;
  next <- run (Frame.getitem_values subset "sum td next") ;;
  col <- run (Frame.getitem_values subset (Td.n td)) ;;
  run (Object.setitem subset "sum td next" (Series.add next col)) ;;;
  let new_column_name := String.append (Td.n td) "_exp" in
  wave3 <- DATES_getitem "wave3" ;;
  augmented_subset <-
    run (get_exponential subset "sum td next" new_column_name (Some wave3) None 14) ;;
  idx <- run (Frame.get_index subset) ;;
  prev <- run (Frame.getitem_values subset "sum td prev") ;;
  next <- run (Frame.getitem_values subset "sum td next") ;;
  draw (Plt.fill_between idx prev next (Td.c td) (Td.l td)) ;;;
  idx <- run (Frame.get_index augmented_subset) ;;
  y <- run (Frame.getitem_values augmented_subset new_column_name) ;;
  draw (Plt.plot idx y (String.append ":" (Td.c td)) None None None) ;;;
  ret augmented_subset.

(** Lines 117-158, before decoration. *)
Definition hospi_view_figure (dataframe : ref) (kwargs : Kw.dict) : W Plt.Figure :=
  apply_view
    (let FIGSIZE := (19, 8)%Z in
     let WINDOWNAME := "Hospitalizace" in
     draw (Plt.figure WINDOWNAME FIGSIZE) ;;;
     draw Plt.gca ;;;
     let to_draw :=
       [Td.mk "stav_tezky" "Hospitalizováni ve vážném stavu" "k";
        Td.mk "stav_stredni" "Hospitalizováni se středně těžkými příznaky" "r";
        Td.mk "stav_lehky" "Hospitalizováni s lehkými příznaky" "y";
        Td.mk "stav_bez_priznaku" "Hospitalizováni bez příznaků" "g"] in
     selected <- since_new_age dataframe ;;
     subset <- run (Object.copy selected) ;;
     a <- run (Frame.getitem_values subset "pocet_hosp") ;;
     b <- run (Frame.getitem_values subset "pocet_hosp") ;;
     run (Object.setitem subset "sum td next" (Series.sub a b)) ;;;
     augmented_subset <- for_each to_draw (stack_band subset) None ;;
     decorate augmented_subset subset "pocet_hosp" Plt.ScalarFormatter ;;;
     ret WINDOWNAME)
    kwargs.

(** Lines 161-202, before decoration. *)
Definition incrm_view_figure (dataframe : ref) (kwargs : Kw.dict) : W Plt.Figure :=
  apply_view
    (let FIGSIZE := (19, 8)%Z in
     let WINDOWNAME := "Denní přírůstky" in
     infected <- currently_infected dataframe ;;
     run (Object.loc_setitem_all dataframe "aktualne_nakazenych" infected) ;;;
     selected <- since_new_age dataframe ;;
     subset <- run (Object.copy selected) ;;
     draw (Plt.figure WINDOWNAME FIGSIZE) ;;;
     draw Plt.gca ;;;
     let to_draw :=
       [Td.mk "prirustkovy_pocet_nakazenych" "Denně nakažení" "b";
        Td.mk "prirustkovy_pocet_vylecenych" "Denně vyléčení" "g";
        Td.mk "pacient_prvni_zaznam" "Nově hospitalizovaní" "r";
        Td.mk "prirustkovy_pocet_umrti" "Denně mrtví" "k"] in
     augmented_subset <- for_each to_draw (plot_with_trend "+" subset) None ;;
     decorate augmented_subset subset "prirustkovy_pocet_nakazenych" Plt.ScalarFormatter ;;;
     ret WINDOWNAME)
    kwargs.

(** The three views, decorated. *)
Definition basic_view : ref -> Kw.dict -> W unit := handle_fig basic_view_figure.

Definition hospi_view : ref -> Kw.dict -> W unit := handle_fig hospi_view_figure.

Definition incrm_view : ref -> Kw.dict -> W unit := handle_fig incrm_view_figure.

(** Lines 204-213. *)
Definition robot_export (path : option string) : W unit :=
  let path := if Str.truthy path then path else Some FIG_PATH in
  dataframe <- download_data "data.pckl" ;;
  basic_view dataframe
    [("display", Kw.Bool false); ("filename", Kw.Text "basic_overview.png")].

(** Lines 224-235: the script. *)
Definition main : W unit :=
  dataframe <- download_data "data.pckl" ;;
  basic_view dataframe
    [("display", Kw.Bool true); ("filename", Kw.Text "basic_overview.png")] ;;;
  hospi_view dataframe
    [("display", Kw.Bool false); ("filename", Kw.Text "hospi_overview.png")] ;;;
  incrm_view dataframe
    [("display", Kw.Bool false); ("filename", Kw.Text "incrm_overview.png")] ;;;
  draw Plt.show.

End Views.

End Script.

(** *** Example data for the views *)

Module Sample.

Import Py Pd Store World.

(** A stand-in for [Series.max]: the largest of the cells that are not NaN. *)
Definition largest (cells : list float) : float :=
  fold_left (fun m x => if PrimFloat.ltb m x then x else m) cells PrimFloat.neg_infinity.

(** Two days of the first download, and of the second. *)
Definition base : DataFrame :=
  {| index := ["2021-08-30"; "2021-08-31"];
     columns :=
       [("kumulativni_pocet_nakazenych", [9%float; 9%float]);
        ("kumulativni_pocet_vylecenych", [3%float; 3%float]);
        ("kumulativni_pocet_umrti", [1%float; 1%float]);
        ("prirustkovy_pocet_nakazenych", [4%float; 4%float]);
        ("prirustkovy_pocet_vylecenych", [2%float; 2%float]);
        ("prirustkovy_pocet_umrti", [1%float; 1%float]);
        ("prirustkovy_pocet_provedenych_testu", [7%float; 7%float])] |}.

Definition hosp : DataFrame :=
  {| index := ["2021-08-30"; "2021-08-31"];
     columns :=
       [("pacient_prvni_zaznam", [1%float; 1%float]);
        ("pocet_hosp", [10%float; 10%float]);
        ("stav_bez_priznaku", [4%float; 4%float]);
        ("stav_lehky", [3%float; 3%float]);
        ("stav_stredni", [2%float; 2%float]);
        ("stav_tezky", [1%float; 1%float])] |}.

(** A stand-in for [pd.read_csv]: the two frames above at the two addresses. *)
Definition downloads (url index_col : string) : result DataFrame :=
  if String.eqb url Script.URL_BASE then Ok base
  else if String.eqb url Script.URL_HOSP then Ok hosp
  else Raise RuntimeError.

(** The two downloads, joined. *)
Definition data : DataFrame :=
  {| index := index base; columns := columns base ++ columns hosp |}.

(** Data that stop on the first day of the third wave. *)
Definition stale : DataFrame :=
  {| index := ["2021-08-29"; "2021-08-30"];
     columns :=
       [("kumulativni_pocet_nakazenych", [9%float; 9%float]);
        ("kumulativni_pocet_vylecenych", [3%float; 3%float]);
        ("kumulativni_pocet_umrti", [1%float; 1%float])] |}.

(** A frame with a column and no row. *)
Definition no_rows : DataFrame :=
  {| index := []; columns := [("cases", [])] |}.

(** A world holding one frame, at address 0, where nothing has been drawn. *)
Definition world_of (df : DataFrame) : world := mkWorld [df] [].

End Sample.

(** * Properties *)

Import Py Pd Store Covid.

(** ** Running computations on the store *)

Section StoreFacts.

Lemma bind_run {A B} (m : M A) (k : A -> M B) h :
  bind m k h = match m h with Ok (a, h') => k a h' | Raise e => Raise e end.
Proof. reflexivity. Qed.

Lemma lookup_new (h : list DataFrame) df : (h ++ [df]) !! length h = Some df.
Proof. by apply list_lookup_middle. Qed.

Lemma lookup_old (h : list DataFrame) df l x :
  h !! l = Some x -> (h ++ [df]) !! l = Some x.
Proof. apply lookup_app_l_Some. Qed.

Lemma update_new (h : list DataFrame) df df' :
  <[length h := df']> (h ++ [df]) = h ++ [df'].
Proof. rewrite insert_app_r_alt by lia. by rewrite Nat.sub_diag. Qed.

Lemma if_else_run arg l i (h : list DataFrame) df :
  h !! l = Some df ->
  if_else arg (Frame.index_getitem l i) h =
  match resolve arg (index df) i with Ok s => Ok (s, h) | Raise e => Raise e end.
Proof.
  intros Hl. unfold if_else, resolve.
  assert (D : Frame.index_getitem l i h =
              match getitem (index df) i with Ok s => Ok (s, h) | Raise e => Raise e end).
  { unfold Frame.index_getitem, Frame.get_index, bind, load, lift, ret. by rewrite Hl. }
  destruct arg as [s|]; [destruct (Str.truthy (Some s))|]; auto.
Qed.

End StoreFacts.

(** ** Masks, selection and masked assignment *)

Section NpFacts.

Context {A : Type}.

Lemma select_length (mask : list bool) (l : list A) :
  length mask = length l -> length (Np.select mask l) = Np.count mask.
Proof.
  revert l. induction mask as [|m mask IH]; intros [|x l] E; simpl in *; try lia.
  injection E as E. destruct m; simpl; rewrite IH; auto.
Qed.

Lemma count_le_length (mask : list bool) : Np.count mask <= length mask.
Proof. induction mask as [|[] mask IH]; simpl; lia. Qed.

Lemma count_take_lt (mask : list bool) (i : nat) :
  mask !! i = Some true -> Np.count (take i mask) < Np.count mask.
Proof.
  revert i. induction mask as [|m mask IH]; intros [|i] H; simpl in *; try discriminate.
  - injection H as ->. lia.
  - specialize (IH _ H). lia.
Qed.

Lemma count_app (m1 m2 : list bool) : Np.count (m1 ++ m2) = Np.count m1 + Np.count m2.
Proof. induction m1 as [|[] m1 IH]; simpl; lia. Qed.

Lemma scatter_length (mask : list bool) (vals old : list float) :
  length (Np.scatter mask vals old) = length old.
Proof.
  revert vals old. induction mask as [|m mask IH]; intros vals [|o old]; simpl; auto.
  destruct m; [destruct vals|]; simpl; rewrite IH; auto.
Qed.

Lemma scatter_lookup_false (mask : list bool) (vals old : list float) (i : nat) :
  mask !! i = Some false -> Np.scatter mask vals old !! i = old !! i.
Proof.
  revert vals old i. induction mask as [|m mask IH]; intros vals [|o old] [|i] H;
    simpl in *; try discriminate; auto.
  - injection H as ->. reflexivity.
  - destruct m; [destruct vals|]; simpl; apply IH; auto.
Qed.

Lemma scatter_lookup_true (mask : list bool) (vals old : list float) (i : nat) :
  length mask <= length old -> Np.count mask <= length vals ->
  mask !! i = Some true ->
  Np.scatter mask vals old !! i = vals !! Np.count (take i mask).
Proof.
  revert vals old i. induction mask as [|m mask IH]; intros vals [|o old] [|i] L C H;
    simpl in *; try discriminate; try lia.
  - injection H as ->. destruct vals; simpl in *; [lia|reflexivity].
  - destruct m; [destruct vals as [|v vals]|]; simpl in *; try lia.
    + apply IH; auto; lia.
    + apply IH; auto; lia.
Qed.

End NpFacts.

(** ** Columns of a frame *)

Section PdFacts.

Implicit Types (cols : list (string * list float)) (c n : string).

Lemma has_column_In c cols : has_column c cols = true <-> In c (map fst cols).
Proof.
  unfold has_column. rewrite existsb_exists. split.
  - intros (k & Hk & E). apply String.eqb_eq in E. by subst.
  - intros H. exists c. split; [done|]. apply String.eqb_refl.
Qed.

Lemma has_column_not_In c cols : has_column c cols = false <-> ~ In c (map fst cols).
Proof.
  rewrite <- has_column_In. destruct (has_column c cols); split; congruence.
Qed.

Lemma lookup_column_Some_In c cols v : lookup_column c cols = Some v -> In c (map fst cols).
Proof.
  induction cols as [|[k w] cols IH]; simpl; [discriminate|].
  destruct (String.eqb k c) eqn:E; [apply String.eqb_eq in E; auto|auto].
Qed.

Lemma lookup_column_In c cols : In c (map fst cols) -> exists v, lookup_column c cols = Some v.
Proof.
  induction cols as [|[k w] cols IH]; simpl; [tauto|].
  destruct (String.eqb k c) eqn:E; [eauto|].
  intros [->|H]; [by rewrite String.eqb_refl in E|auto].
Qed.

Lemma lookup_column_None c cols : ~ In c (map fst cols) -> lookup_column c cols = None.
Proof.
  intros H. destruct (lookup_column c cols) eqn:E; [|done].
  by apply lookup_column_Some_In in E.
Qed.

Lemma lookup_column_elem c cols v :
  lookup_column c cols = Some v -> In (c, v) cols.
Proof.
  induction cols as [|[k w] cols IH]; simpl; [discriminate|].
  destruct (String.eqb k c) eqn:E; [|auto].
  apply String.eqb_eq in E. intros [= ->]. subst. auto.
Qed.

Lemma lookup_column_map c cols (g : string -> list float -> list float) :
  lookup_column c (map (fun kv => (fst kv, g (fst kv) (snd kv))) cols)
  = option_map (g c) (lookup_column c cols).
Proof.
  induction cols as [|[k w] cols IH]; simpl; [done|].
  destruct (String.eqb k c) eqn:E; [|done].
  apply String.eqb_eq in E. by subst.
Qed.

Lemma keys_map cols (g : string -> list float -> list float) :
  map fst (map (fun kv => (fst kv, g (fst kv) (snd kv))) cols) = map fst cols.
Proof. rewrite map_map. reflexivity. Qed.

Lemma lookup_column_app c cols1 cols2 :
  lookup_column c (cols1 ++ cols2) =
  match lookup_column c cols1 with
  | Some v => Some v
  | None => lookup_column c cols2
  end.
Proof.
  induction cols1 as [|[k w] cols1 IH]; simpl; [done|].
  by destruct (String.eqb k c).
Qed.

Lemma lookup_set_column_eq n f cols :
  lookup_column n (set_column n f cols) = Some (f (lookup_column n cols)).
Proof.
  unfold set_column. destruct (has_column n cols) eqn:H.
  - apply has_column_In in H. clear -H.
    induction cols as [|[k w] cols IH]; simpl in *; [tauto|].
    destruct (String.eqb k n) eqn:E; simpl; rewrite E; [done|].
    destruct H as [->|H]; [by rewrite String.eqb_refl in E|auto].
  - apply has_column_not_In in H. rewrite lookup_column_app, (lookup_column_None _ _ H).
    simpl. by rewrite String.eqb_refl.
Qed.

Lemma lookup_set_column_ne c n f cols :
  c <> n -> lookup_column c (set_column n f cols) = lookup_column c cols.
Proof.
  intros Hne. unfold set_column. destruct (has_column n cols).
  - induction cols as [|[k w] cols IH]; simpl; [done|].
    destruct (String.eqb k n) eqn:E; simpl.
    + apply String.eqb_eq in E. subst k.
      destruct (String.eqb n c) eqn:E'; [apply String.eqb_eq in E'; congruence|done].
    + destruct (String.eqb k c); [done|apply IH].
  - rewrite lookup_column_app. destruct (lookup_column c cols); [done|].
    simpl. destruct (String.eqb n c) eqn:E'; [apply String.eqb_eq in E'; congruence|done].
Qed.

Lemma keys_set_column n f cols :
  map fst (set_column n f cols) =
  if has_column n cols then map fst cols else map fst cols ++ [n].
Proof.
  unfold set_column. destruct (has_column n cols).
  - rewrite map_map. apply map_ext. intros [k w]; simpl. by destruct (String.eqb k n).
  - by rewrite map_app.
Qed.

Lemma lookup_DataFrame_empty c idx names :
  In c names ->
  lookup_column c (columns (DataFrame_empty idx names)) = Some (replicate (length idx) Np.nan).
Proof.
  simpl. induction names as [|k names IH]; simpl; [tauto|].
  destruct (String.eqb k c) eqn:E; [done|].
  intros [->|H]; [by rewrite String.eqb_refl in E|auto].
Qed.

Lemma keys_DataFrame_empty idx names : keys (DataFrame_empty idx names) = names.
Proof. unfold keys. simpl. rewrite map_map. simpl. apply map_id. Qed.

(** Appending a frame with no data and the same columns adds NaN cells under
    every column. *)
Lemma columns_append_empty df ext :
  columns (append df (DataFrame_empty ext (keys df))) =
  map (fun kv => (fst kv, snd kv ++ replicate (length ext) Np.nan)) (columns df).
Proof.
  unfold append. cbn [columns index].
  match goal with |- _ ++ map _ ?F = _ => assert (HF : F = []) end.
  { change (map (fun k => (k, replicate (length ext) Np.nan)) (keys df))
      with (columns (DataFrame_empty ext (keys df))).
    assert (H : Forall (fun kv => has_column (fst kv) (columns df) = true)
                  (columns (DataFrame_empty ext (keys df)))).
    { apply Forall_forall. intros [k w] Hin. simpl. apply has_column_In.
      fold (keys df). rewrite <- (keys_DataFrame_empty ext (keys df)).
      unfold keys at 1. apply list_elem_of_In in Hin. apply (in_map fst) in Hin. exact Hin. }
    induction H as [|kv l Hkv _ IH]; [done|].
    rewrite filter_cons. destruct (decide _) as [D|D]; [congruence|exact IH]. }
  rewrite HF. simpl. rewrite app_nil_r.
  apply map_ext_in. intros [k w] Hin. simpl.
  change (map (fun k0 => (k0, replicate (length ext) Np.nan)) (keys df))
    with (columns (DataFrame_empty ext (keys df))).
  rewrite lookup_DataFrame_empty; [done|].
  unfold keys. by apply (in_map fst) in Hin.
Qed.

Lemma well_formed_lookup df c v :
  well_formed df -> lookup_column c (columns df) = Some v -> length v = length (index df).
Proof.
  intros W H. apply lookup_column_elem in H. unfold well_formed in W.
  rewrite Forall_forall in W. apply list_elem_of_In in H. apply (W _ H).
Qed.

End PdFacts.

(** ** The calendar *)

Section CalendarFacts.

Import Calendar.

Lemma days_in_month_bounds y m : 28 <= days_in_month y m <= 31.
Proof.
  unfold days_in_month.
  do 12 (destruct m as [|m]; [try destruct (is_leap y); lia|]). lia.
Qed.

Lemma valid_spec d :
  valid d = true <->
  1 <= month d <= 12 /\ 1 <= day d <= days_in_month (year d) (month d).
Proof.
  unfold valid. rewrite !andb_true_iff, !Nat.leb_le. tauto.
Qed.

Lemma next_day_valid d : valid d = true -> valid (next_day d) = true.
Proof.
  rewrite !valid_spec. intros [Hm Hd]. unfold next_day.
  destruct (day d <? _) eqn:E1; cbn [year month day].
  - apply Nat.ltb_lt in E1. lia.
  - destruct (month d <? 12) eqn:E2; cbn [year month day].
    + apply Nat.ltb_lt in E2.
      pose proof (days_in_month_bounds (year d) (S (month d))). lia.
    + pose proof (days_in_month_bounds (S (year d)) 1) as B. lia.
Qed.

Lemma next_day_later d : valid d = true -> ord d < ord (next_day d).
Proof.
  rewrite valid_spec. intros [Hm Hd].
  pose proof (days_in_month_bounds (year d) (month d)).
  unfold next_day, ord.
  destruct (day d <? _) eqn:E1; cbn [year month day]; [lia|].
  destruct (month d <? 12) eqn:E2; cbn [year month day];
    [apply Nat.ltb_lt in E2|apply Nat.ltb_ge in E2]; lia.
Qed.

Lemma add_days_valid d k : valid d = true -> valid (add_days d k) = true.
Proof.
  intros H. unfold add_days. induction k as [|k IH]; simpl; [done|].
  by apply next_day_valid.
Qed.

Lemma add_days_later d k : valid d = true -> ord d + k <= ord (add_days d k).
Proof.
  intros H. unfold add_days. induction k as [|k IH]; simpl; [lia|].
  pose proof (next_day_later (Nat.iter k next_day d) (add_days_valid d k H)).
  unfold add_days in *. lia.
Qed.

Lemma add_days_next d k : add_days (next_day d) k = add_days d (S k).
Proof. unfold add_days. symmetry. apply Nat.iter_succ_r. Qed.

Lemma days_from_length d n : length (days_from d n) = n.
Proof. revert d. induction n as [|n IH]; intros d; simpl; auto. Qed.

Lemma days_from_lookup d n i : i < n -> days_from d n !! i = Some (add_days d i).
Proof.
  revert d i. induction n as [|n IH]; intros d [|i] H; simpl; try lia; [done|].
  rewrite IH by lia. by rewrite add_days_next.
Qed.

Lemma days_from_tail d n : drop 1 (days_from d (S n)) = days_from (next_day d) n.
Proof. reflexivity. Qed.

Lemma digit_value_digit n : n < 10 -> digit_value (digit n) = Some n.
Proof. intros H. do 10 (destruct n as [|n]; [reflexivity|]). lia. Qed.

Lemma num2_digits n :
  n < 100 -> num2 (digit (n / 10 mod 10)) (digit (n mod 10)) = Some n.
Proof.
  intros H.
  assert (C : forallb (fun n => match num2 (digit (n / 10 mod 10)) (digit (n mod 10)) with
                                | Some m => m =? n
                                | None => false
                                end) (seq 0 100) = true) by (vm_compute; reflexivity).
  rewrite forallb_forall in C. specialize (C n).
  destruct (num2 _ _) as [m|]; [|discriminate C; apply in_seq; lia].
  f_equal. apply Nat.eqb_eq, C, in_seq. lia.
Qed.

Lemma num4_digits n :
  n < 5000 ->
  num4 (digit (n / 1000 mod 10)) (digit (n / 100 mod 10))
       (digit (n / 10 mod 10)) (digit (n mod 10)) = Some n.
Proof.
  intros H.
  assert (C : forallb (fun n => match num4 (digit (n / 1000 mod 10)) (digit (n / 100 mod 10))
                                           (digit (n / 10 mod 10)) (digit (n mod 10)) with
                                | Some m => m =? n
                                | None => false
                                end) (seq 0 5000) = true) by (vm_compute; reflexivity).
  rewrite forallb_forall in C. specialize (C n).
  destruct (num4 _ _ _ _) as [m|]; [|discriminate C; apply in_seq; lia].
  f_equal. apply Nat.eqb_eq, C, in_seq. lia.
Qed.

(** A formatted date reads back as itself. *)
Lemma parse_strftime d :
  valid d = true -> year d < 5000 -> parse_iso (strftime d) = Some d.
Proof.
  intros V Y. pose proof V as V'. apply valid_spec in V' as [Hm Hd].
  pose proof (days_in_month_bounds (year d) (month d)).
  unfold strftime, fmt4, fmt2, parse_iso.
  cbv beta iota. change (Ascii.eqb "-" "-") with true. cbn [andb].
  rewrite num4_digits, !num2_digits by lia.
  destruct d as [y m dd]. cbn [year month day] in *. by rewrite V.
Qed.

(** What a label that reads as a date looks like. *)
Lemma parse_iso_inv s d :
  parse_iso s = Some d ->
  exists y1 y2 y3 y4 m1 m2 d1 d2,
    s = String y1 (String y2 (String y3 (String y4 (String "-"
          (String m1 (String m2 (String "-" (String d1 (String d2 EmptyString))))))))) /\
    num4 y1 y2 y3 y4 = Some (year d) /\
    num2 m1 m2 = Some (month d) /\
    num2 d1 d2 = Some (day d) /\
    valid d = true.
Proof.
  unfold parse_iso. intros H.
  do 10 (destruct s as [|? s]; [discriminate|]). destruct s; [|discriminate].
  destruct (Ascii.eqb a3 "-") eqn:E1; [|discriminate].
  destruct (Ascii.eqb a6 "-") eqn:E2; [|discriminate].
  apply Ascii.eqb_eq in E1, E2. subst. cbn [andb] in H.
  destruct (num4 _ _ _ _) as [y|] eqn:N4; [|discriminate].
  destruct (num2 a4 a5) as [m|] eqn:N2; [|discriminate].
  destruct (num2 a7 a8) as [dd|] eqn:N2'; [|discriminate].
  cbv zeta in H. destruct (valid (Date y m dd)) eqn:V; [|discriminate].
  injection H as <-. do 8 eexists. split; [reflexivity|]. auto.
Qed.

Lemma parse_iso_valid s d : parse_iso s = Some d -> valid d = true.
Proof.
  intros H.
  by destruct (parse_iso_inv _ _ H) as (? & ? & ? & ? & ? & ? & ? & ? & _ & _ & _ & _ & V).
Qed.

Lemma in_bounds_year d : in_bounds d = true -> year d < 5000.
Proof.
  unfold in_bounds. rewrite andb_true_iff. intros [_ H]. revert H.
  unfold leb, Timestamp_max. cbn [year month day].
  destruct (year d <? 2262) eqn:E1; [apply Nat.ltb_lt in E1; lia|].
  destruct (year d =? 2262) eqn:E2; [apply Nat.eqb_eq in E2; lia|discriminate].
Qed.

(** Distinct days have distinct labels. *)
Lemma strftime_inj d1 d2 :
  valid d1 = true -> valid d2 = true -> year d1 < 5000 -> year d2 < 5000 ->
  strftime d1 = strftime d2 -> d1 = d2.
Proof.
  intros V1 V2 Y1 Y2 E. apply (f_equal parse_iso) in E.
  rewrite !parse_strftime in E by done. congruence.
Qed.

Lemma days_from_valid d n x :
  valid d = true -> In x (days_from d n) -> valid x = true /\ ord d <= ord x.
Proof.
  revert d. induction n as [|n IH]; intros d V; simpl; [tauto|].
  intros [<-|H]; [auto|].
  apply IH in H as [Vx Ox]; [|by apply next_day_valid].
  pose proof (next_day_later d V). split; [done|lia].
Qed.

Lemma days_from_NoDup d n : valid d = true -> NoDup (days_from d n).
Proof.
  revert d. induction n as [|n IH]; intros d V; simpl; constructor.
  - intros H. apply list_elem_of_In, days_from_valid in H as [_ H]; [|by apply next_day_valid].
    pose proof (next_day_later d V). lia.
  - by apply IH, next_day_valid.
Qed.

End CalendarFacts.

(** ** The order of strings *)

Section StrFacts.

Lemma ascii_compare_nat a b :
  Ascii.compare a b = Nat.compare (nat_of_ascii a) (nat_of_ascii b).
Proof.
  unfold Ascii.compare, nat_of_ascii. by rewrite N2Nat.inj_compare.
Qed.

Lemma ascii_compare_eq a b : Ascii.compare a b = Eq <-> a = b.
Proof.
  split; [apply Ascii.compare_eq_iff|]. intros ->.
  rewrite ascii_compare_nat. apply Nat.compare_refl.
Qed.

Lemma compare_refl s : String.compare s s = Eq.
Proof.
  induction s as [|a s IH]; simpl; [done|].
  by rewrite (proj2 (ascii_compare_eq a a) eq_refl).
Qed.

Lemma leb_refl s : String.leb s s = true.
Proof. unfold String.leb. by rewrite compare_refl. Qed.





End StrFacts.

(** ** ISO labels sort chronologically *)

Section IsoOrder.

Import Calendar.

Lemma digit_value_inv c x :
  digit_value c = Some x -> nat_of_ascii c = 48 + x /\ x <= 9.
Proof.
  unfold digit_value. cbv zeta.
  destruct ((48 <=? nat_of_ascii c) && (nat_of_ascii c <=? 57)) eqn:E; [|discriminate].
  apply andb_true_iff in E as [E1 E2]. apply Nat.leb_le in E1, E2.
  intros [= <-]. lia.
Qed.

Lemma num2_inv a b n :
  num2 a b = Some n ->
  exists x y,
    nat_of_ascii a = 48 + x /\ nat_of_ascii b = 48 + y /\ x <= 9 /\ y <= 9 /\ n = 10 * x + y.
Proof.
  unfold num2.
  destruct (digit_value a) as [x|] eqn:Ea; [|discriminate].
  destruct (digit_value b) as [y|] eqn:Eb; [|discriminate].
  intros [= <-]. apply digit_value_inv in Ea as [? ?], Eb as [? ?].
  exists x, y. auto.
Qed.

Lemma num4_inv a b c d n :
  num4 a b c d = Some n ->
  exists x1 x2 x3 x4,
    nat_of_ascii a = 48 + x1 /\ nat_of_ascii b = 48 + x2 /\
    nat_of_ascii c = 48 + x3 /\ nat_of_ascii d = 48 + x4 /\
    x1 <= 9 /\ x2 <= 9 /\ x3 <= 9 /\ x4 <= 9 /\
    n = 100 * (10 * x1 + x2) + (10 * x3 + x4).
Proof.
  unfold num4.
  destruct (num2 a b) as [p|] eqn:E1; [|discriminate].
  destruct (num2 c d) as [q|] eqn:E2; [|discriminate].
  intros [= <-].
  apply num2_inv in E1 as (x1 & x2 & ? & ? & ? & ? & ->).
  apply num2_inv in E2 as (x3 & x4 & ? & ? & ? & ? & ->).
  exists x1, x2, x3, x4. auto 10.
Qed.

(** Comparing one more character in front of two strings. *)
Lemma compare_cons a b s t x y :
  nat_of_ascii a = 48 + x -> nat_of_ascii b = 48 + y ->
  String.compare (String a s) (String b t) =
  match Nat.compare x y with
  | Eq => String.compare s t
  | c => c
  end.
Proof.
  intros Ha Hb. simpl. rewrite ascii_compare_nat, Ha, Hb.
  destruct (Nat.compare_spec x y) as [->|L|G].
  - by rewrite Nat.compare_refl.
  - assert (L' : 48 + x < 48 + y) by lia. by apply Nat.compare_lt_iff in L' as ->.
  - assert (G' : 48 + y < 48 + x) by lia. by apply Nat.compare_gt_iff in G' as ->.
Qed.

Lemma compare_cons_same a s t :
  String.compare (String a s) (String a t) = String.compare s t.
Proof. simpl. by rewrite (proj2 (ascii_compare_eq a a) eq_refl). Qed.

(** The order of two ISO labels as strings is the order of their dates. *)
Lemma iso_compare s1 s2 d1 d2 :
  parse_iso s1 = Some d1 -> parse_iso s2 = Some d2 ->
  String.compare s1 s2 = Nat.compare (ord d1) (ord d2).
Proof.
  intros P1 P2.
  apply parse_iso_inv in P1
    as (a1 & a2 & a3 & a4 & a5 & a6 & a7 & a8 & -> & Y1 & M1 & D1 & V1).
  apply parse_iso_inv in P2
    as (b1 & b2 & b3 & b4 & b5 & b6 & b7 & b8 & -> & Y2 & M2 & D2 & V2).
  apply num4_inv in Y1 as (x1 & x2 & x3 & x4 & A1 & A2 & A3 & A4 & ? & ? & ? & ? & Y1).
  apply num4_inv in Y2 as (y1 & y2 & y3 & y4 & B1 & B2 & B3 & B4 & ? & ? & ? & ? & Y2).
  apply num2_inv in M1 as (x5 & x6 & A5 & A6 & ? & ? & M1).
  apply num2_inv in M2 as (y5 & y6 & B5 & B6 & ? & ? & M2).
  apply num2_inv in D1 as (x7 & x8 & A7 & A8 & ? & ? & D1).
  apply num2_inv in D2 as (y7 & y8 & B7 & B8 & ? & ? & D2).
  apply valid_spec in V1 as [Vm1 Vd1], V2 as [Vm2 Vd2].
  pose proof (days_in_month_bounds (year d1) (month d1)).
  pose proof (days_in_month_bounds (year d2) (month d2)).
  unfold ord.
  rewrite (compare_cons _ _ _ _ _ _ A1 B1).
  destruct (Nat.compare_spec x1 y1);
    [|symmetry; apply Nat.compare_lt_iff; lia|symmetry; apply Nat.compare_gt_iff; lia].
  rewrite (compare_cons _ _ _ _ _ _ A2 B2).
  destruct (Nat.compare_spec x2 y2);
    [|symmetry; apply Nat.compare_lt_iff; lia|symmetry; apply Nat.compare_gt_iff; lia].
  rewrite (compare_cons _ _ _ _ _ _ A3 B3).
  destruct (Nat.compare_spec x3 y3);
    [|symmetry; apply Nat.compare_lt_iff; lia|symmetry; apply Nat.compare_gt_iff; lia].
  rewrite (compare_cons _ _ _ _ _ _ A4 B4).
  destruct (Nat.compare_spec x4 y4);
    [|symmetry; apply Nat.compare_lt_iff; lia|symmetry; apply Nat.compare_gt_iff; lia].
  rewrite compare_cons_same.
  rewrite (compare_cons _ _ _ _ _ _ A5 B5).
  destruct (Nat.compare_spec x5 y5);
    [|symmetry; apply Nat.compare_lt_iff; lia|symmetry; apply Nat.compare_gt_iff; lia].
  rewrite (compare_cons _ _ _ _ _ _ A6 B6).
  destruct (Nat.compare_spec x6 y6);
    [|symmetry; apply Nat.compare_lt_iff; lia|symmetry; apply Nat.compare_gt_iff; lia].
  rewrite compare_cons_same.
  rewrite (compare_cons _ _ _ _ _ _ A7 B7).
  destruct (Nat.compare_spec x7 y7);
    [|symmetry; apply Nat.compare_lt_iff; lia|symmetry; apply Nat.compare_gt_iff; lia].
  rewrite (compare_cons _ _ _ _ _ _ A8 B8).
  destruct (Nat.compare_spec x8 y8);
    [|symmetry; apply Nat.compare_lt_iff; lia|symmetry; apply Nat.compare_gt_iff; lia].
  simpl. symmetry. apply Nat.compare_eq_iff. lia.
Qed.

Lemma iso_ge s1 s2 d1 d2 :
  parse_iso s1 = Some d1 -> parse_iso s2 = Some d2 ->
  Str.ge s1 s2 = (ord d2 <=? ord d1).
Proof.
  intros P1 P2. unfold Str.ge, String.leb. rewrite (iso_compare _ _ _ _ P2 P1).
  destruct (Nat.compare_spec (ord d2) (ord d1)); symmetry;
    [apply Nat.leb_le|apply Nat.leb_le|apply Nat.leb_gt]; lia.
Qed.

(** Selecting with a mask that is false on the first [k] rows and true on the
    others drops the first [k] rows. *)
Lemma select_drop {A : Type} (l : list A) (k : nat) (mask : list bool) :
  length mask = length l ->
  (forall i m, mask !! i = Some m -> m = (k <=? i)) ->
  Np.select mask l = drop k l.
Proof.
  revert k mask. induction l as [|x l IH]; intros k [|m mask] L H; simpl in *; try lia.
  - by destruct k.
  - injection L as L. pose proof (H 0 m eq_refl) as H0.
    destruct k as [|k]; simpl in H0; subst m.
    + f_equal. rewrite (IH 0 mask L); [done|]. intros i m Hi. apply (H (S i) m Hi).
    + apply IH; [done|]. intros i m Hi. apply (H (S i) m Hi).
Qed.

End IsoOrder.

(** ** The frame that [get_exponential] returns *)

Section Returned.

Variable np_exp : float -> float.
Variable curve_fit :
  (float -> float -> float -> float) -> list nat -> list float -> float * float ->
  result (float * float).

Abbreviation get_exponential := (get_exponential np_exp curve_fit).
Abbreviation returned := (returned np_exp curve_fit).
Abbreviation fit := (fit np_exp curve_fit).
Abbreviation projection := (projection np_exp).
Abbreviation projected := (projected np_exp).
Abbreviation written := (written np_exp).

Lemma index_ge_length idx start : length (index_ge idx start) = length idx.
Proof. apply length_map. Qed.

Lemma index_ge_lookup idx start i d :
  idx !! i = Some d -> index_ge idx start !! i = Some (Str.ge d start).
Proof. intros H. unfold index_ge. by rewrite list_lookup_fmap, H. Qed.

Lemma offset_count idx start i :
  offset idx start i = Np.count (take i (index_ge idx start)).
Proof.
  unfold offset, index_ge. revert i.
  induction idx as [|d idx IH]; intros [|i]; simpl; auto.
  rewrite filter_cons. destruct (decide _) as [D|D]; simpl.
  - rewrite D, IH. reflexivity.
  - destruct (Str.ge d start); [congruence|]. apply IH.
Qed.

(** The offset is 0 at the first row whose label is at least [start], and
    grows by one from such a row to the next. *)
Lemma offset_first idx start i :
  (forall j d, j < i -> idx !! j = Some d -> Str.ge d start = false) ->
  offset idx start i = 0.
Proof.
  revert i. unfold offset.
  induction idx as [|d idx IH]; intros [|i] H; simpl; auto.
  rewrite filter_cons. destruct (decide _) as [D|D].
  - rewrite (H 0 d) in D by (simpl; auto; lia). discriminate D.
  - apply IH. intros j d' Hj Hd'. apply (H (S j) d'); [lia|done].
Qed.

Lemma offset_next idx start i d :
  idx !! i = Some d ->
  offset idx start (S i) = offset idx start i + (if Str.ge d start then 1 else 0).
Proof.
  unfold offset. intros Hi. rewrite (take_S_r _ _ _ Hi), filter_app, length_app.
  f_equal. rewrite filter_cons, filter_nil.
  destruct (decide _) as [D|D]; [by rewrite D|].
  by destruct (Str.ge d start).
Qed.

Lemma projection_lookup a b n k :
  k < n -> projection a b (range n) !! k = Some (projected a b k).
Proof.
  intros H. unfold Covid.projection, range.
  rewrite list_lookup_fmap, lookup_seq_lt by done. reflexivity.
Qed.

Lemma projection_length a b n : length (projection a b (range n)) = n.
Proof. unfold Covid.projection, range. by rewrite length_map, length_seq. Qed.

Lemma returned_inv df col n start stop horizon out :
  returned df col n start stop horizon = Ok out ->
  exists start' stop' a b ext,
    resolve start (index df) (-28) = Ok start' /\
    resolve stop (index df) (-1) = Ok stop' /\
    fit df col start' stop' = Ok (a, b) /\
    index_extension (index df) horizon = Ok ext /\
    index out = index df ++ ext /\
    columns out = set_column n (written (index df ++ ext) start' a b) (padded df ext).
Proof.
  unfold Covid.returned. intros H.
  destruct (resolve start (index df) (-28)) as [start'|] eqn:E1; [|discriminate].
  destruct (resolve stop (index df) (-1)) as [stop'|] eqn:E2; [|discriminate].
  simpl in H.
  destruct (fit df col start' stop') as [[a b]|] eqn:E3; [|discriminate].
  simpl in H. unfold extended in H. change (index (assign df placeholder Np.nan)) with (index df) in H.
  destruct (index_extension (index df) horizon) as [ext|] eqn:E4; [|discriminate].
  simpl and_then in H.
  set (big := append _ _) in H.
  assert (Hi : index big = index df ++ ext) by reflexivity.
  assert (Hc : columns big = padded df ext).
  { unfold big. rewrite columns_append_empty. reflexivity. }
  clearbody big. destruct big as [bi bc]. cbn [index columns] in Hi, Hc. subst bi bc.
  unfold getitem_mask in H. cbn [index columns] in H. rewrite index_ge_length, Nat.eqb_refl in H.
  simpl and_then in H. rewrite select_length in H by apply index_ge_length.
  unfold loc_setitem in H. cbn [index columns] in H. rewrite index_ge_length, Nat.eqb_refl in H.
  rewrite projection_length, Nat.eqb_refl in H. cbn [negb fst snd] in H.
  injection H as <-. exists start', stop', a, b, ext. cbn [index columns]. auto 10.
Qed.

Lemma get_exponential_run l df col n start stop horizon (h : list DataFrame) :
  h !! l = Some df ->
  match returned df col n start stop horizon with
  | Ok out => exists r h', get_exponential l col n start stop horizon h = Ok (r, h')
       /\ h' !! r = Some out /\ h `prefix_of` h' /\ h !! r = None
  | Raise e => get_exponential l col n start stop horizon h = Raise e
  end.
Proof.
  intros Hl. unfold returned, get_exponential.
  rewrite bind_run, (if_else_run _ _ _ _ _ Hl).
  destruct (resolve start (index df) (-28)) as [start'|e]; simpl; [|reflexivity].
  rewrite bind_run, (if_else_run _ _ _ _ _ Hl).
  destruct (resolve stop (index df) (-1)) as [stop'|e]; simpl; [|reflexivity].
  unfold fit, Frame.get_index, Frame.getitem_mask, Frame.getitem_values, Frame.assign,
    Frame.index_getitem, Frame.date_range_tail, Frame.get_keys, Frame.new, Frame.append,
    Frame.loc_len, Frame.loc_setitem, Frame.get_index, extended, index_extension,
    bind, load, lift, ret, alloc, update.
  cbv beta iota. repeat (rewrite Hl; cbv beta iota).
  destruct (Pd.getitem_mask df _) as [sub|e]; cbv beta iota; [|reflexivity].
  repeat (rewrite lookup_new; cbv beta iota).
  simpl and_then.
  destruct (getitem_column sub col) as [y|e]; cbv beta iota; [|reflexivity].
  simpl and_then.
  destruct (curve_fit _ _ _ _) as [[a b]|e]; cbv beta iota; [|reflexivity].
  set (h1 := h ++ [sub]).
  assert (H1 : h1 !! l = Some df) by (by apply lookup_old).
  rewrite H1; cbv beta iota. rewrite lookup_new; cbv beta iota.
  simpl and_then. change (index (Pd.assign df placeholder Np.nan)) with (index df).
  destruct (getitem (index df) (-1)) as [last|e]; cbv beta iota; [|reflexivity].
  simpl and_then.
  destruct (date_range last (horizon + 1)) as [dates|e]; cbv beta iota; [|reflexivity].
  simpl and_then.
  rewrite lookup_new; cbv beta iota.
  set (df1 := Pd.assign df placeholder Np.nan).
  set (h2 := h1 ++ [df1]).
  set (ext := DataFrame_empty _ _).
  set (h3 := h2 ++ [ext]).
  assert (H3 : h3 !! length h1 = Some df1) by (apply lookup_old, lookup_new).
  assert (H3' : h3 !! length h2 = Some ext) by apply lookup_new.
  rewrite H3; cbv beta iota. rewrite H3'; cbv beta iota.
  set (big := Pd.append df1 ext).
  set (h4 := h3 ++ [big]).
  assert (H4 : h4 !! length h3 = Some big) by apply lookup_new.
  repeat (rewrite H4; cbv beta iota).
  change (index big) with (index df ++ map Calendar.strftime (drop 1 dates)).
  destruct (Pd.getitem_mask big _) as [sel|e]; cbv beta iota; [|reflexivity].
  simpl and_then.
  repeat (rewrite H4; cbv beta iota).
  simpl fst; simpl snd.
  destruct (Pd.loc_setitem big _ _ _) as [out|e]; cbv beta iota; [|reflexivity].
  eexists _, _. split; [reflexivity|]. unfold h4. rewrite update_new.
  split; [apply lookup_new|].
  assert (S3 : h `prefix_of` h3).
  { unfold h3, h2, h1. rewrite <- !app_assoc. by apply prefix_app_r. }
  split.
  - by apply prefix_app_r.
  - apply lookup_ge_None. by apply prefix_length.
Qed.

Lemma get_exponential_Ok l df col n start stop horizon (h h' : list DataFrame) r :
  h !! l = Some df ->
  get_exponential l col n start stop horizon h = Ok (r, h') ->
  exists out,
    returned df col n start stop horizon = Ok out /\
    h' !! r = Some out /\ h `prefix_of` h' /\ h !! r = None.
Proof.
  intros Hl Hrun. pose proof (get_exponential_run l df col n start stop horizon h Hl) as R.
  destruct (returned df col n start stop horizon) as [out|e].
  - destruct R as (r0 & h0 & E & ?). rewrite Hrun in E. injection E as <- <-. eauto.
  - congruence.
Qed.

Lemma index_extension_inv idx horizon ext :
  index_extension idx horizon = Ok ext ->
  exists last d0,
    getitem idx (-1) = Ok last /\
    Calendar.parse_iso last = Some d0 /\
    Calendar.in_bounds d0 = true /\
    ext = map Calendar.strftime (Calendar.days_from (Calendar.next_day d0) (Z.to_nat horizon)) /\
    Forall (fun d => Calendar.in_bounds d = true)
           (Calendar.days_from (Calendar.next_day d0) (Z.to_nat horizon)).
Proof.
  unfold index_extension. intros H.
  destruct (getitem idx (-1)) as [last|] eqn:E1; [|discriminate]. simpl in H.
  unfold date_range, to_datetime in H.
  destruct (Calendar.parse_iso last) as [d0|] eqn:E2; [|discriminate].
  destruct (Calendar.in_bounds d0) eqn:E3; [|discriminate].
  destruct (horizon + 1 <? 0)%Z eqn:E4; [discriminate|]. apply Z.ltb_ge in E4.
  destruct (forallb _ _) eqn:E5; [|discriminate]. simpl in H. injection H as <-.
  exists last, d0. repeat split; try done.
  - destruct (Z.to_nat (horizon + 1)) as [|k] eqn:K.
    + replace (Z.to_nat horizon) with 0 by lia. reflexivity.
    + replace (Z.to_nat horizon) with k by lia. reflexivity.
  - rewrite forallb_forall in E5. apply Forall_forall. intros d Hd.
    apply E5. apply list_elem_of_In in Hd.
    destruct (Z.to_nat (horizon + 1)) as [|k] eqn:K.
    + replace (Z.to_nat horizon) with 0 in Hd by lia. destruct Hd.
    + replace (Z.to_nat horizon) with k in Hd by lia. right. exact Hd.
Qed.

Lemma padded_lookup_placeholder df ext :
  lookup_column placeholder (padded df ext) =
  Some (replicate (length (index df)) Np.nan ++ replicate (length ext) Np.nan).
Proof.
  unfold padded.
  rewrite (lookup_column_map _ _ (fun _ v => v ++ replicate (length ext) Np.nan)).
  by rewrite lookup_set_column_eq.
Qed.

Lemma padded_lookup_other df ext c :
  c <> placeholder ->
  lookup_column c (padded df ext) =
  option_map (fun v => v ++ replicate (length ext) Np.nan) (lookup_column c (columns df)).
Proof.
  intros Hc. unfold padded.
  rewrite (lookup_column_map _ _ (fun _ v => v ++ replicate (length ext) Np.nan)).
  by rewrite lookup_set_column_ne.
Qed.

Lemma padded_keys df ext :
  map fst (padded df ext) =
  if has_column placeholder (columns df) then keys df else keys df ++ [placeholder].
Proof.
  unfold padded.
  rewrite (keys_map _ (fun _ v => v ++ replicate (length ext) Np.nan)).
  apply keys_set_column.
Qed.

Lemma padded_length df ext c v :
  well_formed df -> lookup_column c (padded df ext) = Some v ->
  length v = length (index df ++ ext).
Proof.
  intros W H. rewrite length_app.
  destruct (String.eqb c placeholder) eqn:E.
  - apply String.eqb_eq in E. subst c. rewrite padded_lookup_placeholder in H.
    injection H as <-. by rewrite length_app, !length_replicate.
  - apply String.eqb_neq in E. rewrite padded_lookup_other in H by done.
    destruct (lookup_column c (columns df)) as [w|] eqn:L; [|discriminate].
    injection H as <-. rewrite length_app, length_replicate.
    by rewrite (well_formed_lookup _ _ _ W L).
Qed.

Lemma written_length idx start a b old :
  length (written idx start a b old) = length (default (replicate (length idx) Np.nan) old).
Proof. apply scatter_length. Qed.

Lemma written_ge idx start a b old i d :
  (forall v, old = Some v -> length v = length idx) ->
  idx !! i = Some d -> Str.ge d start = true ->
  written idx start a b old !! i = Some (projected a b (offset idx start i)).
Proof.
  intros L Hi Hge. unfold Covid.written.
  rewrite scatter_lookup_true.
  - rewrite offset_count. apply projection_lookup, count_take_lt.
    by rewrite (index_ge_lookup _ _ _ _ Hi), Hge.
  - rewrite index_ge_length. destruct old as [v|]; simpl.
    + by rewrite (L v).
    + by rewrite length_replicate.
  - by rewrite projection_length.
  - by rewrite (index_ge_lookup _ _ _ _ Hi), Hge.
Qed.

Lemma written_lt idx start a b old i d :
  idx !! i = Some d -> Str.ge d start = false ->
  written idx start a b old !! i = default (replicate (length idx) Np.nan) old !! i.
Proof.
  intros Hi Hge. unfold Covid.written. apply scatter_lookup_false.
  by rewrite (index_ge_lookup _ _ _ _ Hi), Hge.
Qed.


Lemma outcome_get_exponential l df col n start stop horizon (h : list DataFrame) :
  h !! l = Some df ->
  outcome (get_exponential l col n start stop horizon) h =
  match returned df col n start stop horizon with
  | Ok out => Ok (Some out)
  | Raise e => Raise e
  end.
Proof.
  intros Hl. pose proof (get_exponential_run l df col n start stop horizon h Hl) as R.
  unfold outcome. destruct (returned df col n start stop horizon) as [out|e].
  - destruct R as (r & h' & -> & -> & _). reflexivity.
  - by rewrite R.
Qed.

(** The cells of the new column in the returned frame. *)
Lemma returned_new_column df col n start stop horizon out :
  well_formed df ->
  returned df col n start stop horizon = Ok out ->
  exists start' stop' a b ext cells,
    resolve start (index df) (-28) = Ok start' /\
    resolve stop (index df) (-1) = Ok stop' /\
    fit df col start' stop' = Ok (a, b) /\
    index_extension (index df) horizon = Ok ext /\
    index out = index df ++ ext /\
    columns out = set_column n (written (index df ++ ext) start' a b) (padded df ext) /\
    lookup_column n (columns out) = Some cells /\
    (forall i d, index out !! i = Some d -> Str.ge d start' = true ->
       cells !! i = Some (projected a b (offset (index out) start' i))) /\
    (forall i d, index out !! i = Some d -> Str.ge d start' = false ->
       cells !! i =
       default (replicate (length (index out)) Np.nan) (lookup_column n (padded df ext)) !! i).
Proof.
  intros W H. apply returned_inv in H as (start' & stop' & a & b & ext & R1 & R2 & F & X & I & C).
  exists start', stop', a, b, ext,
    (written (index df ++ ext) start' a b (lookup_column n (padded df ext))).
  repeat split; try done.
  - rewrite C. apply lookup_set_column_eq.
  - rewrite I. intros i d Hi Hge. apply (written_ge _ _ _ _ _ _ d); try done.
    intros v Hv. by apply (padded_length df ext n v W).
  - rewrite I. intros i d Hi Hge. by apply (written_lt _ _ _ _ _ _ d).
Qed.


(** *** The projected values *)

(** C1: in the frame a call returns, the new column holds [a * exp(b * t)] on
    every row whose label is at least [start], where [(a, b)] are the fitted
    parameters and [t] is the 0-based position of the row among the rows of
    the extended index whose label is at least [start]. *)
Theorem projection_on_extended_index l df col n start stop horizon
    (h h' : list DataFrame) r :
  h !! l = Some df ->
  well_formed df ->
  get_exponential l col n start stop horizon h = Ok (r, h') ->
  exists out start' stop' a b ext cells,
    h' !! r = Some out /\
    resolve start (index df) (-28) = Ok start' /\
    resolve stop (index df) (-1) = Ok stop' /\
    fit df col start' stop' = Ok (a, b) /\
    index_extension (index df) horizon = Ok ext /\
    index out = index df ++ ext /\
    lookup_column n (columns out) = Some cells /\
    forall i d, index out !! i = Some d -> Str.ge d start' = true ->
      cells !! i =
      Some (PrimFloat.mul a
              (np_exp (PrimFloat.mul b (Np.of_int (offset (index out) start' i))))).
Proof.
  intros Hl W Hrun.
  destruct (get_exponential_Ok _ _ _ _ _ _ _ _ _ _ Hl Hrun) as (out & R & Hr & _).
  destruct (returned_new_column _ _ _ _ _ _ _ W R)
    as (start' & stop' & a & b & ext & cells & R1 & R2 & F & X & I & _ & L & G & _).
  exists out, start', stop', a, b, ext, cells. auto 10.
Qed.

(** C8: with [horizon = 0] the returned index is the input index, and the new
    column still holds the projected value on every row whose label is at
    least [start]. *)
Theorem zero_horizon_keeps_index l df col n start stop (h h' : list DataFrame) r :
  h !! l = Some df ->
  well_formed df ->
  get_exponential l col n start stop 0 h = Ok (r, h') ->
  exists out start' stop' a b cells,
    h' !! r = Some out /\
    index out = index df /\
    resolve start (index df) (-28) = Ok start' /\
    resolve stop (index df) (-1) = Ok stop' /\
    fit df col start' stop' = Ok (a, b) /\
    lookup_column n (columns out) = Some cells /\
    forall i d, index df !! i = Some d -> Str.ge d start' = true ->
      cells !! i =
      Some (PrimFloat.mul a
              (np_exp (PrimFloat.mul b (Np.of_int (offset (index df) start' i))))).
Proof.
  intros Hl W Hrun.
  destruct (get_exponential_Ok _ _ _ _ _ _ _ _ _ _ Hl Hrun) as (out & R & Hr & _).
  destruct (returned_new_column _ _ _ _ _ _ _ W R)
    as (start' & stop' & a & b & ext & cells & R1 & R2 & F & X & I & _ & L & G & _).
  apply index_extension_inv in X as (last & d0 & _ & _ & _ & -> & _).
  change (Z.to_nat 0) with 0 in I. cbn [Calendar.days_from map] in I.
  rewrite app_nil_r in I. rewrite I in G.
  exists out, start', stop', a, b, cells. repeat split; done.
Qed.

(** *** The extended index *)

(** C2: for a non-negative [horizon] the returned index is the input index
    followed by [horizon] labels; the label at position [i] after the input's
    last one reads as the date [i + 1] days after the last input date, which
    is later than it; and no appended label occurs twice. *)
Theorem index_extended_by_horizon l df col n start stop horizon
    (h h' : list DataFrame) r :
  (0 <= horizon)%Z ->
  h !! l = Some df ->
  get_exponential l col n start stop horizon h = Ok (r, h') ->
  exists out last d0,
    h' !! r = Some out /\
    getitem (index df) (-1) = Ok last /\
    Calendar.parse_iso last = Some d0 /\
    length (index out) = length (index df) + Z.to_nat horizon /\
    take (length (index df)) (index out) = index df /\
    (forall i, i < Z.to_nat horizon ->
       exists s,
         index out !! (length (index df) + i) = Some s /\
         s = Calendar.strftime (Calendar.add_days d0 (S i)) /\
         Calendar.parse_iso s = Some (Calendar.add_days d0 (S i)) /\
         Calendar.ord d0 < Calendar.ord (Calendar.add_days d0 (S i))) /\
    NoDup (drop (length (index df)) (index out)).
Proof.
  intros Hh Hl Hrun.
  destruct (get_exponential_Ok _ _ _ _ _ _ _ _ _ _ Hl Hrun) as (out & R & Hr & _).
  apply returned_inv in R as (start' & stop' & a & b & ext & _ & _ & _ & X & I & _).
  apply index_extension_inv in X as (last & d0 & G & P & B & -> & A).
  pose proof (parse_iso_valid _ _ P) as V.
  set (k := Z.to_nat horizon) in *.
  exists out, last, d0. rewrite I. repeat split; try done.
  - by rewrite length_app, length_map, days_from_length.
  - by rewrite take_app_length.
  - intros i Hi.
    assert (D : Calendar.days_from (Calendar.next_day d0) k !! i
                = Some (Calendar.add_days d0 (S i))).
    { rewrite days_from_lookup by done. by rewrite add_days_next. }
    exists (Calendar.strftime (Calendar.add_days d0 (S i))). repeat split.
    + rewrite lookup_app_r by lia. replace (length (index df) + i - length (index df)) with i by lia.
      by rewrite list_lookup_fmap, D.
    + apply parse_strftime; [by apply add_days_valid|].
      apply in_bounds_year. rewrite Forall_forall in A. apply A.
      by apply list_elem_of_lookup_2 with i.
    + pose proof (add_days_later d0 (S i) V). lia.
  - rewrite drop_app_length.
    apply NoDup_fmap_2_strong; [|by apply days_from_NoDup, next_day_valid].
    intros x y Hx Hy E. rewrite Forall_forall in A.
    apply list_elem_of_In in Hx as Hx', Hy as Hy'.
    apply days_from_valid in Hx' as [Vx _], Hy' as [Vy _]; try by apply next_day_valid.
    apply strftime_inj; auto using in_bounds_year.
Qed.


(** *** The columns of the returned frame *)

Lemma returned_keys df col n start stop horizon out :
  returned df col n start stop horizon = Ok out ->
  exists ext,
    index_extension (index df) horizon = Ok ext /\
    keys out =
    let ks := if has_column placeholder (columns df) then keys df
              else keys df ++ [placeholder] in
    if has_column n (padded df ext) then ks else ks ++ [n].
Proof.
  intros H. apply returned_inv in H as (start' & stop' & a & b & ext & _ & _ & _ & X & _ & C).
  exists ext. split; [done|]. unfold keys at 1. rewrite C, keys_set_column, padded_keys.
  reflexivity.
Qed.

(** C5: when neither the caller's name nor the placeholder's is a column of the
    input, the returned frame has two more columns than the input: one named
    [new_col_name] literally, and then the one the caller named. *)
Theorem placeholder_column_added l df col n start stop horizon
    (h h' : list DataFrame) r :
  h !! l = Some df ->
  ~ In n (keys df) ->
  ~ In placeholder (keys df) ->
  n <> placeholder ->
  get_exponential l col n start stop horizon h = Ok (r, h') ->
  exists out, h' !! r = Some out /\ keys out = keys df ++ [placeholder; n].
Proof.
  intros Hl Hn Hp Hne Hrun.
  destruct (get_exponential_Ok _ _ _ _ _ _ _ _ _ _ Hl Hrun) as (out & R & Hr & _).
  exists out. split; [done|].
  apply returned_keys in R as (ext & _ & K). rewrite K. cbv zeta.
  apply has_column_not_In in Hp. fold (keys df) in Hp. rewrite Hp.
  assert (Hn' : has_column n (padded df ext) = false).
  { apply has_column_not_In. rewrite padded_keys, Hp. rewrite in_app_iff. simpl.
    intros [?|[?|[]]]; [tauto|congruence]. }
  rewrite Hn'. by rewrite <- app_assoc.
Qed.

(** X8: when the caller's name is already a column of the input, the rows before
    [start] keep in that column the cells they had in the input: line 66
    resets the placeholder column, not this one. *)
Lemma existing_column_kept_before_start l df col n start stop horizon
    (h h' : list DataFrame) r old :
  h !! l = Some df ->
  well_formed df ->
  lookup_column n (columns df) = Some old ->
  n <> placeholder ->
  get_exponential l col n start stop horizon h = Ok (r, h') ->
  exists out start' cells,
    h' !! r = Some out /\
    resolve start (index df) (-28) = Ok start' /\
    lookup_column n (columns out) = Some cells /\
    forall i d, index df !! i = Some d -> Str.ge d start' = false ->
      cells !! i = old !! i.
Proof.
  intros Hl W Hold Hne Hrun.
  destruct (get_exponential_Ok _ _ _ _ _ _ _ _ _ _ Hl Hrun) as (out & R & Hr & _).
  destruct (returned_new_column _ _ _ _ _ _ _ W R)
    as (start' & stop' & a & b & ext & cells & R1 & R2 & F & X & I & _ & L & _ & B).
  exists out, start', cells. repeat split; try done.
  intros i d Hi Hlt.
  rewrite (B i d); [|by rewrite I; apply lookup_app_l_Some|done].
  rewrite padded_lookup_other, Hold by done. simpl.
  apply lookup_app_l. rewrite (well_formed_lookup _ _ _ W Hold).
  by apply lookup_lt_Some in Hi.
Qed.

(** X9: when the input has a column with the placeholder's name, and the caller
    asks for another name, that column holds NaN on every row of the returned
    frame, whatever it held in the input: line 66 resets it. The input frame
    itself is as it was. *)
Lemma placeholder_column_erased l df col n start stop horizon
    (h h' : list DataFrame) r :
  h !! l = Some df ->
  n <> placeholder ->
  get_exponential l col n start stop horizon h = Ok (r, h') ->
  exists out cells,
    h' !! r = Some out /\
    h' !! l = Some df /\
    lookup_column placeholder (columns out) = Some cells /\
    length cells = length (index out) /\
    forall i, i < length cells -> cells !! i = Some Np.nan.
Proof.
  intros Hl Hne Hrun.
  destruct (get_exponential_Ok _ _ _ _ _ _ _ _ _ _ Hl Hrun) as (out & R & Hr & Hsub & _).
  apply returned_inv in R as (start' & stop' & a & b & ext & _ & _ & _ & X & I & C).
  exists out, (replicate (length (index df)) Np.nan ++ replicate (length ext) Np.nan).
  repeat split; try done.
  - by apply (prefix_lookup_Some h).
  - rewrite C, lookup_set_column_ne by congruence. apply padded_lookup_placeholder.
  - by rewrite I, !length_app, !length_replicate.
  - intros i Hi. rewrite <- replicate_add. apply lookup_replicate_2.
    by rewrite length_app, !length_replicate in Hi.
Qed.

(** *** What a call leaves untouched *)

(** Every frame of the store is as it was after a call: the input is not
    modified, and the returned frame is a new object. *)
Lemma store_preserved l df col n start stop horizon (h h' : list DataFrame) r :
  h !! l = Some df ->
  get_exponential l col n start stop horizon h = Ok (r, h') ->
  h !! r = None /\ forall k f, h !! k = Some f -> h' !! k = Some f.
Proof.
  intros Hl Hrun.
  destruct (get_exponential_Ok _ _ _ _ _ _ _ _ _ _ Hl Hrun) as (out & R & Hr & Hsub & Hnew).
  split; [done|]. intros k f Hk. by apply (prefix_lookup_Some h).
Qed.

(** A column of the input other than the new one and the placeholder keeps its
    cells on the input's rows and holds NaN on the appended ones. *)
Lemma other_columns_kept l df col n start stop horizon (h h' : list DataFrame) r c old :
  h !! l = Some df ->
  lookup_column c (columns df) = Some old ->
  c <> n -> c <> placeholder ->
  get_exponential l col n start stop horizon h = Ok (r, h') ->
  exists out ext,
    h' !! r = Some out /\
    index out = index df ++ ext /\
    lookup_column c (columns out) = Some (old ++ replicate (length ext) Np.nan).
Proof.
  intros Hl Hold Hn Hp Hrun.
  destruct (get_exponential_Ok _ _ _ _ _ _ _ _ _ _ Hl Hrun) as (out & R & Hr & _).
  apply returned_inv in R as (start' & stop' & a & b & ext & _ & _ & _ & X & I & C).
  exists out, ext. repeat split; try done.
  rewrite C, lookup_set_column_ne by done.
  by rewrite padded_lookup_other, Hold.
Qed.

(** When the caller's name is not a column of the input, the new column holds
    NaN on every row before [start]. *)
Lemma new_column_missing_before_start l df col n start stop horizon
    (h h' : list DataFrame) r :
  h !! l = Some df ->
  well_formed df ->
  ~ In n (keys df) ->
  get_exponential l col n start stop horizon h = Ok (r, h') ->
  exists out start' cells,
    h' !! r = Some out /\
    resolve start (index df) (-28) = Ok start' /\
    lookup_column n (columns out) = Some cells /\
    forall i d, index out !! i = Some d -> Str.ge d start' = false ->
      cells !! i = Some Np.nan.
Proof.
  intros Hl W Hn Hrun.
  destruct (get_exponential_Ok _ _ _ _ _ _ _ _ _ _ Hl Hrun) as (out & R & Hr & _).
  destruct (returned_new_column _ _ _ _ _ _ _ W R)
    as (start' & stop' & a & b & ext & cells & R1 & R2 & F & X & I & _ & L & _ & B).
  exists out, start', cells. repeat split; try done.
  intros i d Hi Hlt. rewrite (B i d Hi Hlt).
  assert (E : default (replicate (length (index out)) Np.nan) (lookup_column n (padded df ext))
              = replicate (length (index out)) Np.nan).
  { destruct (String.eqb n placeholder) eqn:E.
    - apply String.eqb_eq in E. subst n. rewrite padded_lookup_placeholder. simpl.
      by rewrite I, length_app, replicate_add.
    - apply String.eqb_neq in E. rewrite padded_lookup_other by done.
      by rewrite (lookup_column_None _ _ Hn). }
  rewrite E. apply lookup_replicate_2. by apply lookup_lt_Some in Hi.
Qed.

(** *** Determinism *)

(** What a call yields (the contents of the returned frame, or the
    exception) is a function of the contents of the input frame and of the
    other arguments: it is the same in any two stores, wherever the input
    frame lies in them. *)
Theorem get_exponential_deterministic l1 l2 df col n start stop horizon
    (h1 h2 : list DataFrame) :
  h1 !! l1 = Some df ->
  h2 !! l2 = Some df ->
  outcome (get_exponential l1 col n start stop horizon) h1 =
  outcome (get_exponential l2 col n start stop horizon) h2.
Proof.
  intros H1 H2. by rewrite !(outcome_get_exponential _ df).
Qed.

(** A second call on the store left by a first one yields what the first did. *)
Lemma get_exponential_repeatable l df col n start stop horizon (h h' : list DataFrame) r :
  h !! l = Some df ->
  get_exponential l col n start stop horizon h = Ok (r, h') ->
  outcome (get_exponential l col n start stop horizon) h' = Ok (h' !! r).
Proof.
  intros Hl Hrun.
  destruct (store_preserved _ _ _ _ _ _ _ _ _ _ Hl Hrun) as [_ P].
  rewrite (outcome_get_exponential _ df) by auto.
  destruct (get_exponential_Ok _ _ _ _ _ _ _ _ _ _ Hl Hrun) as (out & -> & -> & _).
  reflexivity.
Qed.


(** *** Calls that return *)


(** *** Failing calls *)

Lemma get_exponential_Raise l df col n start stop horizon (h : list DataFrame) e :
  h !! l = Some df ->
  returned df col n start stop horizon = Raise e ->
  get_exponential l col n start stop horizon h = Raise e.
Proof.
  intros Hl R. pose proof (get_exponential_run l df col n start stop horizon h Hl) as H.
  by rewrite R in H.
Qed.

Lemma window_length idx start stop :
  length (mask_and (ge_index stop idx) (index_ge idx start)) = length idx.
Proof.
  unfold mask_and, ge_index, index_ge. rewrite length_zip_with, !length_map. lia.
Qed.

Lemma window_lookup idx start stop i d :
  idx !! i = Some d ->
  mask_and (ge_index stop idx) (index_ge idx start) !! i
  = Some (Str.ge stop d && Str.ge d start).
Proof.
  intros H. unfold mask_and, ge_index, index_ge.
  rewrite lookup_zip_with, !list_lookup_fmap, H. reflexivity.
Qed.



Lemma fit_unknown_column df col start stop :
  ~ In col (keys df) -> fit df col start stop = Raise (KeyError col).
Proof.
  intros H. unfold Covid.fit, getitem_mask. rewrite window_length, Nat.eqb_refl.
  cbn [and_then]. unfold getitem_column. cbn [columns].
  rewrite (lookup_column_map _ _ (fun _ v => Np.select _ v)).
  by rewrite (lookup_column_None _ _ H).
Qed.

Lemma fit_too_few df col start stop :
  well_formed df ->
  (forall f x y p0, length y < 2 -> exists e, curve_fit f x y p0 = Raise e) ->
  Np.count (mask_and (ge_index stop (index df)) (index_ge (index df) start)) < 2 ->
  exists e, fit df col start stop = Raise e.
Proof.
  intros W Hfit Hc. unfold Covid.fit, getitem_mask. rewrite window_length, Nat.eqb_refl.
  cbn [and_then]. unfold getitem_column. cbn [columns index].
  rewrite (lookup_column_map _ _ (fun _ v => Np.select _ v)).
  destruct (lookup_column col (columns df)) as [v|] eqn:L; cbn [option_map and_then]; [|eauto].
  apply Hfit. rewrite select_length; [done|].
  by rewrite window_length, (well_formed_lookup _ _ _ W L).
Qed.




(** *** The default window *)

Lemma getitem_from_end {A : Type} (l : list A) (k : nat) :
  0 < k <= length l ->
  exists x, l !! (length l - k) = Some x /\ getitem l (- Z.of_nat k) = Ok x.
Proof.
  intros H. destruct (lookup_lt_is_Some_2 l (length l - k)) as [x Hx]; [lia|].
  exists x. split; [done|]. unfold getitem. cbv zeta.
  destruct (- Z.of_nat k <? 0)%Z eqn:E1; [|apply Z.ltb_ge in E1; lia].
  destruct ((Z.of_nat (length l) + - Z.of_nat k <? 0)%Z
            || (Z.of_nat (length l) <=? Z.of_nat (length l) + - Z.of_nat k)%Z) eqn:E2.
  - apply orb_true_iff in E2 as [E2|E2]; [apply Z.ltb_lt in E2|apply Z.leb_le in E2]; lia.
  - replace (Z.to_nat (Z.of_nat (length l) + - Z.of_nat k)) with (length l - k) by lia.
    by rewrite Hx.
Qed.

Lemma if_else_given s l i (h : list DataFrame) df :
  h !! l = Some df -> getitem (index df) i = Ok s ->
  if_else (Some s) (Frame.index_getitem l i) h = Ok (s, h).
Proof.
  intros Hl G. rewrite (if_else_run _ _ _ _ _ Hl). unfold resolve. rewrite G.
  by destruct (Str.truthy (Some s)).
Qed.

(** Omitting [start] and [stop] is passing the labels [index[-28]] and
    [index[-1]]. *)
Lemma get_exponential_defaults l df col n horizon (h : list DataFrame) s e :
  h !! l = Some df ->
  getitem (index df) (-28) = Ok s ->
  getitem (index df) (-1) = Ok e ->
  get_exponential l col n None None horizon h =
  get_exponential l col n (Some s) (Some e) horizon h.
Proof.
  intros Hl Gs Ge. unfold Covid.get_exponential.
  rewrite !bind_run. rewrite (if_else_given _ _ _ _ _ Hl Gs).
  rewrite (if_else_run _ _ _ _ _ Hl). unfold resolve. rewrite Gs.
  rewrite !bind_run. rewrite (if_else_given _ _ _ _ _ Hl Ge).
  rewrite (if_else_run _ _ _ _ _ Hl). unfold resolve. rewrite Ge.
  reflexivity.
Qed.

Lemma daily_chain idx i a da :
  daily idx -> idx !! i = Some a -> Calendar.parse_iso a = Some da ->
  forall k b, idx !! (i + k) = Some b ->
    Calendar.parse_iso b = Some (Calendar.add_days da k).
Proof.
  intros D Ha Pa. induction k as [|k IH]; intros b Hb.
  - rewrite Nat.add_0_r in Hb. by replace b with a by congruence.
  - destruct (lookup_lt_is_Some_2 idx (i + k)) as [c Hc].
    { apply lookup_lt_Some in Hb. lia. }
    replace (i + S k) with (S (i + k)) in Hb by lia.
    destruct (D _ _ _ Hc Hb) as (d & Pc & Pb).
    rewrite (IH c Hc) in Pc. injection Pc as <-. exact Pb.
Qed.

(** *** The rows of the default window *)

Lemma daily_parse idx i a :
  daily idx -> 2 <= length idx -> idx !! i = Some a ->
  exists d, Calendar.parse_iso a = Some d.
Proof.
  intros D L Ha. pose proof (lookup_lt_Some _ _ _ Ha) as Hi.
  destruct (decide (S i < length idx)) as [Hs|Hs].
  - destruct (lookup_lt_is_Some_2 idx (S i) Hs) as [b Hb].
    destruct (D _ _ _ Ha Hb) as (d & P & _). eauto.
  - destruct i as [|i]; [lia|].
    destruct (lookup_lt_is_Some_2 idx i) as [c Hc]; [lia|].
    destruct (D _ _ _ Hc Ha) as (d & _ & P). eauto.
Qed.

Lemma daily_ord idx i j a b da db :
  daily idx -> idx !! i = Some a -> idx !! j = Some b ->
  Calendar.parse_iso a = Some da -> Calendar.parse_iso b = Some db ->
  i <= j -> Calendar.ord da + (j - i) <= Calendar.ord db.
Proof.
  intros D Ha Hb Pa Pb Hij.
  replace j with (i + (j - i)) in Hb by lia.
  rewrite (daily_chain _ _ _ _ D Ha Pa _ _ Hb) in Pb. injection Pb as <-.
  apply add_days_later. by apply (parse_iso_valid a).
Qed.

(** On a daily index of at least 28 rows, the rows between [index[-28]] and
    [index[-1]] are the last 28. *)
Lemma default_window_rows idx s e :
  28 <= length idx -> daily idx ->
  idx !! (length idx - 28) = Some s -> idx !! (length idx - 1) = Some e ->
  Np.select (mask_and (ge_index e idx) (index_ge idx s)) idx = drop (length idx - 28) idx.
Proof.
  intros L D Hs He. apply select_drop; [apply window_length|].
  intros i m Hm. pose proof (lookup_lt_Some _ _ _ Hm) as Hi. rewrite window_length in Hi.
  destruct (lookup_lt_is_Some_2 idx i Hi) as [a Ha].
  rewrite (window_lookup _ _ _ _ _ Ha) in Hm. injection Hm as <-.
  destruct (daily_parse idx i a D) as [da Pa]; [lia|done|].
  destruct (daily_parse idx _ s D ltac:(lia) Hs) as [ds Ps].
  destruct (daily_parse idx _ e D ltac:(lia) He) as [de Pe].
  rewrite (iso_ge _ _ _ _ Pe Pa), (iso_ge _ _ _ _ Pa Ps).
  pose proof (daily_ord _ _ _ _ _ _ _ D Ha He Pa Pe ltac:(lia)) as O1.
  assert (E1 : (Calendar.ord da <=? Calendar.ord de) = true) by (apply Nat.leb_le; lia).
  rewrite E1. cbn [andb].
  destruct (decide (length idx - 28 <= i)) as [G|G].
  - pose proof (daily_ord _ _ _ _ _ _ _ D Hs Ha Ps Pa G) as O2.
    transitivity true; [apply Nat.leb_le; lia|symmetry; apply Nat.leb_le; lia].
  - pose proof (daily_ord _ _ _ _ _ _ _ D Ha Hs Pa Ps ltac:(lia)) as O2.
    transitivity false; [apply Nat.leb_gt; lia|symmetry; apply Nat.leb_gt; lia].
Qed.

(** C4: when the caller omits [start] and [stop], the call is the one with
    [start] the 28th label from the end of the index and [stop] its last
    label; on a daily index the last label reads as the date 27 days after
    that [start], and the rows of the window are the last 28. *)
Theorem default_window l df (h : list DataFrame) :
  h !! l = Some df ->
  28 <= length (index df) ->
  exists s e,
    index df !! (length (index df) - 28) = Some s /\
    index df !! (length (index df) - 1) = Some e /\
    resolve None (index df) (-28) = Ok s /\
    resolve None (index df) (-1) = Ok e /\
    (forall col n horizon,
       get_exponential l col n None None horizon h =
       get_exponential l col n (Some s) (Some e) horizon h) /\
    (daily (index df) ->
     (exists ds,
        Calendar.parse_iso s = Some ds /\
        Calendar.parse_iso e = Some (Calendar.add_days ds 27)) /\
     Np.select (mask_and (ge_index e (index df)) (index_ge (index df) s)) (index df)
     = drop (length (index df) - 28) (index df)).
Proof.
  intros Hl Hlen.
  destruct (getitem_from_end (index df) 28) as (s & Hs & Gs); [lia|].
  destruct (getitem_from_end (index df) 1) as (e & He & Ge); [lia|].
  exists s, e.
  split; [done|]. split; [done|]. split; [exact Gs|]. split; [exact Ge|]. split.
  { intros col n horizon. by apply (get_exponential_defaults _ df). }
  intros D. split; [|by apply default_window_rows].
  destruct (lookup_lt_is_Some_2 (index df) (S (length (index df) - 28))) as [c Hc]; [lia|].
  destruct (D _ _ _ Hs Hc) as (ds & Ps & _).
  exists ds. split; [done|].
  apply (daily_chain _ _ _ _ D Hs Ps 27).
  by replace (length (index df) - 28 + 27) with (length (index df) - 1) by lia.
Qed.

(** *** Where the new column is defined *)

(** When the caller's name is not yet a column of the input, the new
    column holds NaN on every row before [start] and the projected value on
    every row from [start] on, so that, the values projected there not being
    NaN, its cell is not NaN exactly on the rows from [start] on; and every
    column of the input holds NaN on the appended rows. *)
Theorem new_column_defined_from_start l df col n start stop horizon
    (h h' : list DataFrame) r :
  h !! l = Some df ->
  well_formed df ->
  ~ In n (keys df) ->
  get_exponential l col n start stop horizon h = Ok (r, h') ->
  exists out start' stop' a b cells,
    h' !! r = Some out /\
    resolve start (index df) (-28) = Ok start' /\
    resolve stop (index df) (-1) = Ok stop' /\
    fit df col start' stop' = Ok (a, b) /\
    lookup_column n (columns out) = Some cells /\
    length cells = length (index out) /\
    (forall i d, index out !! i = Some d -> Str.ge d start' = false ->
       cells !! i = Some Np.nan) /\
    (forall i d, index out !! i = Some d -> Str.ge d start' = true ->
       cells !! i = Some (projected a b (offset (index out) start' i))) /\
    ((forall i d, index out !! i = Some d -> Str.ge d start' = true ->
        Np.isnan (projected a b (offset (index out) start' i)) = false) ->
     forall i d x, index out !! i = Some d -> cells !! i = Some x ->
       Np.isnan x = false <-> Str.ge d start' = true) /\
    (forall c old, lookup_column c (columns df) = Some old ->
       exists cs,
         lookup_column c (columns out) = Some cs /\
         forall i, length (index df) <= i < length (index out) -> cs !! i = Some Np.nan).
Proof.
  intros Hl W Hn Hrun.
  destruct (get_exponential_Ok _ _ _ _ _ _ _ _ _ _ Hl Hrun) as (out & R & Hr & _).
  destruct (returned_new_column _ _ _ _ _ _ _ W R)
    as (start' & stop' & a & b & ext & cells & R1 & R2 & F & X & I & C & L & G & B).
  assert (E : default (replicate (length (index out)) Np.nan) (lookup_column n (padded df ext))
              = replicate (length (index out)) Np.nan).
  { destruct (String.eqb n placeholder) eqn:E.
    - apply String.eqb_eq in E. subst n. rewrite padded_lookup_placeholder. simpl.
      by rewrite I, length_app, replicate_add.
    - apply String.eqb_neq in E. rewrite padded_lookup_other by done.
      by rewrite (lookup_column_None _ _ Hn). }
  assert (Lt : forall i d, index out !! i = Some d -> Str.ge d start' = false ->
                 cells !! i = Some Np.nan).
  { intros i d Hi Hlt. rewrite (B i d Hi Hlt), E.
    apply lookup_replicate_2. by apply lookup_lt_Some in Hi. }
  exists out, start', stop', a, b, cells.
  split; [done|]. split; [done|]. split; [done|]. split; [done|]. split; [done|].
  split.
  { rewrite C, lookup_set_column_eq in L. injection L as <-.
    rewrite written_length, <- I, E. apply length_replicate. }
  split; [exact Lt|]. split; [exact G|]. split.
  { intros Hnum i d x Hi Hx. split.
    - intros N. destruct (Str.ge d start') eqn:Hd; [done|].
      rewrite (Lt i d Hi Hd) in Hx. injection Hx as <-.
      vm_compute in N. discriminate N.
    - intros Hd. rewrite (G i d Hi Hd) in Hx. injection Hx as <-. by apply (Hnum i d). }
  intros c old Hold.
  assert (Hc : c <> n) by (intros ->; apply Hn; by apply lookup_column_Some_In in Hold).
  destruct (String.eqb c placeholder) eqn:Ec.
  - apply String.eqb_eq in Ec. subst c.
    eexists. split.
    + rewrite C, lookup_set_column_ne by done. apply padded_lookup_placeholder.
    + intros i Hi. rewrite <- replicate_add. apply lookup_replicate_2.
      rewrite I, length_app in Hi. lia.
  - apply String.eqb_neq in Ec. eexists. split.
    + rewrite C, lookup_set_column_ne by done. by rewrite padded_lookup_other, Hold.
    + intros i Hi. rewrite I, length_app in Hi.
      rewrite lookup_app_r by (rewrite (well_formed_lookup _ _ _ W Hold); lia).
      apply lookup_replicate_2. rewrite (well_formed_lookup _ _ _ W Hold). lia.
Qed.

(** *** What a call leaves as it was *)

(** A call does not modify the frame it is given, nor any other frame of
    the store; and in the frame it returns, every column of the input other
    than the new one keeps its cells on the rows of the input, the input
    having no column with the placeholder's name. *)
Theorem input_and_columns_preserved l df col n start stop horizon
    (h h' : list DataFrame) r :
  h !! l = Some df ->
  well_formed df ->
  ~ In placeholder (keys df) ->
  get_exponential l col n start stop horizon h = Ok (r, h') ->
  h' !! l = Some df /\
  (forall k f, h !! k = Some f -> h' !! k = Some f) /\
  h !! r = None /\
  exists out,
    h' !! r = Some out /\
    take (length (index df)) (index out) = index df /\
    forall c old, lookup_column c (columns df) = Some old -> c <> n ->
      exists cells,
        lookup_column c (columns out) = Some cells /\
        forall i, i < length (index df) -> cells !! i = old !! i.
Proof.
  intros Hl W Hp Hrun.
  destruct (get_exponential_Ok _ _ _ _ _ _ _ _ _ _ Hl Hrun) as (out & R & Hr & Hsub & Hnew).
  apply returned_inv in R as (start' & stop' & a & b & ext & _ & _ & _ & X & I & C).
  split; [by apply (prefix_lookup_Some h)|].
  split; [intros k f Hk; by apply (prefix_lookup_Some h)|].
  split; [done|].
  exists out. split; [done|]. split; [by rewrite I, take_app_length|].
  intros c old Hold Hc.
  assert (Hcp : c <> placeholder).
  { intros ->. apply Hp. by apply lookup_column_Some_In in Hold. }
  exists (old ++ replicate (length ext) Np.nan). split.
  - rewrite C, lookup_set_column_ne by done. by rewrite padded_lookup_other, Hold.
  - intros i Hi. apply lookup_app_l. by rewrite (well_formed_lookup _ _ _ W Hold).
Qed.

End Returned.

(** ** The properties on the example data *)

Import Demo.

Lemma september_well_formed : well_formed september.
Proof. unfold well_formed. repeat constructor. Qed.

Lemma reprojected_well_formed : well_formed reprojected.
Proof. unfold well_formed. repeat constructor. Qed.

Lemma fit_constant_needs_two_points f x y p0 :
  length y < 2 -> exists e, fit_constant f x y p0 = Raise e.
Proof.
  destruct y as [|c [|c' y]]; simpl; intros H; [eauto|eauto|lia].
Qed.

(** A projection of the three September days from their second day on, two
    days ahead. *)
Example september_projected :
  outcome (get_exponential exp_taylor fit_constant 0 "cases" "cases_exp"
             (Some "2021-09-09") None 2) (store_of september)
  = Ok (Some
      {| index := ["2021-09-08"; "2021-09-09"; "2021-09-10"; "2021-09-11"; "2021-09-12"];
         columns :=
           [("cases", [5%float; 5%float; 5%float; Np.nan; Np.nan]);
            ("new_col_name", [Np.nan; Np.nan; Np.nan; Np.nan; Np.nan]);
            ("cases_exp", [Np.nan; 5%float; 5%float; 5%float; 5%float])] |}).
Proof. vm_compute. reflexivity. Qed.

(** In that frame the new column is not NaN exactly on the rows from [start]
    on. *)
Example september_defined_from_start i d x :
  ["2021-09-08"; "2021-09-09"; "2021-09-10"; "2021-09-11"; "2021-09-12"] !! i = Some d ->
  [Np.nan; 5%float; 5%float; 5%float; 5%float] !! i = Some x ->
  Np.isnan x = false <-> Str.ge d "2021-09-09" = true.
Proof.
  intros Hi Hx.
  do 5 (destruct i as [|i];
        [injection Hi as <-; injection Hx as <-; vm_compute; split; congruence|]).
  discriminate Hi.
Qed.

(** The same projection under a name the frame already has: the row before
    [start] keeps its cell, 7. *)
Example reprojected_keeps_cell :
  outcome (get_exponential exp_taylor fit_constant 0 "cases" "cases_exp"
             (Some "2021-09-09") None 2) (store_of reprojected)
  = Ok (Some
      {| index := ["2021-09-08"; "2021-09-09"; "2021-09-10"; "2021-09-11"; "2021-09-12"];
         columns :=
           [("cases", [5%float; 5%float; 5%float; Np.nan; Np.nan]);
            ("cases_exp", [7%float; 5%float; 5%float; 5%float; 5%float]);
            ("new_col_name", [Np.nan; Np.nan; Np.nan; Np.nan; Np.nan])] |}).
Proof. vm_compute. reflexivity. Qed.

(** C3: the projection from 2021-09-09 on, under the name [cases_exp], of the
    example frame that already has a column of that name: the call returns,
    and on 2021-09-08, a row of the returned frame before [start], the column
    holds 7, the cell of the input, which is not NaN. Line 66 has reset the
    column named [new_col_name], not this one. *)
Theorem existing_name_defined_before_start :
  exists r h' out cells,
    get_exponential exp_taylor fit_constant 0 "cases" "cases_exp"
      (Some "2021-09-09") None 2 (store_of reprojected) = Ok (r, h') /\
    h' !! r = Some out /\
    index out !! 0 = Some "2021-09-08" /\
    Str.ge "2021-09-08" "2021-09-09" = false /\
    lookup_column "cases_exp" (columns reprojected) = Some [7%float; 7%float; 7%float] /\
    lookup_column "cases_exp" (columns out) = Some cells /\
    cells !! 0 = Some 7%float /\
    Np.isnan 7%float = false.
Proof.
  do 4 eexists. split; [vm_compute; reflexivity|].
  split; [reflexivity|]. repeat split.
Qed.

(** C10: the projection, under the name [cases_exp], of the example frame
    that has a column named [new_col_name]: the call returns and leaves the
    frame it was given as it was, but in the frame it returns that column,
    which is not the new one, holds NaN on the three rows of the input,
    where the input holds 1, 2 and 3. Line 66 has overwritten it. *)
Theorem placeholder_named_column_overwritten :
  exists r h' out cells,
    get_exponential exp_taylor fit_constant 0 "cases" "cases_exp"
      (Some "2021-09-09") None 2 (store_of with_placeholder) = Ok (r, h') /\
    h' !! 0 = Some with_placeholder /\
    h' !! r = Some out /\
    index with_placeholder !! 0 = Some "2021-09-08" /\
    index out !! 0 = Some "2021-09-08" /\
    placeholder <> "cases_exp" /\
    lookup_column placeholder (columns with_placeholder)
    = Some [1%float; 2%float; 3%float] /\
    Np.isnan 1%float = false /\
    lookup_column placeholder (columns out) = Some cells /\
    take 3 cells = [Np.nan; Np.nan; Np.nan] /\
    Np.isnan Np.nan = true.
Proof.
  do 4 eexists. split; [vm_compute; reflexivity|].
  split; [reflexivity|]. split; [reflexivity|].
  repeat split. discriminate.
Qed.

(** The same projection of a frame with a column named [new_col_name]: its
    cells 1, 2, 3 are NaN in the returned frame. *)
Example placeholder_cells_lost :
  outcome (get_exponential exp_taylor fit_constant 0 "cases" "cases_exp"
             (Some "2021-09-09") None 2) (store_of with_placeholder)
  = Ok (Some
      {| index := ["2021-09-08"; "2021-09-09"; "2021-09-10"; "2021-09-11"; "2021-09-12"];
         columns :=
           [("cases", [5%float; 5%float; 5%float; Np.nan; Np.nan]);
            ("new_col_name", [Np.nan; Np.nan; Np.nan; Np.nan; Np.nan]);
            ("cases_exp", [Np.nan; 5%float; 5%float; 5%float; 5%float])] |}).
Proof. vm_compute. reflexivity. Qed.

Lemma projection_on_extended_index_witness :
  exists out start' stop' a b ext cells,
    store_after (get_exponential exp_taylor fit_constant 0 "cases" "cases_exp"
                   (Some "2021-09-09") None 2) (store_of september) !! 4 = Some out /\
    resolve (Some "2021-09-09") (index september) (-28) = Ok start' /\
    resolve None (index september) (-1) = Ok stop' /\
    fit exp_taylor fit_constant september "cases" start' stop' = Ok (a, b) /\
    index_extension (index september) 2 = Ok ext /\
    index out = index september ++ ext /\
    lookup_column "cases_exp" (columns out) = Some cells /\
    forall i d, index out !! i = Some d -> Str.ge d start' = true ->
      cells !! i =
      Some (PrimFloat.mul a
              (exp_taylor (PrimFloat.mul b (Np.of_int (offset (index out) start' i))))).
Proof.
  apply (projection_on_extended_index exp_taylor fit_constant 0 september "cases" "cases_exp"
           (Some "2021-09-09") None 2 (store_of september)).
  - reflexivity.
  - exact september_well_formed.
  - vm_compute. reflexivity.
Defined.

Lemma zero_horizon_keeps_index_witness :
  exists out start' stop' a b cells,
    store_after (get_exponential exp_taylor fit_constant 0 "cases" "cases_exp"
                   (Some "2021-09-09") None 0) (store_of september) !! 4 = Some out /\
    index out = index september /\
    resolve (Some "2021-09-09") (index september) (-28) = Ok start' /\
    resolve None (index september) (-1) = Ok stop' /\
    fit exp_taylor fit_constant september "cases" start' stop' = Ok (a, b) /\
    lookup_column "cases_exp" (columns out) = Some cells /\
    forall i d, index september !! i = Some d -> Str.ge d start' = true ->
      cells !! i =
      Some (PrimFloat.mul a
              (exp_taylor (PrimFloat.mul b (Np.of_int (offset (index september) start' i))))).
Proof.
  apply (zero_horizon_keeps_index exp_taylor fit_constant 0 september "cases" "cases_exp"
           (Some "2021-09-09") None (store_of september)).
  - reflexivity.
  - exact september_well_formed.
  - vm_compute. reflexivity.
Defined.

Lemma index_extended_by_horizon_witness :
  exists out last d0,
    store_after (get_exponential exp_taylor fit_constant 0 "cases" "cases_exp"
                   (Some "2021-09-09") None 2) (store_of september) !! 4 = Some out /\
    getitem (index september) (-1) = Ok last /\
    Calendar.parse_iso last = Some d0 /\
    length (index out) = length (index september) + Z.to_nat 2 /\
    take (length (index september)) (index out) = index september /\
    (forall i, i < Z.to_nat 2 ->
       exists s,
         index out !! (length (index september) + i) = Some s /\
         s = Calendar.strftime (Calendar.add_days d0 (S i)) /\
         Calendar.parse_iso s = Some (Calendar.add_days d0 (S i)) /\
         Calendar.ord d0 < Calendar.ord (Calendar.add_days d0 (S i))) /\
    NoDup (drop (length (index september)) (index out)).
Proof.
  apply (index_extended_by_horizon exp_taylor fit_constant 0 september "cases" "cases_exp"
           (Some "2021-09-09") None 2 (store_of september)).
  - lia.
  - reflexivity.
  - vm_compute. reflexivity.
Defined.

Lemma placeholder_column_added_witness :
  exists out,
    store_after (get_exponential exp_taylor fit_constant 0 "cases" "cases_exp"
                   (Some "2021-09-09") None 2) (store_of september) !! 4 = Some out /\
    keys out = keys september ++ [placeholder; "cases_exp"].
Proof.
  apply (placeholder_column_added exp_taylor fit_constant 0 september "cases" "cases_exp"
           (Some "2021-09-09") None 2 (store_of september)).
  - reflexivity.
  - simpl. intros [H|[]]. discriminate H.
  - simpl. intros [H|[]]. discriminate H.
  - discriminate.
  - vm_compute. reflexivity.
Defined.

Lemma existing_column_kept_before_start_witness :
  exists out start' cells,
    store_after (get_exponential exp_taylor fit_constant 0 "cases" "cases_exp"
                   (Some "2021-09-09") None 2) (store_of reprojected) !! 4 = Some out /\
    resolve (Some "2021-09-09") (index reprojected) (-28) = Ok start' /\
    lookup_column "cases_exp" (columns out) = Some cells /\
    forall i d, index reprojected !! i = Some d -> Str.ge d start' = false ->
      cells !! i = [7%float; 7%float; 7%float] !! i.
Proof.
  apply (existing_column_kept_before_start exp_taylor fit_constant 0 reprojected "cases"
           "cases_exp" (Some "2021-09-09") None 2 (store_of reprojected)).
  - reflexivity.
  - exact reprojected_well_formed.
  - reflexivity.
  - discriminate.
  - vm_compute. reflexivity.
Defined.

Lemma placeholder_column_erased_witness :
  exists out cells,
    store_after (get_exponential exp_taylor fit_constant 0 "cases" "cases_exp"
                   (Some "2021-09-09") None 2) (store_of with_placeholder) !! 4 = Some out /\
    store_after (get_exponential exp_taylor fit_constant 0 "cases" "cases_exp"
                   (Some "2021-09-09") None 2) (store_of with_placeholder) !! 0
    = Some with_placeholder /\
    lookup_column placeholder (columns out) = Some cells /\
    length cells = length (index out) /\
    forall i, i < length cells -> cells !! i = Some Np.nan.
Proof.
  apply (placeholder_column_erased exp_taylor fit_constant 0 with_placeholder "cases"
           "cases_exp" (Some "2021-09-09") None 2 (store_of with_placeholder)).
  - reflexivity.
  - discriminate.
  - vm_compute. reflexivity.
Defined.

Lemma get_exponential_deterministic_witness :
  outcome (get_exponential exp_taylor fit_constant 0 "cases" "cases_exp"
             (Some "2021-09-09") None 2) (store_of september) =
  outcome (get_exponential exp_taylor fit_constant 1 "cases" "cases_exp"
             (Some "2021-09-09") None 2) (store_of month ++ store_of september).
Proof.
  apply (get_exponential_deterministic exp_taylor fit_constant 0 1 september).
  - reflexivity.
  - reflexivity.
Defined.


(** The example month is a daily index. *)
Lemma month_daily : daily (index month).
Proof.
  intros i a b Ha Hb.
  do 28 (destruct i as [|i];
         [injection Ha as <-; injection Hb as <-; eexists; split; vm_compute; reflexivity|]).
  discriminate Hb.
Qed.

Lemma default_window_witness :
  exists s e,
    index month !! (length (index month) - 28) = Some s /\
    index month !! (length (index month) - 1) = Some e /\
    resolve None (index month) (-28) = Ok s /\
    resolve None (index month) (-1) = Ok e /\
    (forall col n horizon,
       get_exponential exp_taylor fit_constant 0 col n None None horizon (store_of month) =
       get_exponential exp_taylor fit_constant 0 col n (Some s) (Some e) horizon
         (store_of month)) /\
    (daily (index month) ->
     (exists ds,
        Calendar.parse_iso s = Some ds /\
        Calendar.parse_iso e = Some (Calendar.add_days ds 27)) /\
     Np.select (mask_and (ge_index e (index month)) (index_ge (index month) s)) (index month)
     = drop (length (index month) - 28) (index month)).
Proof.
  apply (default_window exp_taylor fit_constant 0 month (store_of month)).
  - reflexivity.
  - vm_compute. lia.
Defined.

Lemma new_column_defined_from_start_witness :
  exists out start' stop' a b cells,
    store_after (get_exponential exp_taylor fit_constant 0 "cases" "cases_exp"
                   (Some "2021-09-09") None 2) (store_of september) !! 4 = Some out /\
    resolve (Some "2021-09-09") (index september) (-28) = Ok start' /\
    resolve None (index september) (-1) = Ok stop' /\
    fit exp_taylor fit_constant september "cases" start' stop' = Ok (a, b) /\
    lookup_column "cases_exp" (columns out) = Some cells /\
    length cells = length (index out) /\
    (forall i d, index out !! i = Some d -> Str.ge d start' = false ->
       cells !! i = Some Np.nan) /\
    (forall i d, index out !! i = Some d -> Str.ge d start' = true ->
       cells !! i = Some (projected exp_taylor a b (offset (index out) start' i))) /\
    ((forall i d, index out !! i = Some d -> Str.ge d start' = true ->
        Np.isnan (projected exp_taylor a b (offset (index out) start' i)) = false) ->
     forall i d x, index out !! i = Some d -> cells !! i = Some x ->
       Np.isnan x = false <-> Str.ge d start' = true) /\
    (forall c old, lookup_column c (columns september) = Some old ->
       exists cs,
         lookup_column c (columns out) = Some cs /\
         forall i, length (index september) <= i < length (index out) ->
           cs !! i = Some Np.nan).
Proof.
  apply (new_column_defined_from_start exp_taylor fit_constant 0 september "cases" "cases_exp"
           (Some "2021-09-09") None 2 (store_of september)).
  - reflexivity.
  - exact september_well_formed.
  - simpl. intros [H|[]]. discriminate H.
  - vm_compute. reflexivity.
Defined.

Lemma input_and_columns_preserved_witness :
  store_after (get_exponential exp_taylor fit_constant 0 "cases" "cases_exp"
                 (Some "2021-09-09") None 2) (store_of september) !! 0 = Some september /\
  (forall k f, store_of september !! k = Some f ->
     store_after (get_exponential exp_taylor fit_constant 0 "cases" "cases_exp"
                    (Some "2021-09-09") None 2) (store_of september) !! k = Some f) /\
  store_of september !! 4 = None /\
  exists out,
    store_after (get_exponential exp_taylor fit_constant 0 "cases" "cases_exp"
                   (Some "2021-09-09") None 2) (store_of september) !! 4 = Some out /\
    take (length (index september)) (index out) = index september /\
    forall c old, lookup_column c (columns september) = Some old -> c <> "cases_exp" ->
      exists cells,
        lookup_column c (columns out) = Some cells /\
        forall i, i < length (index september) -> cells !! i = old !! i.
Proof.
  apply (input_and_columns_preserved exp_taylor fit_constant 0 september "cases" "cases_exp"
           (Some "2021-09-09") None 2 (store_of september)).
  - reflexivity.
  - exact september_well_formed.
  - simpl. intros [H|[]]. discriminate H.
  - vm_compute. reflexivity.
Defined.

(** The default [start] on 29 daily rows ending on 2021-09-10: the label
    2021-08-14, 27 days before the last date, where 28 days before it is
    2021-08-13; the default window holds the last 28 rows. *)
Lemma default_start_27_days_before :
  getitem (index month) (-1) = Ok "2021-09-10" /\
  resolve None (index month) (-28) = Ok "2021-08-14" /\
  resolve None (index month) (-1) = Ok "2021-09-10" /\
  Calendar.parse_iso "2021-09-10" = Some (Calendar.Date 2021 9 10) /\
  Calendar.parse_iso "2021-08-14" = Some (Calendar.Date 2021 8 14) /\
  Calendar.add_days (Calendar.Date 2021 8 14) 27 = Calendar.Date 2021 9 10 /\
  Calendar.add_days (Calendar.Date 2021 8 13) 28 = Calendar.Date 2021 9 10 /\
  Calendar.strftime (Calendar.Date 2021 8 13) <> "2021-08-14" /\
  Np.select (mask_and (ge_index "2021-09-10" (index month))
                      (index_ge (index month) "2021-08-14")) (index month)
  = drop 1 (index month) /\
  (forall np_exp curve_fit col n horizon,
     get_exponential np_exp curve_fit 0 col n None None horizon (store_of month) =
     get_exponential np_exp curve_fit 0 col n (Some "2021-08-14") (Some "2021-09-10") horizon
       (store_of month)).
Proof.
  do 7 (split; [vm_compute; reflexivity|]).
  split; [vm_compute; discriminate|].
  split; [vm_compute; reflexivity|].
  intros. apply (get_exponential_defaults _ _ _ month); reflexivity.
Qed.


(** * Further properties of [get_exponential] *)

(** ** Dates in a row *)

Section DatedFacts.

Import Calendar.

Lemma add_days_add d a b : add_days (add_days d a) b = add_days d (a + b).
Proof.
  unfold add_days. induction b as [|b IH]; simpl.
  - by rewrite Nat.add_0_r.
  - rewrite IH. by replace (a + S b) with (S (a + b)) by lia.
Qed.

Lemma add_days_lt d i j :
  valid d = true -> i < j -> ord (add_days d i) < ord (add_days d j).
Proof.
  intros V H. replace j with (i + (j - i)) by lia. rewrite <- add_days_add.
  pose proof (add_days_later (add_days d i) (j - i) (add_days_valid d i V)). lia.
Qed.

(** On valid dates, the chronological order is the order of [ord]. *)
Lemma leb_ord d1 d2 :
  valid d1 = true -> valid d2 = true -> leb d1 d2 = (ord d1 <=? ord d2).
Proof.
  intros V1 V2. apply valid_spec in V1 as [M1 D1], V2 as [M2 D2].
  pose proof (days_in_month_bounds (year d1) (month d1)).
  pose proof (days_in_month_bounds (year d2) (month d2)).
  unfold leb, ord.
  destruct (year d1 <? year d2) eqn:E1.
  { apply Nat.ltb_lt in E1. symmetry. apply Nat.leb_le. lia. }
  apply Nat.ltb_ge in E1. cbn [orb].
  destruct (year d1 =? year d2) eqn:E2; cbn [andb].
  2:{ apply Nat.eqb_neq in E2. symmetry. apply Nat.leb_gt. lia. }
  apply Nat.eqb_eq in E2.
  destruct (month d1 <? month d2) eqn:E3.
  { apply Nat.ltb_lt in E3. symmetry. apply Nat.leb_le. lia. }
  apply Nat.ltb_ge in E3. cbn [orb].
  destruct (month d1 =? month d2) eqn:E4; cbn [andb].
  2:{ apply Nat.eqb_neq in E4. symmetry. apply Nat.leb_gt. lia. }
  apply Nat.eqb_eq in E4.
  destruct (day d1 <=? day d2) eqn:E5; symmetry;
    [apply Nat.leb_le in E5; apply Nat.leb_le|apply Nat.leb_gt in E5; apply Nat.leb_gt]; lia.
Qed.

(** Labels that read as consecutive days from [d0] on: the label of row [i]
    is at least the label of row [p] exactly when [p <= i]. *)
Lemma consecutive_ge (idx : list string) d0 i p a s :
  (forall j x, idx !! j = Some x -> parse_iso x = Some (add_days d0 j)) ->
  valid d0 = true ->
  idx !! i = Some a -> idx !! p = Some s ->
  Str.ge a s = (p <=? i).
Proof.
  intros D V Ha Hs.
  rewrite (iso_ge _ _ _ _ (D _ _ Ha) (D _ _ Hs)).
  destruct (decide (p <= i)) as [L|L].
  - transitivity true; [|symmetry; by apply Nat.leb_le].
    apply Nat.leb_le. destruct (decide (p = i)) as [->|N]; [lia|].
    pose proof (add_days_lt d0 p i V ltac:(lia)). lia.
  - transitivity false; [|symmetry; apply Nat.leb_gt; lia].
    apply Nat.leb_gt. apply add_days_lt; [done|lia].
Qed.

(** A daily index whose first label reads as [d0] holds consecutive days. *)
Lemma daily_consecutive (idx : list string) a d0 :
  daily idx -> idx !! 0 = Some a -> parse_iso a = Some d0 ->
  forall j x, idx !! j = Some x -> parse_iso x = Some (add_days d0 j).
Proof.
  intros D Ha Pa j x Hx. by apply (daily_chain idx 0 a d0 D Ha Pa j x).
Qed.

End DatedFacts.

(** ** Masks that select a run of rows *)

Section SliceFacts.

Context {A : Type}.

Lemma select_slice (l : list A) (p e : nat) (mask : list bool) :
  length mask = length l ->
  (forall i m, mask !! i = Some m -> m = (p <=? i) && (i <? e)) ->
  Np.select mask l = take (e - p) (drop p l).
Proof.
  revert p e mask.
  induction l as [|x l IH]; intros p e [|m mask] L H; simpl in *; try lia.
  - by rewrite drop_nil, take_nil.
  - injection L as L. pose proof (H 0 m eq_refl) as H0.
    destruct p as [|p].
    + destruct e as [|e]; simpl in H0; subst m.
      * rewrite (IH 0 0 mask L); [by rewrite take_0|].
        intros i m Hi. rewrite (H (S i) m Hi). reflexivity.
      * simpl. f_equal. rewrite (IH 0 e mask L); [by rewrite drop_0, Nat.sub_0_r|].
        intros i m Hi. rewrite (H (S i) m Hi). reflexivity.
    + simpl in H0. subst m. simpl.
      rewrite (IH p (e - 1) mask L).
      * f_equal. lia.
      * intros i m Hi. rewrite (H (S i) m Hi).
        change (S p <=? S i) with (p <=? i). f_equal.
        destruct e as [|e]; [reflexivity|].
        replace (S e - 1) with e by lia. reflexivity.
Qed.

Lemma count_from (mask : list bool) (p i : nat) :
  i <= length mask ->
  (forall j m, mask !! j = Some m -> m = (p <=? j)) ->
  Np.count (take i mask) = i - p.
Proof.
  revert p i. induction mask as [|m mask IH]; intros p i L H.
  - simpl in L. replace i with 0 by lia. reflexivity.
  - destruct i as [|i]; [reflexivity|]. simpl in L.
    pose proof (H 0 m eq_refl) as H0. cbn [take Np.count].
    destruct p as [|p]; simpl in H0; subst m.
    + rewrite (IH 0 i); [lia|lia|]. intros j m Hj. by rewrite (H (S j) m Hj).
    + rewrite (IH p i); [lia|lia|]. intros j m Hj. by rewrite (H (S j) m Hj).
Qed.

Lemma getitem_last (l : list A) (x : A) :
  getitem l (-1) = Ok x -> 0 < length l /\ l !! (length l - 1) = Some x.
Proof.
  intros G.
  assert (L : 0 < length l) by (destruct l; [discriminate G|simpl; lia]).
  split; [done|].
  destruct (getitem_from_end l 1) as (y & Hy & Gy); [lia|].
  change (- Z.of_nat 1)%Z with (-1)%Z in Gy. rewrite G in Gy. by injection Gy as <-.
Qed.

End SliceFacts.

Section Edges.

Variable np_exp : float -> float.
Variable curve_fit :
  (float -> float -> float -> float) -> list nat -> list float -> float * float ->
  result (float * float).

Abbreviation get_exponential := (get_exponential np_exp curve_fit).
Abbreviation returned := (returned np_exp curve_fit).
Abbreviation fit := (fit np_exp curve_fit).
Abbreviation projected := (projected np_exp).
Abbreviation exponential := (exponential np_exp).
Abbreviation get_exponential_Ok := (get_exponential_Ok np_exp curve_fit).
Abbreviation get_exponential_Raise := (get_exponential_Raise np_exp curve_fit).
Abbreviation returned_inv := (returned_inv np_exp curve_fit).
Abbreviation returned_new_column := (returned_new_column np_exp curve_fit).

(** ** Frames too short for a call *)

(** X1: on a frame with no rows every call fails, whatever its arguments and
    whatever the fit would answer: no label can be read at [index[-1]]. *)
Theorem no_rows_no_projection l df col n start stop horizon (h : list DataFrame) :
  h !! l = Some df ->
  index df = [] ->
  exists e, get_exponential l col n start stop horizon h = Raise e.
Proof.
  intros Hl He.
  destruct (returned df col n start stop horizon) as [out|e] eqn:R.
  - apply returned_inv in R as (start' & stop' & a & b & ext & _ & _ & _ & X & _).
    apply index_extension_inv in X as (last & d0 & G & _). rewrite He in G. discriminate G.
  - exists e. by apply (get_exponential_Raise _ df).
Qed.

(** X2: when [start] is omitted, or is the empty string, a frame of fewer than 28
    rows is refused with [IndexError]: [index[-28]] is read before anything
    else. *)
Theorem default_start_needs_28_rows l df col n start stop horizon (h : list DataFrame) :
  h !! l = Some df ->
  Str.truthy start = false ->
  length (index df) < 28 ->
  get_exponential l col n start stop horizon h = Raise IndexError.
Proof.
  intros Hl T L. apply (get_exponential_Raise _ df); [done|].
  unfold Covid.returned.
  assert (G : getitem (index df) (-28) = Raise IndexError).
  { unfold getitem. cbv zeta. change (-28 <? 0)%Z with true. cbv iota.
    assert (E : (Z.of_nat (length (index df)) + -28 <? 0)%Z = true) by (apply Z.ltb_lt; lia).
    by rewrite E. }
  assert (R : resolve start (index df) (-28) = Raise IndexError).
  { unfold resolve. destruct start as [s|]; [|done]. by rewrite T. }
  by rewrite R.
Qed.

(** ** The shape of the returned frame *)

Lemma Forall_set_column (P : string * list float -> Prop) n f cols :
  Forall P cols ->
  P (n, f None) ->
  (forall k v, In (k, v) cols -> P (k, f (Some v))) ->
  Forall P (set_column n f cols).
Proof.
  intros HF Hnew Hrep. unfold set_column.
  destruct (has_column n cols).
  - apply Forall_fmap. apply Forall_forall. intros [k v] Hin. unfold compose. cbn [fst snd].
    apply list_elem_of_In in Hin.
    destruct (String.eqb k n) eqn:E.
    + by apply Hrep.
    + rewrite Forall_forall in HF. apply HF. by apply list_elem_of_In.
  - apply Forall_app. split; [done|]. by constructor.
Qed.

Lemma padded_well_formed df ext :
  well_formed df ->
  Forall (fun kv => length (snd kv) = length (index df ++ ext)) (padded df ext).
Proof.
  intros W. unfold padded. apply Forall_fmap. unfold well_formed in W.
  apply Forall_set_column.
  - eapply Forall_impl; [exact W|]. intros [k v] E. cbn [fst snd compose] in *.
    by rewrite !length_app, length_replicate, E.
  - cbn [fst snd compose]. by rewrite !length_app, !length_replicate.
  - intros k v _. cbn [fst snd compose]. by rewrite !length_app, !length_replicate.
Qed.

(** X3: the frame a call returns on a well-formed frame is well formed: every
    column, the new one included, has one cell per label of the extended
    index, which has [horizon] labels more than the input's. *)
Theorem returned_frame_well_formed l df col n start stop horizon
    (h h' : list DataFrame) r :
  h !! l = Some df ->
  well_formed df ->
  (0 <= horizon)%Z ->
  get_exponential l col n start stop horizon h = Ok (r, h') ->
  exists out,
    h' !! r = Some out /\
    well_formed out /\
    length (index out) = length (index df) + Z.to_nat horizon /\
    forall c cells, lookup_column c (columns out) = Some cells ->
      length cells = length (index df) + Z.to_nat horizon.
Proof.
  intros Hl W Hh Hrun.
  destruct (get_exponential_Ok _ _ _ _ _ _ _ _ _ _ Hl Hrun) as (out & R & Hr & _).
  apply returned_inv in R as (start' & stop' & a & b & ext & _ & _ & _ & X & I & C).
  assert (Wout : well_formed out).
  { unfold well_formed. rewrite C, I.
    pose proof (padded_well_formed df ext W) as P.
    apply Forall_set_column; [done| |].
    - cbn [snd]. rewrite written_length. cbn [default]. by rewrite length_replicate.
    - intros k v Hin. cbn [snd]. rewrite written_length. cbn [default].
      rewrite Forall_forall in P. apply (P (k, v)). by apply list_elem_of_In. }
  assert (Len : length (index out) = length (index df) + Z.to_nat horizon).
  { apply index_extension_inv in X as (last & d0 & _ & _ & _ & -> & _).
    by rewrite I, length_app, length_map, days_from_length. }
  exists out. repeat split; try done.
  intros c cells Hc. rewrite <- Len. by apply (well_formed_lookup out c).
Qed.

(** ** A daily index *)

(** The labels of the extended index read as consecutive days when those of
    the input do. *)
Lemma extended_consecutive (idx : list string) horizon ext :
  daily idx ->
  index_extension idx horizon = Ok ext ->
  exists a d0,
    idx !! 0 = Some a /\ Calendar.parse_iso a = Some d0 /\
    forall j x, (idx ++ ext) !! j = Some x ->
      Calendar.parse_iso x = Some (Calendar.add_days d0 j).
Proof.
  intros D X.
  apply index_extension_inv in X as (last & dl & G & Pl & Bl & -> & Bs).
  destruct (getitem_last _ _ G) as [Hlen Hlast].
  destruct (lookup_lt_is_Some_2 idx 0 Hlen) as [a Ha].
  assert (Pa : exists d0, Calendar.parse_iso a = Some d0).
  { destruct (decide (2 <= length idx)) as [L2|L2].
    - by apply (daily_parse idx 0 a D).
    - replace (length idx - 1) with 0 in Hlast by lia.
      rewrite Ha in Hlast. injection Hlast as ->. eauto. }
  destruct Pa as [d0 Pa]. exists a, d0. split; [done|]. split; [done|].
  pose proof (daily_consecutive idx a d0 D Ha Pa) as C.
  assert (El : dl = Calendar.add_days d0 (length idx - 1)).
  { pose proof (C _ _ Hlast) as E. rewrite Pl in E. by injection E. }
  intros j x Hx. apply lookup_app_Some in Hx as [Hx|[Hj Hx]]; [by apply C|].
  rewrite list_lookup_fmap in Hx.
  destruct (Calendar.days_from _ _ !! _) as [d|] eqn:Ed; [|discriminate Hx].
  injection Hx as <-.
  pose proof (lookup_lt_Some _ _ _ Ed) as Lt. rewrite days_from_length in Lt.
  assert (Bd : Calendar.in_bounds d = true).
  { rewrite Forall_forall in Bs. apply Bs. by apply list_elem_of_lookup_2 with (j - length idx). }
  rewrite days_from_lookup in Ed by done. injection Ed as <-.
  rewrite add_days_next, El, add_days_add in Bd |- *.
  replace (length idx - 1 + S (j - length idx)) with j in Bd |- * by lia.
  apply parse_strftime; [|by apply in_bounds_year].
  apply add_days_valid. by apply (parse_iso_valid a).
Qed.

(** X4: on a daily index, with [start] the label of row [p], the new column holds
    at every row [i] from [p] on, appended rows included, the value
    [a * exp(b * (i - p))]: the offset counts the days since [start]. *)
Theorem projection_on_daily_index l df col n s stop horizon (h h' : list DataFrame) r p :
  h !! l = Some df ->
  well_formed df ->
  daily (index df) ->
  index df !! p = Some s ->
  (0 <= horizon)%Z ->
  get_exponential l col n (Some s) stop horizon h = Ok (r, h') ->
  exists out stop' a b cells,
    h' !! r = Some out /\
    resolve stop (index df) (-1) = Ok stop' /\
    fit df col s stop' = Ok (a, b) /\
    length (index out) = length (index df) + Z.to_nat horizon /\
    lookup_column n (columns out) = Some cells /\
    forall i, p <= i < length (index out) ->
      cells !! i = Some (projected a b (i - p)).
Proof.
  intros Hl W D Hp Hh Hrun.
  destruct (get_exponential_Ok _ _ _ _ _ _ _ _ _ _ Hl Hrun) as (out & R & Hr & _).
  destruct (returned_new_column _ _ _ _ _ _ _ W R)
    as (start' & stop' & a & b & ext & cells & R1 & R2 & F & X & I & _ & L & G & _).
  destruct (extended_consecutive _ _ _ D X) as (a0 & d0 & H0 & P0 & C).
  assert (V0 : Calendar.valid d0 = true) by (by apply (parse_iso_valid a0)).
  assert (Hp' : (index df ++ ext) !! p = Some s) by (by apply lookup_app_l_Some).
  assert (Es : start' = s).
  { unfold resolve in R1.
    destruct (Str.truthy (Some s)) eqn:T; [by injection R1|].
    unfold Str.truthy in T. apply negb_false_iff, String.eqb_eq in T. subst s.
    pose proof (C _ _ Hp') as E. discriminate E. }
  subst start'.
  assert (Len : length (index out) = length (index df) + Z.to_nat horizon).
  { apply index_extension_inv in X as (last & dl & _ & _ & _ & -> & _).
    by rewrite I, length_app, length_map, days_from_length. }
  exists out, stop', a, b, cells. repeat split; try done.
  intros i [Hpi Hi].
  destruct (lookup_lt_is_Some_2 (index out) i Hi) as [d Hd].
  assert (Hge : forall j x, index out !! j = Some x -> Str.ge x s = (p <=? j)).
  { intros j x Hx. rewrite I in Hx. by apply (consecutive_ge _ d0 j p x s C V0). }
  rewrite (G i d Hd).
  - do 2 f_equal. rewrite offset_count.
    apply count_from.
    + rewrite index_ge_length. lia.
    + intros j m Hj.
      destruct (index out !! j) as [x|] eqn:Ex.
      * rewrite (index_ge_lookup _ _ _ _ Ex) in Hj. injection Hj as <-. by apply Hge.
      * apply lookup_lt_Some in Hj. rewrite index_ge_length in Hj.
        apply lookup_ge_None in Ex. lia.
  - rewrite (Hge i d Hd). by apply Nat.leb_le.
Qed.

(** X5: on a daily index, with [start] the label of row [p] and [stop] that of
    row [q], the fit is asked for the cells of the target column at the rows
    [p] to [q], missing cells included, against the offsets [0, 1, ...], from
    the initial guess [(0, 0)]. *)
Theorem fit_on_daily_window df col s e p q cells :
  well_formed df ->
  daily (index df) ->
  index df !! p = Some s ->
  index df !! q = Some e ->
  lookup_column col (columns df) = Some cells ->
  fit df col s e =
  curve_fit exponential (range (S q - p)) (take (S q - p) (drop p cells))
    (PrimFloat.zero, PrimFloat.zero).
Proof.
  intros W D Hp Hq Hc.
  set (mask := mask_and (ge_index e (index df)) (index_ge (index df) s)).
  assert (M : forall i m, mask !! i = Some m -> m = (p <=? i) && (i <? S q)).
  { intros i m Hm. pose proof (lookup_lt_Some _ _ _ Hm) as Hi.
    unfold mask in Hi. rewrite window_length in Hi.
    destruct (lookup_lt_is_Some_2 (index df) i Hi) as [a Ha].
    unfold mask in Hm. rewrite (window_lookup _ _ _ _ _ Ha) in Hm. injection Hm as <-.
    destruct (decide (2 <= length (index df))) as [L2|L2].
    - destruct (lookup_lt_is_Some_2 (index df) 0 ltac:(lia)) as [a0 H0].
      destruct (daily_parse _ 0 a0 D L2 H0) as [d0 P0].
      pose proof (daily_consecutive _ a0 d0 D H0 P0) as C.
      assert (V0 : Calendar.valid d0 = true) by (by apply (parse_iso_valid a0)).
      rewrite (consecutive_ge _ d0 q i e a C V0 Hq Ha).
      rewrite (consecutive_ge _ d0 i p a s C V0 Ha Hp).
      apply andb_comm.
    - apply lookup_lt_Some in Hp as Lp. apply lookup_lt_Some in Hq as Lq.
      assert (p = 0) by lia. assert (q = 0) by lia. assert (i = 0) by lia. subst p q i.
      rewrite Hp in Ha, Hq. injection Ha as <-. injection Hq as <-.
      unfold Str.ge. by rewrite leb_refl. }
  unfold Covid.fit. fold mask. unfold getitem_mask.
  assert (Lm : length mask = length (index df)) by apply window_length.
  rewrite Lm, Nat.eqb_refl. cbn [and_then]. unfold getitem_column. cbn [columns index].
  rewrite (lookup_column_map _ _ (fun _ v => Np.select mask v)), Hc. cbn [option_map and_then].
  assert (Lc : length cells = length (index df)) by (by apply (well_formed_lookup df col)).
  rewrite (select_slice cells p (S q) mask) by (done || congruence).
  rewrite (select_slice (index df) p (S q) mask) by done.
  rewrite length_take, length_drop.
  apply lookup_lt_Some in Hq.
  replace ((S q - p) `min` (length (index df) - p)) with (S q - p) by lia.
  reflexivity.
Qed.

(** ** Calls in a row *)

(** X6: a call on the frame that a first call returned extends the index further:
    after horizons [h1] and then [h2] the index is the one that a single call
    with horizon [h1 + h2] gives; the first frame is left as it was. *)
Theorem chained_calls_extend_index l df col1 n1 start1 stop1 h1 col2 n2 start2 stop2 h2
    (h hA hB : list DataFrame) r1 r2 :
  h !! l = Some df ->
  (0 <= h1)%Z -> (0 <= h2)%Z ->
  get_exponential l col1 n1 start1 stop1 h1 h = Ok (r1, hA) ->
  get_exponential r1 col2 n2 start2 stop2 h2 hA = Ok (r2, hB) ->
  exists out1 out2 ext,
    hB !! l = Some df /\
    hB !! r1 = Some out1 /\
    hB !! r2 = Some out2 /\
    index_extension (index df) (h1 + h2) = Ok ext /\
    length ext = Z.to_nat h1 + Z.to_nat h2 /\
    index out2 = index df ++ ext.
Proof.
  intros Hl H1 H2 Run1 Run2.
  destruct (get_exponential_Ok _ _ _ _ _ _ _ _ _ _ Hl Run1) as (out1 & R1 & Hr1 & P1 & _).
  destruct (get_exponential_Ok _ _ _ _ _ _ _ _ _ _ Hr1 Run2) as (out2 & R2 & Hr2 & P2 & _).
  apply returned_inv in R1 as (? & ? & ? & ? & ext1 & _ & _ & _ & X1 & I1 & _).
  apply returned_inv in R2 as (? & ? & ? & ? & ext2 & _ & _ & _ & X2 & I2 & _).
  pose proof X1 as X1'. pose proof X2 as X2'.
  apply index_extension_inv in X1' as (last & d0 & G & P0 & B0 & E1 & A1).
  apply index_extension_inv in X2' as (last2 & d1 & G2 & Pd1 & Bd1 & E2 & A2).
  set (k1 := Z.to_nat h1) in *. set (k2 := Z.to_nat h2) in *.
  assert (V0 : Calendar.valid d0 = true) by (by apply (parse_iso_valid last)).
  (* the last label of the first returned frame is [k1] days after [d0] *)
  assert (Ed : d1 = Calendar.add_days d0 k1).
  { rewrite I1 in G2.
    destruct (getitem_last _ _ G2) as [_ Hz].
    destruct (getitem_last _ _ G) as [Hlen Hz'].
    rewrite length_app in Hz.
    assert (Le : length ext1 = k1) by (by rewrite E1, length_map, days_from_length).
    destruct k1 as [|k1'] eqn:K.
    - destruct ext1; [|discriminate Le]. rewrite app_nil_r, Nat.add_0_r, Hz' in Hz.
      injection Hz as <-. rewrite P0 in Pd1. by injection Pd1 as <-.
    - rewrite lookup_app_r in Hz by lia.
      replace (length (index df) + length ext1 - 1 - length (index df)) with k1' in Hz by lia.
      rewrite E1, list_lookup_fmap, days_from_lookup in Hz by lia.
      injection Hz as <-.
      rewrite add_days_next in Pd1. rewrite parse_strftime in Pd1.
      + by injection Pd1 as <-.
      + by apply add_days_valid.
      + apply in_bounds_year. rewrite Forall_forall in A1.
        rewrite <- add_days_next. apply A1.
        apply list_elem_of_lookup_2 with k1'. apply days_from_lookup. lia. }
  subst d1.
  assert (Split : Calendar.days_from (Calendar.next_day d0) (k1 + k2) =
                  Calendar.days_from (Calendar.next_day d0) k1 ++
                  Calendar.days_from (Calendar.next_day (Calendar.add_days d0 k1)) k2).
  { apply list_eq. intros i.
    destruct (decide (i < k1)) as [Li|Li].
    - rewrite lookup_app_l by (by rewrite days_from_length).
      by rewrite !days_from_lookup by lia.
    - rewrite lookup_app_r by (rewrite days_from_length; lia). rewrite days_from_length.
      destruct (decide (i < k1 + k2)) as [Li2|Li2].
      + rewrite !days_from_lookup by lia. f_equal.
        rewrite !add_days_next, add_days_add. f_equal. lia.
      + rewrite !lookup_ge_None_2; [done| |]; rewrite days_from_length; lia. }
  exists out1, out2, (ext1 ++ ext2).
  split; [apply (prefix_lookup_Some hA); [|done]; by apply (prefix_lookup_Some h)|].
  split; [by apply (prefix_lookup_Some hA)|].
  split; [done|]. split.
  - unfold index_extension. rewrite G. cbn [and_then].
    unfold date_range, to_datetime. rewrite P0, B0.
    assert (Ep : (h1 + h2 + 1 <? 0)%Z = false) by (apply Z.ltb_ge; lia).
    rewrite Ep.
    replace (Z.to_nat (h1 + h2 + 1)) with (S (k1 + k2)) by lia.
    assert (Fb : forallb Calendar.in_bounds (Calendar.days_from d0 (S (k1 + k2))) = true).
    { apply forallb_forall. intros d Hd. cbn [Calendar.days_from] in Hd.
      destruct Hd as [<-|Hd]; [done|]. rewrite Split in Hd.
      apply in_app_iff in Hd as [Hd|Hd]; apply list_elem_of_In in Hd.
      - rewrite Forall_forall in A1. by apply A1.
      - rewrite Forall_forall in A2. by apply A2. }
    rewrite Fb. cbn [and_then]. rewrite days_from_tail, Split, map_app. by rewrite E1, E2.
  - split.
    + rewrite length_app, E1, E2, !length_map, !days_from_length. reflexivity.
    + rewrite I2, I1. by rewrite app_assoc.
Qed.

(** ** Labels as dates *)

(** X7: on labels of the form [YYYY-MM-DD], the rows of the window are those
    whose date lies between the dates of [start] and [stop], both included:
    the comparison of strings at lines 61 and 70 is the one of dates. *)
Theorem window_is_chronological (idx : list string) start stop i d dd ds de :
  idx !! i = Some d ->
  Calendar.parse_iso d = Some dd ->
  Calendar.parse_iso start = Some ds ->
  Calendar.parse_iso stop = Some de ->
  mask_and (ge_index stop idx) (index_ge idx start) !! i =
    Some (Calendar.leb dd de && Calendar.leb ds dd) /\
  index_ge idx start !! i = Some (Calendar.leb ds dd).
Proof.
  intros Hi Pd Ps Pe.
  pose proof (parse_iso_valid _ _ Pd). pose proof (parse_iso_valid _ _ Ps).
  pose proof (parse_iso_valid _ _ Pe).
  rewrite (window_lookup _ _ _ _ _ Hi), (index_ge_lookup _ _ _ _ Hi).
  rewrite (iso_ge _ _ _ _ Pe Pd), (iso_ge _ _ _ _ Pd Ps).
  by rewrite !leb_ord.
Qed.

End Edges.

(** * Downloading, drawing, saving *)

Import World Script.

(** ** Runs in the world *)

Section WorldFacts.

Context {A : Type}.

Lemma wp_ret (a : A) Q E w : Q a w -> wp (ret a) Q E w.
Proof. done. Qed.

Lemma wp_raise (e : error) (Q : A -> world -> Prop) E w : E e w -> wp (raise e) Q E w.
Proof. done. Qed.

Lemma wp_bind {B : Type} (m : W A) (k : A -> W B) Q E w :
  wp m (fun a w' => wp (k a) Q E w') E w -> wp (bind m k) Q E w.
Proof. unfold wp, bind. by destruct (m w). Qed.

Lemma wp_mono (m : W A) (Q Q' : A -> world -> Prop) (E E' : error -> world -> Prop) w :
  wp m Q E w ->
  (forall a w', Q a w' -> Q' a w') -> (forall e w', E e w' -> E' e w') ->
  wp m Q' E' w.
Proof. unfold wp. destruct (m w); auto. Qed.

Lemma wp_lift (r : result A) Q E w :
  match r with Ok a => Q a w | Raise e => E (Exn e) w end -> wp (lift r) Q E w.
Proof. by destruct r. Qed.

Lemma wp_run (m : M A) Q E w :
  match m (frames w) with
  | Ok (a, h) => Q a (mkWorld h (effects w))
  | Raise e => E (Exn e) w
  end ->
  wp (run m) Q E w.
Proof. unfold wp, run. by destruct (m (frames w)) as [[a h]|e]. Qed.

Lemma wp_local name (v : option A) Q E w :
  match v with Some a => Q a w | None => E (UnboundLocalError name) w end ->
  wp (local name v) Q E w.
Proof. by destruct v. Qed.

(** What [wp] says of a run that returns, of one that raises, and of the world
    that any run leaves. *)
Lemma wp_Returns (m : W A) Q E w a w' : wp m Q E w -> m w = Returns a w' -> Q a w'.
Proof. unfold wp. intros H Hm. by rewrite Hm in H. Qed.

Lemma wp_Raises (m : W A) E w :
  wp m (fun _ _ => False) E w -> exists e w', m w = Raises e w' /\ E e w'.
Proof. unfold wp. destruct (m w) as [a w'|e w']; [done|eauto]. Qed.

Lemma wp_final (m : W A) (P : world -> Prop) w :
  wp m (fun _ => P) (fun _ => P) w -> P (final (m w)).
Proof. unfold wp. by destruct (m w). Qed.

End WorldFacts.

Lemma wp_emit e Q E w :
  Q tt (mkWorld (frames w) (effects w ++ [e])) -> wp (emit e) Q E w.
Proof. done. Qed.

Lemma wp_draw c Q E w :
  Q tt (mkWorld (frames w) (effects w ++ [Draw c])) -> wp (draw c) Q E w.
Proof. done. Qed.

Lemma wp_DATES_new_age Q E w : Q "2020-09-01" w -> wp (DATES_getitem "new_age") Q E w.
Proof. done. Qed.

Lemma wp_DATES_wave3 Q E w : Q "2021-08-30" w -> wp (DATES_getitem "wave3") Q E w.
Proof. done. Qed.

(** ** Operations on a frame of the world *)

Section FrameRules.

Lemma wp_getitem_values l name (Q : list float -> world -> Prop) E w df :
  frames w !! l = Some df ->
  match lookup_column name (columns df) with
  | Some v => Q v w
  | None => E (Exn (KeyError name)) w
  end ->
  wp (run (Frame.getitem_values l name)) Q E w.
Proof.
  intros Hl H. apply wp_run.
  unfold Frame.getitem_values, Store.bind, load, Store.lift, getitem_column. rewrite Hl.
  by destruct (lookup_column name (columns df)).
Qed.

Lemma wp_get_index l (Q : list string -> world -> Prop) E w df :
  frames w !! l = Some df -> Q (index df) w -> wp (run (Frame.get_index l)) Q E w.
Proof.
  intros Hl H. apply wp_run. unfold Frame.get_index, Store.bind, load, Store.ret. by rewrite Hl.
Qed.

Lemma wp_index_getitem l i (Q : string -> world -> Prop) E w df :
  frames w !! l = Some df ->
  match getitem (index df) i with Ok s => Q s w | Raise e => E (Exn e) w end ->
  wp (run (Frame.index_getitem l i)) Q E w.
Proof.
  intros Hl H. apply wp_run.
  unfold Frame.index_getitem, Frame.get_index, Store.bind, load, Store.ret, Store.lift.
  rewrite Hl. by destruct (getitem (index df) i).
Qed.

Lemma wp_setitem l name vals (Q : unit -> world -> Prop) E w df :
  frames w !! l = Some df ->
  Q tt (mkWorld (<[l := Table.setitem df name vals]> (frames w)) (effects w)) ->
  wp (run (Object.setitem l name vals)) Q E w.
Proof. intros Hl H. apply wp_run. unfold Object.setitem, update. by rewrite Hl. Qed.

Lemma wp_loc_setitem_all l name vals (Q : unit -> world -> Prop) E w df :
  frames w !! l = Some df ->
  Q tt (mkWorld (<[l := Table.setitem df name vals]> (frames w)) (effects w)) ->
  wp (run (Object.loc_setitem_all l name vals)) Q E w.
Proof. intros Hl H. apply wp_run. unfold Object.loc_setitem_all, update. by rewrite Hl. Qed.

Lemma wp_getitem_mask l mask (Q : ref -> world -> Prop) E w df :
  frames w !! l = Some df ->
  match Pd.getitem_mask df mask with
  | Ok sub => Q (length (frames w)) (mkWorld (frames w ++ [sub]) (effects w))
  | Raise e => E (Exn e) w
  end ->
  wp (run (Frame.getitem_mask l mask)) Q E w.
Proof.
  intros Hl H. apply wp_run.
  unfold Frame.getitem_mask, Store.bind, load, Store.lift, alloc. rewrite Hl.
  by destruct (Pd.getitem_mask df mask).
Qed.

Lemma wp_copy l (Q : ref -> world -> Prop) E w df :
  frames w !! l = Some df ->
  Q (length (frames w)) (mkWorld (frames w ++ [df]) (effects w)) ->
  wp (run (Object.copy l)) Q E w.
Proof.
  intros Hl H. apply wp_run. unfold Object.copy, Store.bind, load, alloc. by rewrite Hl.
Qed.

End FrameRules.

(** ** The decorator *)

Section Decorator.

Variable func : ref -> Kw.dict -> W Plt.Figure.

Lemma contains_get k d : Kw.contains k d = match Kw.get d k with Some _ => true | None => false end.
Proof. reflexivity. Qed.

(** X10: a view called with [filename] and without [display] draws its figure and
    saves it, and then fails with [KeyError]: the figure stays open. *)
Theorem display_is_required dataframe kwargs w fig w1 name :
  func dataframe kwargs w = Returns fig w1 ->
  Kw.get kwargs "filename" = Some (Kw.Text name) ->
  Kw.get kwargs "display" = None ->
  handle_fig func dataframe kwargs w =
  Raises (Exn (KeyError "display"))
    (mkWorld (frames w1)
       (effects w1 ++ [Draw (Plt.savefig fig (Os.path_join FIG_PATH name) 100)])).
Proof.
  intros Hf Hn Hd. unfold handle_fig, bind. rewrite Hf.
  rewrite contains_get, Hn. unfold Kw.getitem. rewrite Hn, Hd. reflexivity.
Qed.

Lemma handle_fig_run dataframe kwargs w fig w1 name display :
  func dataframe kwargs w = Returns fig w1 ->
  Kw.get kwargs "filename" = Some (Kw.Text name) ->
  Kw.get kwargs "display" = Some display ->
  handle_fig func dataframe kwargs w =
  Returns tt
    (mkWorld (frames w1)
       (effects w1
        ++ [Draw (Plt.savefig fig
                    (if Os.startswith_sep name then name else String.append "figs/" name) 100)]
        ++ (if Kw.truthy display then [] else [Draw (Plt.close fig); Draw (Plt.clf fig)]))).
Proof.
  intros Hf Hn Hd. unfold handle_fig, bind. rewrite Hf.
  rewrite contains_get, Hn. unfold Kw.getitem. rewrite Hn, Hd.
  cbn [lift ret figure_path draw emit frames effects].
  assert (P : Os.path_join FIG_PATH name =
              if Os.startswith_sep name then name else String.append "figs/" name).
  { unfold Os.path_join. by destruct (Os.startswith_sep name). }
  rewrite P. destruct (Kw.truthy display); cbn [negb ret draw emit frames effects].
  - by rewrite app_nil_r.
  - unfold draw, emit. cbn [frames effects]. by rewrite <- !app_assoc.
Qed.

(** X11: a view called with a file name and with [display] saves the figure it has
    drawn under [figs/], or at the name itself when it starts with [/], and
    then closes and clears it unless [display] is true; it returns nothing. *)
Theorem figure_saved_then_closed dataframe kwargs w fig w1 name display :
  func dataframe kwargs w = Returns fig w1 ->
  Kw.get kwargs "filename" = Some (Kw.Text name) ->
  Kw.get kwargs "display" = Some display ->
  handle_fig func dataframe kwargs w =
  Returns tt
    (mkWorld (frames w1)
       (effects w1
        ++ [Draw (Plt.savefig fig
                    (if Os.startswith_sep name then name else String.append "figs/" name) 100)]
        ++ (if Kw.truthy display then [] else [Draw (Plt.close fig); Draw (Plt.clf fig)]))).
Proof. apply handle_fig_run. Qed.

(** When the decorated function returns, what the decorator adds to the
    effects is no call of [fill_between]. *)
Lemma handle_fig_Returns dataframe kwargs w w' :
  handle_fig func dataframe kwargs w = Returns tt w' ->
  exists fig w1 tail,
    func dataframe kwargs w = Returns fig w1 /\
    effects w' = effects w1 ++ tail /\
    List.filter is_fill_between tail = [].
Proof.
  unfold handle_fig, bind. destruct (func dataframe kwargs w) as [fig w1|e w1]; [|done].
  intros H. exists fig, w1.
  destruct (Kw.contains "filename" kwargs).
  - destruct (Kw.getitem kwargs "filename") as [v|]; [|done]. cbn [lift ret] in H.
    destruct v as [|name]; [done|]. cbn [figure_path ret draw emit frames effects] in H.
    destruct (Kw.getitem kwargs "display") as [d|]; [|done]. cbn [lift ret] in H.
    destruct (negb (Kw.truthy d)); cbn [ret draw emit frames effects] in H.
    + injection H as <-. cbn [effects]. eexists. rewrite <- !app_assoc. split; [done|].
      split; [reflexivity|reflexivity].
    + injection H as <-. cbn [effects]. eexists. split; [done|]. split; reflexivity.
  - cbn [ret] in H.
    destruct (Kw.getitem kwargs "display") as [d|]; [|done]. cbn [lift ret] in H.
    destruct (negb (Kw.truthy d)); cbn [ret draw emit frames effects] in H.
    + injection H as <-. cbn [effects]. eexists. rewrite <- !app_assoc. split; [done|].
      split; reflexivity.
    + injection H as <-. exists []. rewrite app_nil_r. done.
Qed.

End Decorator.

(** ** Frames that a run leaves as they were *)

Section Keeps.

Variable np_exp : float -> float.
Variable curve_fit :
  (float -> float -> float -> float) -> list nat -> list float -> float * float ->
  result (float * float).
Variable series_max : list float -> float.

Abbreviation get_exponential := (Covid.get_exponential np_exp curve_fit).

(** The run of [m] keeps the frames [G] where they are, as they are. *)
Abbreviation keeps G m :=
  (forall w, G `prefix_of` frames w ->
     wp m (fun _ w' => G `prefix_of` frames w') (fun _ w' => G `prefix_of` frames w') w).

Lemma keeps_ret {A} (G : heap) (a : A) : keeps G (ret a).
Proof. done. Qed.

Lemma keeps_bind {A B} (G : heap) (m : W A) (k : A -> W B) :
  keeps G m -> (forall a, keeps G (k a)) -> keeps G (bind m k).
Proof.
  intros Hm Hk w Hw. apply wp_bind. apply (wp_mono _ _ _ _ _ _ (Hm w Hw)); [|done].
  intros a w' Hw'. by apply Hk.
Qed.

Lemma keeps_draw (G : heap) c : keeps G (draw c).
Proof. done. Qed.

Lemma keeps_local {A} (G : heap) name (v : option A) : keeps G (local name v).
Proof. intros w Hw. by destruct v. Qed.

Lemma keeps_DATES (G : heap) key : keeps G (DATES_getitem key).
Proof.
  intros w Hw. unfold DATES_getitem. by destruct (List.find _ _).
Qed.

(** A computation on the store that only adds frames. *)
Lemma keeps_run {A} (G : heap) (m : M A) :
  (forall h a h', m h = Ok (a, h') -> h `prefix_of` h') -> keeps G (run m).
Proof.
  intros Hm w Hw. apply wp_run. destruct (m (frames w)) as [[a h']|e] eqn:E; [|done].
  cbn [frames]. etrans; [exact Hw|]. by apply (Hm _ a).
Qed.

Lemma keeps_for_each {A B} (G : heap) (l : list A) (body : A -> W B) last :
  (forall x, keeps G (body x)) -> keeps G (for_each l body last).
Proof.
  intros Hb. revert last. induction l as [|x l IH]; intros last; cbn [for_each].
  - apply keeps_ret.
  - apply keeps_bind; [apply Hb|]. intros b. apply IH.
Qed.

Lemma get_index_grows l h a h' : Frame.get_index l h = Ok (a, h') -> h `prefix_of` h'.
Proof.
  unfold Frame.get_index, Store.bind, load, Store.ret.
  destruct (h !! l); [|done]. by intros [= _ <-].
Qed.

Lemma getitem_values_grows l name h a h' :
  Frame.getitem_values l name h = Ok (a, h') -> h `prefix_of` h'.
Proof.
  unfold Frame.getitem_values, Store.bind, load, Store.lift.
  destruct (h !! l); [|done]. destruct (getitem_column _ _); [|done]. by intros [= _ <-].
Qed.

Lemma index_getitem_grows l i h a h' :
  Frame.index_getitem l i h = Ok (a, h') -> h `prefix_of` h'.
Proof.
  unfold Frame.index_getitem, Frame.get_index, Store.bind, load, Store.ret, Store.lift.
  destruct (h !! l); [|done]. destruct (getitem _ _); [|done]. by intros [= _ <-].
Qed.

Lemma getitem_mask_grows l mask h a h' :
  Frame.getitem_mask l mask h = Ok (a, h') -> h `prefix_of` h'.
Proof.
  unfold Frame.getitem_mask, Store.bind, load, Store.lift, alloc.
  destruct (h !! l); [|done]. destruct (Pd.getitem_mask _ _); [|done].
  intros [= _ <-]. by apply prefix_app_r.
Qed.

Lemma copy_grows l h a h' : Object.copy l h = Ok (a, h') -> h `prefix_of` h'.
Proof.
  unfold Object.copy, Store.bind, load, alloc.
  destruct (h !! l); [|done]. intros [= _ <-]. by apply prefix_app_r.
Qed.

(** A call of [get_exponential] that returns was given a frame of the store. *)
Lemma get_exponential_given l col n start stop horizon h r h' :
  get_exponential l col n start stop horizon h = Ok (r, h') -> exists df, h !! l = Some df.
Proof.
  destruct (h !! l) as [df|] eqn:Hl; [eauto|]. intros H. exfalso. revert H.
  unfold Covid.get_exponential.
  assert (I : forall arg i, if_else arg (Frame.index_getitem l i) h = Raise NoSuchObject
                            \/ exists s, if_else arg (Frame.index_getitem l i) h = Ok (s, h)).
  { intros arg i. unfold if_else.
    assert (D : Frame.index_getitem l i h = Raise NoSuchObject).
    { unfold Frame.index_getitem, Frame.get_index, Store.bind, load. by rewrite Hl. }
    destruct arg as [s|]; [destruct (Str.truthy (Some s))|]; eauto. }
  rewrite bind_run. destruct (I start (-28)%Z) as [->|[s ->]]; [done|].
  rewrite bind_run. destruct (I stop (-1)%Z) as [->|[e ->]]; [done|].
  rewrite bind_run. unfold Frame.get_index at 1, Store.bind, load. by rewrite Hl.
Qed.

Lemma get_exponential_grows l col n start stop horizon h r h' :
  get_exponential l col n start stop horizon h = Ok (r, h') -> h `prefix_of` h'.
Proof.
  intros H. destruct (get_exponential_given _ _ _ _ _ _ _ _ _ H) as [df Hl].
  by destruct (get_exponential_Ok np_exp curve_fit _ _ _ _ _ _ _ _ _ _ Hl H) as (_ & _ & _ & P & _).
Qed.

(** An assignment in place to a frame made after [G]. *)
Lemma keeps_setitem_above (G : heap) l name vals :
  length G <= l -> keeps G (run (Object.setitem l name vals)).
Proof.
  intros Hl w [k Hw]. apply wp_run. unfold Object.setitem, update.
  destruct (frames w !! l) as [df|]; [|by exists k]. cbn [frames].
  rewrite Hw, insert_app_r_alt by done. by apply prefix_app_r.
Qed.

Lemma keeps_since_new_age (G : heap) l : keeps G (since_new_age l).
Proof.
  unfold since_new_age.
  apply keeps_bind; [apply keeps_run, get_index_grows|intros idx].
  apply keeps_bind; [apply keeps_DATES|intros d].
  apply keeps_run, getitem_mask_grows.
Qed.

Lemma keeps_plot_with_trend (G : heap) marker subset td :
  keeps G (plot_with_trend np_exp curve_fit marker subset td).
Proof.
  unfold plot_with_trend.
  apply keeps_bind; [apply keeps_DATES|intros d].
  apply keeps_bind; [apply keeps_run, get_exponential_grows|intros r].
  apply keeps_bind; [apply keeps_run, get_index_grows|intros idx].
  apply keeps_bind; [apply keeps_run, getitem_values_grows|intros y].
  apply keeps_bind; [apply keeps_draw|intros _].
  apply keeps_bind; [apply keeps_run, get_index_grows|intros idx'].
  apply keeps_bind; [apply keeps_run, getitem_values_grows|intros y'].
  apply keeps_bind; [apply keeps_draw|intros _].
  apply keeps_ret.
Qed.

Lemma keeps_stack_band (G : heap) subset td :
  length G <= subset -> keeps G (stack_band np_exp curve_fit subset td).
Proof.
  intros Hs. unfold stack_band.
  apply keeps_bind; [apply keeps_run, getitem_values_grows|intros next].
  apply keeps_bind; [by apply keeps_setitem_above|intros _].
  apply keeps_bind; [apply keeps_run, getitem_values_grows|intros next'].
  apply keeps_bind; [apply keeps_run, getitem_values_grows|intros col].
  apply keeps_bind; [by apply keeps_setitem_above|intros _].
  apply keeps_bind; [apply keeps_DATES|intros d].
  apply keeps_bind; [apply keeps_run, get_exponential_grows|intros r].
  apply keeps_bind; [apply keeps_run, get_index_grows|intros idx].
  apply keeps_bind; [apply keeps_run, getitem_values_grows|intros p].
  apply keeps_bind; [apply keeps_run, getitem_values_grows|intros q].
  apply keeps_bind; [apply keeps_draw|intros _].
  apply keeps_bind; [apply keeps_run, get_index_grows|intros idx'].
  apply keeps_bind; [apply keeps_run, getitem_values_grows|intros y'].
  apply keeps_bind; [apply keeps_draw|intros _].
  apply keeps_ret.
Qed.

Lemma keeps_decorate (G : heap) augmented subset ycol f :
  keeps G (decorate series_max augmented subset ycol f).
Proof.
  unfold decorate.
  apply keeps_bind; [apply keeps_local|intros r].
  apply keeps_bind; [apply keeps_run, index_getitem_grows|intros left].
  apply keeps_bind; [apply keeps_run, index_getitem_grows|intros right].
  apply keeps_bind; [apply keeps_draw|intros _].
  apply keeps_bind; [apply keeps_run, getitem_values_grows|intros y].
  do 7 (apply keeps_bind; [apply keeps_draw|intros _]).
  apply keeps_draw.
Qed.

(** The decorator only draws: it keeps the frames that the view keeps. *)
Lemma wp_handle_fig (G : heap) func dataframe kwargs w :
  wp (func dataframe kwargs) (fun _ w' => G `prefix_of` frames w')
     (fun _ w' => G `prefix_of` frames w') w ->
  wp (handle_fig func dataframe kwargs) (fun _ w' => G `prefix_of` frames w')
     (fun _ w' => G `prefix_of` frames w') w.
Proof.
  intros H. unfold handle_fig. apply wp_bind. apply (wp_mono _ _ _ _ _ _ H); [|done].
  intros fig w1 Hw1. revert w1 Hw1.
  apply keeps_bind.
  - destruct (Kw.contains "filename" kwargs); [|apply keeps_ret].
    apply keeps_bind; [intros w1 Hw1; by destruct (Kw.getitem kwargs "filename")|intros v].
    apply keeps_bind; [intros w1 Hw1; by destruct v|intros path].
    apply keeps_draw.
  - intros _. apply keeps_bind; [intros w1 Hw1; by destruct (Kw.getitem kwargs "display")|].
    intros d. destruct (negb (Kw.truthy d)); [|apply keeps_ret].
    apply keeps_bind; [apply keeps_draw|intros _; apply keeps_draw].
Qed.

(** The frame that lines 86 and 172 leave at the caller's address. *)
Lemma wp_currently_infected dataframe (Q : list float -> world -> Prop) E w df a b c :
  frames w !! dataframe = Some df ->
  lookup_column "kumulativni_pocet_nakazenych" (columns df) = Some a ->
  lookup_column "kumulativni_pocet_umrti" (columns df) = Some b ->
  lookup_column "kumulativni_pocet_vylecenych" (columns df) = Some c ->
  Q (Series.sub (Series.sub a b) c) w ->
  wp (currently_infected dataframe) Q E w.
Proof.
  intros Hl Ha Hb Hc H. unfold currently_infected.
  apply wp_bind, (wp_getitem_values _ _ _ _ _ df Hl). rewrite Ha.
  apply wp_bind, (wp_getitem_values _ _ _ _ _ df Hl). rewrite Hb.
  apply wp_bind, (wp_getitem_values _ _ _ _ _ df Hl). rewrite Hc.
  by apply wp_ret.
Qed.

Lemma kept_frames (G : heap) (h : heap) l df df' :
  h !! l = Some df -> G = <[l := df']> h ->
  forall h', G `prefix_of` h' ->
    h' !! l = Some df' /\ forall k f, k <> l -> h !! k = Some f -> h' !! k = Some f.
Proof.
  intros Hl -> h' P. split.
  - apply (prefix_lookup_Some _ _ _ _ ltac:(apply list_lookup_insert_eq; by eapply lookup_lt_Some) P).
  - intros k f Hk Hf. apply (prefix_lookup_Some (<[l:=df']> h)); [|done].
    by rewrite list_lookup_insert_ne.
Qed.

(** X15: [basic_view] writes into the frame it is given: whether the call returns
    or raises later on, that frame holds in the end, in the column
    [aktualne_nakazenych], the infected less the dead less the recovered, the
    three columns being there; every other frame is as it was. *)
Theorem basic_view_writes_caller_frame dataframe kwargs w df a b c :
  frames w !! dataframe = Some df ->
  Kw.contains "dataframe" kwargs = false ->
  lookup_column "kumulativni_pocet_nakazenych" (columns df) = Some a ->
  lookup_column "kumulativni_pocet_umrti" (columns df) = Some b ->
  lookup_column "kumulativni_pocet_vylecenych" (columns df) = Some c ->
  frames (final (basic_view np_exp curve_fit series_max dataframe kwargs w)) !! dataframe
  = Some (Table.setitem df "aktualne_nakazenych" (Series.sub (Series.sub a b) c)) /\
  forall k f, k <> dataframe -> frames w !! k = Some f ->
    frames (final (basic_view np_exp curve_fit series_max dataframe kwargs w)) !! k = Some f.
Proof.
  intros Hl Hk Ha Hb Hc.
  set (df' := Table.setitem df "aktualne_nakazenych" (Series.sub (Series.sub a b) c)).
  set (G := <[dataframe := df']> (frames w)).
  apply (kept_frames G (frames w) dataframe df df' Hl eq_refl).
  apply (wp_final _ (fun w' => G `prefix_of` frames w')).
  apply wp_handle_fig. unfold basic_view_figure, apply_view. rewrite Hk. cbv zeta.
  apply wp_bind, (wp_currently_infected _ _ _ _ df a b c Hl Ha Hb Hc).
  apply wp_bind, (wp_setitem _ _ _ _ _ _ df Hl).
  fold df'. fold G.
  assert (K : keeps G
    (bind (since_new_age dataframe) (fun subset =>
     bind (draw (Plt.figure "Základní přehled" (19, 8)%Z)) (fun _ =>
     bind (draw Plt.gca) (fun _ =>
     bind (for_each
             [Td.mk "aktualne_nakazenych" "Aktualně nakažení" "r";
              Td.mk "pocet_hosp" "Počet hospitalizovaných" "k";
              Td.mk "prirustkovy_pocet_nakazenych" "Přírustkový počet hospitalizovaných" "b";
              Td.mk "prirustkovy_pocet_provedenych_testu" "Počet testů" "y"]
             (plot_with_trend np_exp curve_fit "x" subset) None) (fun augmented_subset =>
     bind (decorate series_max augmented_subset subset "aktualne_nakazenych" Plt.thousands)
          (fun _ => ret "Základní přehled"))))))).
  { apply keeps_bind; [apply keeps_since_new_age|intros subset].
    apply keeps_bind; [apply keeps_draw|intros _].
    apply keeps_bind; [apply keeps_draw|intros _].
    apply keeps_bind; [apply keeps_for_each; intros td; apply keeps_plot_with_trend|intros r].
    apply keeps_bind; [apply keeps_decorate|intros _]. apply keeps_ret. }
  apply K. cbn [frames]. done.
Qed.

(** X16: [incrm_view] writes into the frame it is given, as [basic_view] does:
    whether the call returns or raises later on, that frame holds in the end,
    in the column [aktualne_nakazenych], the infected less the dead less the
    recovered; every other frame is as it was. The figure is drawn from a
    copy of the rows after 2020-09-01. *)
Theorem incrm_view_writes_caller_frame dataframe kwargs w df a b c :
  frames w !! dataframe = Some df ->
  Kw.contains "dataframe" kwargs = false ->
  lookup_column "kumulativni_pocet_nakazenych" (columns df) = Some a ->
  lookup_column "kumulativni_pocet_umrti" (columns df) = Some b ->
  lookup_column "kumulativni_pocet_vylecenych" (columns df) = Some c ->
  frames (final (incrm_view np_exp curve_fit series_max dataframe kwargs w)) !! dataframe
  = Some (Table.setitem df "aktualne_nakazenych" (Series.sub (Series.sub a b) c)) /\
  forall k f, k <> dataframe -> frames w !! k = Some f ->
    frames (final (incrm_view np_exp curve_fit series_max dataframe kwargs w)) !! k = Some f.
Proof.
  intros Hl Hk Ha Hb Hc.
  set (df' := Table.setitem df "aktualne_nakazenych" (Series.sub (Series.sub a b) c)).
  set (G := <[dataframe := df']> (frames w)).
  apply (kept_frames G (frames w) dataframe df df' Hl eq_refl).
  apply (wp_final _ (fun w' => G `prefix_of` frames w')).
  apply wp_handle_fig. unfold incrm_view_figure, apply_view. rewrite Hk. cbv zeta.
  apply wp_bind, (wp_currently_infected _ _ _ _ df a b c Hl Ha Hb Hc).
  apply wp_bind, (wp_loc_setitem_all _ _ _ _ _ _ df Hl).
  fold df'. fold G.
  assert (K : keeps G
    (bind (since_new_age dataframe) (fun selected =>
     bind (run (Object.copy selected)) (fun subset =>
     bind (draw (Plt.figure "Denní přírůstky" (19, 8)%Z)) (fun _ =>
     bind (draw Plt.gca) (fun _ =>
     bind (for_each
             [Td.mk "prirustkovy_pocet_nakazenych" "Denně nakažení" "b";
              Td.mk "prirustkovy_pocet_vylecenych" "Denně vyléčení" "g";
              Td.mk "pacient_prvni_zaznam" "Nově hospitalizovaní" "r";
              Td.mk "prirustkovy_pocet_umrti" "Denně mrtví" "k"]
             (plot_with_trend np_exp curve_fit "+" subset) None) (fun augmented_subset =>
     bind (decorate series_max augmented_subset subset "prirustkovy_pocet_nakazenych"
             Plt.ScalarFormatter)
          (fun _ => ret "Denní přírůstky")))))))).
  { apply keeps_bind; [apply keeps_since_new_age|intros selected].
    apply keeps_bind; [apply keeps_run, copy_grows|intros subset].
    apply keeps_bind; [apply keeps_draw|intros _].
    apply keeps_bind; [apply keeps_draw|intros _].
    apply keeps_bind; [apply keeps_for_each; intros td; apply keeps_plot_with_trend|intros r].
    apply keeps_bind; [apply keeps_decorate|intros _]. apply keeps_ret. }
  apply K. cbn [frames]. done.
Qed.

(** X17: [hospi_view] works on a copy: whether the call returns or raises, every
    frame of the world is in the end as it was, the caller's too. *)
Theorem hospi_view_keeps_frames dataframe kwargs w :
  frames w `prefix_of`
  frames (final (hospi_view np_exp curve_fit series_max dataframe kwargs w)).
Proof.
  set (G := frames w).
  apply (wp_final _ (fun w' => G `prefix_of` frames w')).
  apply wp_handle_fig. unfold hospi_view_figure, apply_view.
  destruct (Kw.contains "dataframe" kwargs); [apply wp_raise; reflexivity|]. cbv zeta.
  subst G.
  apply (keeps_bind (frames w)); [apply keeps_draw|intros _|reflexivity].
  apply keeps_bind; [apply keeps_draw|intros _].
  apply keeps_bind; [apply keeps_since_new_age|intros selected].
  intros w1 Hw1. apply wp_bind.
  apply (wp_mono _ (fun r w' => frames w `prefix_of` frames w' /\ length (frames w) <= r)
                   _ (fun _ w' => frames w `prefix_of` frames w')).
  - apply wp_run. unfold Object.copy, Store.bind, load, alloc.
    destruct (frames w1 !! selected); [|done]. cbn [frames]. split.
    + etrans; [exact Hw1|]. by apply prefix_app_r.
    + by apply prefix_length.
  - intros subset w2 [Hw2 Hs]. revert w2 Hw2.
    apply keeps_bind; [apply keeps_run, getitem_values_grows|intros a].
    apply keeps_bind; [apply keeps_run, getitem_values_grows|intros b].
    apply keeps_bind; [by apply keeps_setitem_above|intros _].
    apply keeps_bind; [apply keeps_for_each; intros td; by apply keeps_stack_band|intros r].
    apply keeps_bind; [apply keeps_decorate|intros _]. apply keeps_ret.
  - done.
Qed.

End Keeps.

(** ** What the views draw *)

Section Frames.

Lemma setitem_well_formed df name vals :
  well_formed df -> length vals = length (index df) ->
  well_formed (Table.setitem df name vals).
Proof.
  intros W L. unfold well_formed, Table.setitem. cbn [index columns].
  by apply Forall_set_column.
Qed.

Lemma sub_length a b : length (Series.sub a b) = length a `min` length b.
Proof. apply length_zip_with. Qed.

Lemma add_length a b : length (Series.add a b) = length a `min` length b.
Proof. apply length_zip_with. Qed.

Lemma getitem_mask_Ok df mask sub :
  Pd.getitem_mask df mask = Ok sub ->
  length mask = length (index df) /\
  index sub = Np.select mask (index df) /\
  columns sub = map (fun kv => (fst kv, Np.select mask (snd kv))) (columns df).
Proof.
  unfold Pd.getitem_mask. destruct (length mask =? length (index df)) eqn:E; [|done].
  apply Nat.eqb_eq in E. by intros [= <-].
Qed.

Lemma getitem_mask_well_formed df mask sub :
  well_formed df -> Pd.getitem_mask df mask = Ok sub -> well_formed sub.
Proof.
  intros W H. apply getitem_mask_Ok in H as (L & I & C).
  unfold well_formed. rewrite C, I. apply Forall_fmap.
  eapply Forall_impl; [exact W|]. intros [k v] E. cbn [fst snd compose] in *.
  rewrite !select_length by congruence. done.
Qed.

Lemma getitem_mask_lookup df mask sub c :
  Pd.getitem_mask df mask = Ok sub ->
  lookup_column c (columns sub) = option_map (Np.select mask) (lookup_column c (columns df)).
Proof.
  intros H. apply getitem_mask_Ok in H as (_ & _ & ->).
  apply (lookup_column_map _ _ (fun _ v => Np.select mask v)).
Qed.

Lemma index_gt_length idx s : length (index_gt idx s) = length idx.
Proof. apply length_map. Qed.

Lemma count_mask_and_le m1 m2 : Np.count (mask_and m1 m2) <= Np.count m2.
Proof.
  unfold mask_and. revert m2.
  induction m1 as [|a m1 IH]; intros [|b m2]; simpl; try lia.
  specialize (IH m2). destruct a, b; simpl; lia.
Qed.

Lemma count_index_ge_select mask idx s :
  Np.count (index_ge (Np.select mask idx) s) <= Np.count (index_ge idx s).
Proof.
  unfold index_ge. revert idx.
  induction mask as [|m mask IH]; intros [|d idx]; simpl; try lia.
  specialize (IH idx). destruct m; simpl; destruct (Str.ge d s); lia.
Qed.

End Frames.

Section ViewRuns.

Variable np_exp : float -> float.
Variable curve_fit :
  (float -> float -> float -> float) -> list nat -> list float -> float * float ->
  result (float * float).
Variable series_max : list float -> float.

Abbreviation get_exponential := (Covid.get_exponential np_exp curve_fit).
Abbreviation returned := (Covid.returned np_exp curve_fit).
Abbreviation fit := (Covid.fit np_exp curve_fit).

Lemma wp_get_exponential l col n start stop horizon (Q : ref -> world -> Prop) E w df :
  frames w !! l = Some df ->
  match returned df col n start stop horizon with
  | Ok out =>
      forall r h', h' !! r = Some out -> frames w `prefix_of` h' -> frames w !! r = None ->
        Q r (mkWorld h' (effects w))
  | Raise e => E (Exn e) w
  end ->
  wp (run (get_exponential l col n start stop horizon)) Q E w.
Proof.
  intros Hl H. apply wp_run.
  pose proof (get_exponential_run np_exp curve_fit l df col n start stop horizon (frames w) Hl) as R.
  destruct (returned df col n start stop horizon) as [out|e].
  - destruct R as (r & h' & -> & Hr & P & N). by apply H.
  - by rewrite R.
Qed.

(** A projection from the start of the third wave, over a frame with fewer
    than two rows from then on, fails. *)
Lemma returned_few_recent_rows df col n horizon :
  well_formed df ->
  (forall f x y p0, length y < 2 -> exists e, curve_fit f x y p0 = Raise e) ->
  Np.count (index_ge (index df) "2021-08-30") < 2 ->
  exists e, returned df col n (Some "2021-08-30") None horizon = Raise e.
Proof.
  intros W Hfit Hc. unfold Covid.returned.
  change (resolve (Some "2021-08-30") (index df) (-28)) with (@Ok string "2021-08-30").
  cbn [and_then]. unfold resolve.
  destruct (getitem (index df) (-1)) as [last|e]; cbn [and_then]; [|eauto].
  destruct (fit_too_few np_exp curve_fit df col "2021-08-30" last W Hfit) as [e He].
  - pose proof (count_mask_and_le (ge_index last (index df)) (index_ge (index df) "2021-08-30")).
    lia.
  - rewrite He. eauto.
Qed.

(** X18: [basic_view] needs two rows from the start of the third wave on: over a
    frame with fewer, the call opens its window and fails, and nothing is
    saved; [curve_fit] is taken to refuse fewer than two points. *)
Theorem basic_view_needs_recent_rows dataframe kwargs w df a b c :
  frames w !! dataframe = Some df ->
  well_formed df ->
  Kw.contains "dataframe" kwargs = false ->
  (forall f x y p0, length y < 2 -> exists e, curve_fit f x y p0 = Raise e) ->
  lookup_column "kumulativni_pocet_nakazenych" (columns df) = Some a ->
  lookup_column "kumulativni_pocet_umrti" (columns df) = Some b ->
  lookup_column "kumulativni_pocet_vylecenych" (columns df) = Some c ->
  Np.count (index_ge (index df) "2021-08-30") < 2 ->
  exists e w',
    basic_view np_exp curve_fit series_max dataframe kwargs w = Raises e w' /\
    effects w' =
      effects w ++ [Draw (Plt.figure "Základní přehled" (19, 8)%Z); Draw Plt.gca].
Proof.
  intros Hl W Hk Hfit Ha Hb Hc Hfew.
  apply wp_Raises. unfold basic_view, handle_fig. apply wp_bind.
  apply (wp_mono _ (fun _ _ => False) _
           (fun _ w' => effects w' =
              effects w ++ [Draw (Plt.figure "Základní přehled" (19, 8)%Z); Draw Plt.gca]));
    [|done|done].
  unfold basic_view_figure, apply_view. rewrite Hk. cbv zeta.
  apply wp_bind, (wp_currently_infected _ _ _ _ df a b c Hl Ha Hb Hc).
  apply wp_bind, (wp_setitem _ _ _ _ _ _ df Hl).
  set (df' := Table.setitem df "aktualne_nakazenych" (Series.sub (Series.sub a b) c)).
  assert (Hl' : <[dataframe := df']> (frames w) !! dataframe = Some df').
  { apply list_lookup_insert_eq. by eapply lookup_lt_Some. }
  assert (W' : well_formed df').
  { apply setitem_well_formed; [done|]. rewrite !sub_length.
    rewrite (well_formed_lookup _ _ _ W Ha), (well_formed_lookup _ _ _ W Hb),
      (well_formed_lookup _ _ _ W Hc). lia. }
  apply wp_bind. unfold since_new_age.
  apply wp_bind. eapply wp_get_index; [exact Hl'|].
  apply wp_bind, wp_DATES_new_age.
  eapply wp_getitem_mask; [exact Hl'|].
  destruct (Pd.getitem_mask df' _) as [sub|e] eqn:Hsub.
  2:{ unfold Pd.getitem_mask in Hsub. cbn [index df' Table.setitem] in Hsub.
      by rewrite index_gt_length, Nat.eqb_refl in Hsub. }
  apply wp_bind, wp_draw. apply wp_bind, wp_draw. cbn [frames effects].
  apply wp_bind. cbn [for_each]. apply wp_bind.
  unfold plot_with_trend. apply wp_bind, wp_DATES_wave3.
  apply wp_bind. cbn [Td.n].
  eapply wp_get_exponential.
  { cbn [frames]. apply lookup_new. }
  assert (Ws : well_formed sub) by (by apply (getitem_mask_well_formed df' _ sub W' Hsub)).
  destruct (returned_few_recent_rows sub "aktualne_nakazenych" "aktualne_nakazenych_exp" 14 Ws Hfit)
    as [e He].
  - apply getitem_mask_Ok in Hsub as (_ & -> & _).
    pose proof (count_index_ge_select (index_gt (index df') "2020-09-01") (index df') "2021-08-30").
    cbn [index df' Table.setitem] in *. lia.
  - change (String.append "aktualne_nakazenych" "_exp") with "aktualne_nakazenych_exp".
    rewrite He. cbn [effects]. by rewrite <- app_assoc.
Qed.

(** *** A series and its trend *)

Lemma append_length s t :
  String.length (String.append s t) = String.length s + String.length t.
Proof. induction s as [|a s IH]; simpl; [done|]. by rewrite IH. Qed.

Lemma append_neq s t : t <> "" -> String.append s t <> s.
Proof.
  intros Ht E. apply (f_equal String.length) in E.
  rewrite append_length in E. destruct t; [done|]. simpl in E. lia.
Qed.

(** X19: one turn of the loops of [basic_view] and [incrm_view]: the series is
    drawn over the dates of the frame followed by the 14 days after its last
    date, with no value on these; the dotted line is the new column of the
    projection from the start of the third wave. The frame is as it was. *)
Theorem plot_with_trend_draws marker subset td w r w' df :
  frames w !! subset = Some df ->
  well_formed df ->
  Td.n td <> placeholder ->
  plot_with_trend np_exp curve_fit marker subset td w = Returns r w' ->
  exists out ext col trend,
    returned df (Td.n td) (String.append (Td.n td) "_exp") (Some "2021-08-30") None 14 = Ok out /\
    index_extension (index df) 14 = Ok ext /\
    length ext = 14 /\
    lookup_column (Td.n td) (columns df) = Some col /\
    lookup_column (String.append (Td.n td) "_exp") (columns out) = Some trend /\
    frames w' !! subset = Some df /\
    frames w' !! r = Some out /\
    effects w' =
      effects w
      ++ [Draw (Plt.plot (index df ++ ext) (col ++ replicate 14 Np.nan) (Td.c td)
                  (Some "-") (Some marker) (Some (Td.l td)));
          Draw (Plt.plot (index df ++ ext) trend (String.append ":" (Td.c td))
                  None None None)].
Proof.
  intros Hl W Hp Hrun.
  set (n := String.append (Td.n td) "_exp") in *.
  refine (wp_Returns _ (fun r w' => _) (fun _ _ => True) w r w' _ Hrun).
  unfold plot_with_trend. fold n.
  apply wp_bind, wp_DATES_wave3.
  apply wp_bind. eapply wp_get_exponential; [exact Hl|].
  destruct (returned df (Td.n td) n (Some "2021-08-30") None 14) as [out|e] eqn:R; [|done].
  intros r0 h' Hr0 P N.
  assert (Hl0 : h' !! subset = Some df) by (by apply (prefix_lookup_Some (frames w))).
  pose proof R as R'.
  apply (returned_inv np_exp curve_fit) in R'
    as (start' & stop' & a & b & ext & _ & _ & F & X & I & C).
  assert (Lext : length ext = 14).
  { apply index_extension_inv in X as (last & d0 & _ & _ & _ & -> & _).
    by rewrite length_map, days_from_length. }
  assert (Hcol : exists col, lookup_column (Td.n td) (columns df) = Some col).
  { destruct (lookup_column (Td.n td) (columns df)) as [col|] eqn:L; [eauto|].
    assert (H : ~ In (Td.n td) (keys df)).
    { intros H. apply lookup_column_In in H as [v Hv]. congruence. }
    rewrite (fit_unknown_column np_exp curve_fit df (Td.n td) start' stop' H) in F.
    discriminate F. }
  destruct Hcol as [col Hcol].
  assert (Hn : Td.n td <> n) by (intros E; symmetry in E; by apply append_neq in E).
  assert (Ocol : lookup_column (Td.n td) (columns out) = Some (col ++ replicate 14 Np.nan)).
  { rewrite C, lookup_set_column_ne by done.
    by rewrite padded_lookup_other, Hcol, Lext. }
  assert (Otrend : exists trend, lookup_column n (columns out) = Some trend).
  { rewrite C, lookup_set_column_eq. eauto. }
  destruct Otrend as [trend Otrend].
  apply wp_bind. eapply wp_get_index; [exact Hr0|].
  apply wp_bind. eapply wp_getitem_values; [exact Hr0|]. rewrite Ocol.
  apply wp_bind, wp_draw.
  apply wp_bind. eapply wp_get_index; [exact Hr0|].
  apply wp_bind. eapply wp_getitem_values; [exact Hr0|]. rewrite Otrend.
  apply wp_bind, wp_draw. apply wp_ret. cbn [frames effects].
  exists out, ext, col, trend. rewrite I, <- app_assoc. auto 10.
Qed.

End ViewRuns.

(** ** The stack of [hospi_view] *)

Section Stack.

Variable np_exp : float -> float.
Variable curve_fit :
  (float -> float -> float -> float) -> list nat -> list float -> float * float ->
  result (float * float).
Variable series_max : list float -> float.

Abbreviation returned := (Covid.returned np_exp curve_fit).

Lemma wp_run_effects {A} (m : M A) (Q : A -> world -> Prop) E w :
  (forall a h, Q a (mkWorld h (effects w))) -> (forall e, E e w) -> wp (run m) Q E w.
Proof. intros HQ HE. apply wp_run. destruct (m (frames w)) as [[a h]|e]; auto. Qed.

(** Lines 149-157: what [decorate] draws is no band. *)
Lemma wp_decorate augmented subset ycol f (Q : unit -> world -> Prop) w :
  (forall h tail, List.filter is_fill_between tail = [] ->
     Q tt (mkWorld h (effects w ++ tail))) ->
  wp (decorate series_max augmented subset ycol f) Q (fun _ _ => True) w.
Proof.
  intros HQ. unfold decorate.
  apply wp_bind, wp_local. destruct augmented as [r|]; [|done].
  apply wp_bind, wp_run_effects; [|done]. intros left h1.
  apply wp_bind, wp_run_effects; [|done]. intros right h2.
  apply wp_bind, wp_draw.
  apply wp_bind, wp_run_effects; [|done]. intros y h3.
  do 7 apply wp_bind, wp_draw. apply wp_draw. cbn [frames effects].
  rewrite <- !app_assoc. by apply HQ.
Qed.

(** One turn of the loop of lines 142-148, over a frame [T] whose running sum
    is [next]: the band lies between [next] and [next] plus the column. *)
Lemma wp_stack_band subset td (Q : ref -> world -> Prop) w T next :
  frames w !! subset = Some T ->
  lookup_column "sum td next" (columns T) = Some next ->
  Td.n td <> "sum td prev" -> Td.n td <> "sum td next" ->
  match lookup_column (Td.n td) (columns T) with
  | Some col =>
      forall r h x y,
        h !! subset =
          Some (Table.setitem (Table.setitem T "sum td prev" next) "sum td next"
                  (Series.add next col)) ->
        Q r (mkWorld h
               (effects w
                ++ [Draw (Plt.fill_between (index T) next (Series.add next col) (Td.c td) (Td.l td));
                    Draw (Plt.plot x y (String.append ":" (Td.c td)) None None None)]))
  | None => True
  end ->
  wp (stack_band np_exp curve_fit subset td) Q (fun _ _ => True) w.
Proof.
  intros Hl Hnext N1 N2 HQ. unfold stack_band.
  apply wp_bind. eapply wp_getitem_values; [exact Hl|]. rewrite Hnext.
  apply wp_bind. eapply wp_setitem; [exact Hl|].
  set (T1 := Table.setitem T "sum td prev" next).
  assert (H1 : <[subset := T1]> (frames w) !! subset = Some T1).
  { apply list_lookup_insert_eq. by eapply lookup_lt_Some. }
  assert (L1 : lookup_column "sum td next" (columns T1) = Some next).
  { unfold T1, Table.setitem. cbn [columns]. by rewrite lookup_set_column_ne. }
  assert (L1' : lookup_column (Td.n td) (columns T1) = lookup_column (Td.n td) (columns T)).
  { unfold T1, Table.setitem. cbn [columns]. by rewrite lookup_set_column_ne. }
  apply wp_bind. eapply wp_getitem_values; [exact H1|]. rewrite L1.
  apply wp_bind. eapply wp_getitem_values; [exact H1|]. rewrite L1'.
  destruct (lookup_column (Td.n td) (columns T)) as [col|]; [|done].
  apply wp_bind. eapply wp_setitem; [exact H1|]. cbn [frames effects].
  set (T2 := Table.setitem T1 "sum td next" (Series.add next col)).
  set (h2 := <[subset := T2]> (<[subset := T1]> (frames w))).
  assert (H2 : h2 !! subset = Some T2).
  { apply list_lookup_insert_eq. rewrite length_insert. by eapply lookup_lt_Some. }
  apply wp_bind, wp_DATES_wave3.
  apply wp_bind. eapply wp_get_exponential; [exact H2|].
  destruct (returned T2 _ _ _ _ _) as [out|e] eqn:R; [|done].
  intros r h' Hr P _.
  assert (H2' : h' !! subset = Some T2) by (by apply (prefix_lookup_Some h2)).
  apply (returned_inv np_exp curve_fit) in R as (? & ? & ? & ? & ext & _ & _ & _ & _ & I & C).
  apply wp_bind. eapply wp_get_index; [exact H2'|].
  apply wp_bind. eapply wp_getitem_values; [exact H2'|].
  assert (P2 : lookup_column "sum td prev" (columns T2) = Some next).
  { unfold T2, T1, Table.setitem. cbn [columns].
    rewrite lookup_set_column_ne by done. by rewrite lookup_set_column_eq. }
  rewrite P2.
  apply wp_bind. eapply wp_getitem_values; [exact H2'|].
  assert (N2' : lookup_column "sum td next" (columns T2) = Some (Series.add next col)).
  { unfold T2, Table.setitem. cbn [columns]. by rewrite lookup_set_column_eq. }
  rewrite N2'.
  apply wp_bind, wp_draw.
  apply wp_bind. eapply wp_get_index; [exact Hr|].
  apply wp_bind. eapply wp_getitem_values; [exact Hr|].
  rewrite C, lookup_set_column_eq.
  apply wp_bind, wp_draw. apply wp_ret. cbn [frames effects].
  rewrite <- app_assoc. by apply HQ.
Qed.

Lemma setitem_twice_lookup T next col c :
  c <> "sum td prev" -> c <> "sum td next" ->
  lookup_column c
    (columns (Table.setitem (Table.setitem T "sum td prev" next) "sum td next" col))
  = lookup_column c (columns T).
Proof.
  intros N1 N2. unfold Table.setitem. cbn [columns].
  by rewrite !lookup_set_column_ne.
Qed.

Lemma setitem_twice_next T next col :
  lookup_column "sum td next"
    (columns (Table.setitem (Table.setitem T "sum td prev" next) "sum td next" col))
  = Some col.
Proof. unfold Table.setitem. cbn [columns]. by rewrite lookup_set_column_eq. Qed.

(** X20: [hospi_view] stacks the four severities: over the rows after 2020-09-01,
    the first band rises from [pocet_hosp - pocet_hosp] by the severe cases,
    and each further band rises from the upper edge of the one before by its
    own column, with the colours k, r, y, g from the bottom. *)
Theorem hospi_view_stacks_bands dataframe kwargs w w' df :
  frames w !! dataframe = Some df ->
  hospi_view np_exp curve_fit series_max dataframe kwargs w = Returns tt w' ->
  exists sub hosp c1 c2 c3 c4,
    Pd.getitem_mask df (index_gt (index df) "2020-09-01") = Ok sub /\
    lookup_column "pocet_hosp" (columns sub) = Some hosp /\
    lookup_column "stav_tezky" (columns sub) = Some c1 /\
    lookup_column "stav_stredni" (columns sub) = Some c2 /\
    lookup_column "stav_lehky" (columns sub) = Some c3 /\
    lookup_column "stav_bez_priznaku" (columns sub) = Some c4 /\
    List.filter is_fill_between (effects w') =
      List.filter is_fill_between (effects w)
      ++ [Draw (Plt.fill_between (index sub)
                  (Series.sub hosp hosp)
                  (Series.add (Series.sub hosp hosp) c1)
                  "k" "Hospitalizováni ve vážném stavu");
          Draw (Plt.fill_between (index sub)
                  (Series.add (Series.sub hosp hosp) c1)
                  (Series.add (Series.add (Series.sub hosp hosp) c1) c2)
                  "r" "Hospitalizováni se středně těžkými příznaky");
          Draw (Plt.fill_between (index sub)
                  (Series.add (Series.add (Series.sub hosp hosp) c1) c2)
                  (Series.add (Series.add (Series.add (Series.sub hosp hosp) c1) c2) c3)
                  "y" "Hospitalizováni s lehkými příznaky");
          Draw (Plt.fill_between (index sub)
                  (Series.add (Series.add (Series.add (Series.sub hosp hosp) c1) c2) c3)
                  (Series.add
                     (Series.add (Series.add (Series.add (Series.sub hosp hosp) c1) c2) c3) c4)
                  "g" "Hospitalizováni bez příznaků")].
Proof.
  intros Hl Hrun.
  apply handle_fig_Returns in Hrun as (fig & w1 & tail & Hfig & Ht & Hnone).
  rewrite Ht, List.filter_app, Hnone, app_nil_r. clear Ht Hnone tail w'.
  refine (wp_Returns _ (fun _ w1 => _) (fun _ _ => True) w fig w1 _ Hfig).
  unfold hospi_view_figure, apply_view.
  destruct (Kw.contains "dataframe" kwargs); [done|]. cbv zeta.
  apply wp_bind, wp_draw. apply wp_bind, wp_draw.
  apply wp_bind. unfold since_new_age.
  apply wp_bind. eapply wp_get_index; [exact Hl|].
  apply wp_bind, wp_DATES_new_age.
  eapply wp_getitem_mask; [exact Hl|].
  destruct (Pd.getitem_mask df _) as [sub|e] eqn:Hsub; [|done].
  cbn [frames effects].
  apply wp_bind. eapply wp_copy; [apply lookup_new|]. cbn [frames effects].
  set (h1 := (frames w ++ [sub]) ++ [sub]).
  set (subset := length (frames w ++ [sub])).
  assert (H1 : h1 !! subset = Some sub) by apply lookup_new.
  apply wp_bind. eapply wp_getitem_values; [exact H1|].
  destruct (lookup_column "pocet_hosp" (columns sub)) as [hosp|] eqn:Lh; [|done].
  apply wp_bind. eapply wp_getitem_values; [exact H1|]. rewrite Lh.
  apply wp_bind. eapply wp_setitem; [exact H1|]. cbn [frames effects].
  set (T0 := Table.setitem sub "sum td next" (Series.sub hosp hosp)).
  assert (L0 : forall c, c <> "sum td next" ->
            lookup_column c (columns T0) = lookup_column c (columns sub)).
  { intros c Hc. unfold T0, Table.setitem. cbn [columns]. by rewrite lookup_set_column_ne. }
  assert (N0 : lookup_column "sum td next" (columns T0) = Some (Series.sub hosp hosp)).
  { unfold T0, Table.setitem. cbn [columns]. by rewrite lookup_set_column_eq. }
  apply wp_bind. cbn [for_each].
  (* first band *)
  apply wp_bind. eapply wp_stack_band; [apply list_lookup_insert_eq; by eapply lookup_lt_Some
                                       |exact N0|done|done|].
  cbn [Td.n Td.l Td.c]. rewrite L0 by done.
  destruct (lookup_column "stav_tezky" (columns sub)) as [c1|] eqn:L1; [|done].
  intros r1 h2 x1 y1 H2.
  set (T1 := Table.setitem (Table.setitem T0 "sum td prev" _) "sum td next" _) in H2.
  (* second band *)
  apply wp_bind. eapply wp_stack_band; [exact H2|apply setitem_twice_next|done|done|].
  cbn [Td.n Td.l Td.c]. unfold T1. rewrite setitem_twice_lookup, L0 by done.
  destruct (lookup_column "stav_stredni" (columns sub)) as [c2|] eqn:L2; [|done].
  intros r2 h3 x2 y2 H3. fold T1 in H3.
  set (T2 := Table.setitem (Table.setitem T1 "sum td prev" _) "sum td next" _) in H3.
  (* third band *)
  apply wp_bind. eapply wp_stack_band; [exact H3|apply setitem_twice_next|done|done|].
  cbn [Td.n Td.l Td.c]. unfold T2, T1. rewrite !setitem_twice_lookup, L0 by done.
  destruct (lookup_column "stav_lehky" (columns sub)) as [c3|] eqn:L3; [|done].
  intros r3 h4 x3 y3 H4. fold T1 in H4. fold T2 in H4.
  set (T3 := Table.setitem (Table.setitem T2 "sum td prev" _) "sum td next" _) in H4.
  (* fourth band *)
  apply wp_bind. eapply wp_stack_band; [exact H4|apply setitem_twice_next|done|done|].
  cbn [Td.n Td.l Td.c]. unfold T3, T2, T1. rewrite !setitem_twice_lookup, L0 by done.
  destruct (lookup_column "stav_bez_priznaku" (columns sub)) as [c4|] eqn:L4; [|done].
  intros r4 h5 x4 y4 H5.
  apply wp_ret.
  apply wp_bind, wp_decorate. intros h6 tail Htail. apply wp_ret.
  exists sub, hosp, c1, c2, c3, c4.
  do 6 (split; [done|]). cbn [effects].
  rewrite !List.filter_app, Htail, app_nil_r. cbn [List.filter is_fill_between].
  rewrite !app_nil_r, <- !app_assoc. reflexivity.
Qed.

End Stack.

(** ** Joining the two downloads *)

Section Join.

Lemma positions_NoDup k label idx :
  NoDup idx ->
  (exists i, idx !! i = Some label /\ Table.positions k label idx = [k + i])
  \/ (~ In label idx /\ Table.positions k label idx = []).
Proof.
  revert k. induction idx as [|a idx IH]; intros k ND; cbn [Table.positions].
  - right. split; [by intros []|done].
  - apply NoDup_cons in ND as [Ha ND].
    destruct (String.eqb a label) eqn:E.
    + apply String.eqb_eq in E. subst a. left. exists 0. split; [done|].
      destruct (IH (S k) ND) as [(i & Hi & _)|[_ ->]].
      * exfalso. apply Ha. by apply list_elem_of_lookup_2 with i.
      * by rewrite Nat.add_0_r.
    + apply String.eqb_neq in E. cbn [app].
      destruct (IH (S k) ND) as [(i & Hi & ->)|[Hn ->]].
      * left. exists (S i). split; [done|]. f_equal. lia.
      * right. split; [|done]. intros [?|?]; [congruence|done].
Qed.

(** With no label twice in the other frame, a row is joined with the one row
    of that label, or with none. *)
Lemma matches_NoDup label idx :
  NoDup idx ->
  (exists j, idx !! j = Some label /\ Table.matches label idx = [Some j])
  \/ (~ In label idx /\ Table.matches label idx = [None]).
Proof.
  intros ND. unfold Table.matches.
  destruct (positions_NoDup 0 label idx ND) as [(i & Hi & ->)|[Hn ->]]; [left|right; done].
  exists i. done.
Qed.

Lemma join_rows_keep {X : Type} (l : list X) (idx other : list string) :
  NoDup other -> length l = length idx ->
  concat (zip_with (fun x ms => map (fun _ : option nat => x) ms) l
            (map (fun a => Table.matches a other) idx)) = l.
Proof.
  intros ND. revert idx. induction l as [|x l IH]; intros [|a idx] L; simpl in *; try lia; [done|].
  rewrite IH by lia.
  by destruct (matches_NoDup a other ND) as [(j & _ & ->)|[_ ->]].
Qed.

Lemma join_rows_cells (v : list float) (idx other : list string) i a :
  NoDup other -> idx !! i = Some a ->
  (forall j, other !! j = Some a ->
     concat (map (map (Table.cell v)) (map (fun a => Table.matches a other) idx)) !! i
     = Some (default Np.nan (v !! j))) /\
  (~ In a other ->
     concat (map (map (Table.cell v)) (map (fun a => Table.matches a other) idx)) !! i
     = Some Np.nan).
Proof.
  intros ND. revert i. induction idx as [|b idx IH]; intros [|i] Hi; simpl in *; try done.
  - injection Hi as ->.
    destruct (matches_NoDup a other ND) as [(j & Hj & ->)|[Hn ->]]; simpl; split.
    + intros j' Hj'. by rewrite (NoDup_lookup _ _ _ _ ND Hj' Hj).
    + intros Hn. exfalso. apply Hn, list_elem_of_In. by apply list_elem_of_lookup_2 with j.
    + intros j Hj. exfalso. apply Hn, list_elem_of_In. by apply list_elem_of_lookup_2 with j.
    + done.
  - destruct (matches_NoDup b other ND) as [(j & _ & ->)|[_ ->]]; simpl; by apply IH.
Qed.

Lemma join_rows_length (v : list float) (idx other : list string) :
  NoDup other ->
  length (concat (map (map (Table.cell v)) (map (fun a => Table.matches a other) idx)))
  = length idx.
Proof.
  intros ND. induction idx as [|b idx IH]; simpl; [done|].
  rewrite length_app, IH.
  by destruct (matches_NoDup b other ND) as [(j & _ & ->)|[_ ->]].
Qed.

Lemma existsb_has_column_false df other :
  (forall k, In k (keys other) -> ~ In k (keys df)) ->
  existsb (fun k => has_column k (columns df)) (keys other) = false.
Proof.
  intros H. apply not_true_is_false. intros E. apply existsb_exists in E as (k & Hk & Hc).
  apply has_column_In in Hc. by apply (H k).
Qed.

Lemma is_unique_NoDup idx : NoDup idx -> Table.is_unique idx = true.
Proof.
  induction 1 as [|a idx Ha _ IH]; cbn [Table.is_unique]; [done|].
  rewrite IH, andb_true_r. apply negb_true_iff, not_true_is_false.
  intros E. apply existsb_exists in E as (b & Hb & E).
  apply String.eqb_eq in E. subst b. by apply Ha, list_elem_of_In.
Qed.

(** The left join of two frames with no common column name and no label
    twice in either index. *)
Lemma join_NoDup df other :
  well_formed df -> NoDup (index df) -> NoDup (index other) ->
  (forall k, In k (keys other) -> ~ In k (keys df)) ->
  exists out,
    Table.join df other = Ok out /\
    index out = index df /\
    (forall c cells, lookup_column c (columns df) = Some cells ->
       lookup_column c (columns out) = Some cells) /\
    (forall c cells, lookup_column c (columns other) = Some cells ->
       exists joined,
         lookup_column c (columns out) = Some joined /\
         length joined = length (index df) /\
         forall i a, index df !! i = Some a ->
           (forall j, index other !! j = Some a ->
              joined !! i = Some (default Np.nan (cells !! j))) /\
           (~ In a (index other) -> joined !! i = Some Np.nan)).
Proof.
  intros W NDl ND Hk. unfold Table.join. rewrite (existsb_has_column_false _ _ Hk).
  rewrite (is_unique_NoDup _ NDl), (is_unique_NoDup _ ND). cbn [andb orb]. cbv zeta.
  eexists. split; [reflexivity|]. cbn [index columns].
  split; [by apply join_rows_keep|]. split.
  - intros c cells Hc. rewrite lookup_column_app.
    rewrite (lookup_column_map _ _
               (fun _ v => concat (zip_with (fun x ms => map (fun _ : option nat => x) ms) v
                                     (map (fun a => Table.matches a (index other)) (index df))))).
    rewrite Hc. cbn [option_map].
    rewrite join_rows_keep; [done|done|]. by apply (well_formed_lookup df c).
  - intros c cells Hc. eexists. split.
    + rewrite lookup_column_app.
      rewrite (lookup_column_map _ _
                 (fun _ v => concat (zip_with (fun x ms => map (fun _ : option nat => x) ms) v
                                       (map (fun a => Table.matches a (index other)) (index df))))).
      rewrite lookup_column_None.
      2:{ apply Hk. by apply lookup_column_Some_In in Hc. }
      cbn [option_map].
      rewrite (lookup_column_map _ _
                 (fun _ v => concat (map (map (Table.cell v))
                                       (map (fun a => Table.matches a (index other)) (index df))))).
      rewrite Hc. reflexivity.
    + split; [by apply join_rows_length|]. intros i a Hi. by apply join_rows_cells.
Qed.

End Join.

Section Download.

Variable np_exp : float -> float.
Variable curve_fit :
  (float -> float -> float -> float) -> list nat -> list float -> float * float ->
  result (float * float).
Variable series_max : list float -> float.
Variable read_csv : string -> string -> result DataFrame.

(** X12: when the two downloads share no column name and neither has a date
    twice, [download_data] returns the rows of the first download, in their
    order: the columns of the first are as downloaded, and those of the second
    hold, at each date, the cell that the second download has for that date,
    or NaN when it has none; dates that only the second download has are left
    out. The frame is pickled at [data_path] as it is returned. *)
Theorem download_data_left_join data_path w base hosp :
  read_csv URL_BASE "datum" = Ok base ->
  read_csv URL_HOSP "datum" = Ok hosp ->
  well_formed base ->
  NoDup (index base) ->
  NoDup (index hosp) ->
  (forall k, In k (keys hosp) -> ~ In k (keys base)) ->
  exists r w' out,
    download_data read_csv data_path w = Returns r w' /\
    frames w' !! r = Some out /\
    effects w' = effects w ++ [to_pickle data_path out] /\
    index out = index base /\
    (forall c cells, lookup_column c (columns base) = Some cells ->
       lookup_column c (columns out) = Some cells) /\
    (forall c cells, lookup_column c (columns hosp) = Some cells ->
       exists joined,
         lookup_column c (columns out) = Some joined /\
         length joined = length (index base) /\
         forall i a, index base !! i = Some a ->
           (forall j, index hosp !! j = Some a ->
              joined !! i = Some (default Np.nan (cells !! j))) /\
           (~ In a (index hosp) -> joined !! i = Some Np.nan)).
Proof.
  intros Hb Hh W NDb ND Hk.
  destruct (join_NoDup base hosp W NDb ND Hk) as (out & J & I & C1 & C2).
  exists (S (S (length (frames w)))), (mkWorld (frames w ++ [base] ++ [hosp] ++ [out])
                                         (effects w ++ [to_pickle data_path out])), out.
  split.
  - unfold download_data, bind. rewrite Hb. cbn [lift ret].
    unfold run at 1. cbn [alloc frames effects]. rewrite Hh. cbn [lift ret].
    unfold run at 1. cbn [alloc frames effects].
    unfold run at 1. unfold Object.join, Store.bind, load. cbn [frames effects].
    rewrite (lookup_old _ hosp _ base) by apply lookup_new.
    rewrite length_app. cbn [length]. rewrite Nat.add_1_r.
    replace (S (length (frames w))) with (length (frames w ++ [base])) at 1
      by (rewrite length_app; simpl; lia).
    rewrite lookup_new, J. cbn [Store.lift alloc].
    unfold run. cbn [frames effects load].
    rewrite lookup_new. cbn [emit frames effects ret].
    rewrite !length_app. cbn [length]. rewrite <- !app_assoc.
    do 2 f_equal. lia.
  - cbn [frames effects]. split.
    + rewrite !app_assoc. replace (S (S (length (frames w)))) with (length ((frames w ++ [base]) ++ [hosp]))
        by (rewrite !length_app; simpl; lia).
      apply lookup_new.
    + auto.
Qed.

(** A download that returns has pickled the frame it returns. *)
Lemma download_data_Returns data_path w r w1 :
  download_data read_csv data_path w = Returns r w1 ->
  exists out,
    frames w1 !! r = Some out /\ effects w1 = effects w ++ [to_pickle data_path out].
Proof.
  intros H. refine (wp_Returns _ (fun r w1 => _) (fun _ _ => True) w r w1 _ H).
  unfold download_data.
  apply wp_bind, wp_lift. destruct (read_csv URL_BASE "datum") as [base|]; [|done].
  apply wp_bind, wp_run. cbn [alloc frames effects].
  apply wp_bind, wp_lift. destruct (read_csv URL_HOSP "datum") as [hosp|]; [|done].
  apply wp_bind, wp_run. cbn [alloc frames effects].
  apply wp_bind, wp_run. cbn [frames effects].
  destruct (Object.join _ _ _) as [[j h]|e] eqn:J; [|done].
  assert (Hj : exists out, h !! j = Some out).
  { revert J. unfold Object.join, Store.bind, load, Store.lift, alloc.
    destruct (_ !! _); [|done]. destruct (_ !! _); [|done].
    destruct (Table.join _ _) as [out|]; [|done]. intros [= <- <-].
    exists out. apply lookup_new. }
  destruct Hj as [out Hj].
  apply wp_bind, wp_run. unfold load. cbn [frames effects]. rewrite Hj.
  apply wp_bind, wp_emit. apply wp_ret. cbn [frames effects]. eauto.
Qed.

(** *** What reaches the user *)

(** The run of [m] writes no file and opens, closes or shows no window. *)
Abbreviation quiet m :=
  (forall w, wp m (fun _ w' => List.filter is_output (effects w')
                               = List.filter is_output (effects w))
               (fun _ _ => True) w).

Lemma quiet_ret {A} (a : A) : quiet (ret a).
Proof. done. Qed.

Lemma quiet_bind {A B} (m : W A) (k : A -> W B) :
  quiet m -> (forall a, quiet (k a)) -> quiet (bind m k).
Proof.
  intros Hm Hk w. apply wp_bind. apply (wp_mono _ _ _ _ _ _ (Hm w)); [|done].
  intros a w1 E. apply (wp_mono _ _ _ _ _ _ (Hk a w1)); [|done].
  intros b w2 E2. by rewrite E2.
Qed.

Lemma quiet_run {A} (m : M A) : quiet (run m).
Proof. intros w. by apply wp_run_effects. Qed.

Lemma quiet_draw c : is_output (Draw c) = false -> quiet (draw c).
Proof.
  intros H w. apply wp_draw. cbn [effects]. rewrite List.filter_app. cbn [List.filter].
  rewrite H. by rewrite app_nil_r.
Qed.

Lemma quiet_local {A} name (v : option A) : quiet (local name v).
Proof. intros w. by destruct v. Qed.

Lemma quiet_DATES key : quiet (DATES_getitem key).
Proof. intros w. unfold DATES_getitem. by destruct (List.find _ _). Qed.

Lemma quiet_for_each {A B} (l : list A) (body : A -> W B) last :
  (forall x, quiet (body x)) -> quiet (for_each l body last).
Proof.
  intros Hb. revert last. induction l as [|x l IH]; intros last; cbn [for_each].
  - apply quiet_ret.
  - apply quiet_bind; [apply Hb|]. intros b. apply IH.
Qed.

Lemma quiet_currently_infected dataframe : quiet (currently_infected dataframe).
Proof.
  unfold currently_infected. do 3 (apply quiet_bind; [apply quiet_run|intros ?]).
  apply quiet_ret.
Qed.

Lemma quiet_since_new_age dataframe : quiet (since_new_age dataframe).
Proof.
  unfold since_new_age. apply quiet_bind; [apply quiet_run|intros ?].
  apply quiet_bind; [apply quiet_DATES|intros ?]. apply quiet_run.
Qed.

Lemma quiet_plot_with_trend marker subset td :
  quiet (plot_with_trend np_exp curve_fit marker subset td).
Proof.
  unfold plot_with_trend.
  apply quiet_bind; [apply quiet_DATES|intros ?].
  do 3 (apply quiet_bind; [apply quiet_run|intros ?]).
  apply quiet_bind; [by apply quiet_draw|intros ?].
  do 2 (apply quiet_bind; [apply quiet_run|intros ?]).
  apply quiet_bind; [by apply quiet_draw|intros ?].
  apply quiet_ret.
Qed.

Lemma quiet_stack_band subset td : quiet (stack_band np_exp curve_fit subset td).
Proof.
  unfold stack_band.
  do 5 (apply quiet_bind; [apply quiet_run|intros ?]).
  apply quiet_bind; [apply quiet_DATES|intros ?].
  do 4 (apply quiet_bind; [apply quiet_run|intros ?]).
  apply quiet_bind; [by apply quiet_draw|intros ?].
  do 2 (apply quiet_bind; [apply quiet_run|intros ?]).
  apply quiet_bind; [by apply quiet_draw|intros ?].
  apply quiet_ret.
Qed.

Lemma quiet_decorate augmented subset ycol f :
  quiet (decorate series_max augmented subset ycol f).
Proof.
  unfold decorate.
  apply quiet_bind; [apply quiet_local|intros ?].
  do 2 (apply quiet_bind; [apply quiet_run|intros ?]).
  apply quiet_bind; [by apply quiet_draw|intros ?].
  apply quiet_bind; [apply quiet_run|intros ?].
  do 7 (apply quiet_bind; [by apply quiet_draw|intros ?]).
  by apply quiet_draw.
Qed.

(** A quiet step, and then the rest. *)
Lemma wp_quiet_bind {A B} (m : W A) (k : A -> W B) (Q : B -> world -> Prop) w :
  quiet m ->
  (forall a w1,
     List.filter is_output (effects w1) = List.filter is_output (effects w) ->
     wp (k a) Q (fun _ _ => True) w1) ->
  wp (bind m k) Q (fun _ _ => True) w.
Proof.
  intros Hm Hk. apply wp_bind. apply (wp_mono _ _ _ _ _ _ (Hm w)); [|done].
  intros a w1 E. by apply Hk.
Qed.

(** Opening the window. *)
Lemma wp_figure_bind {B} name size (k : unit -> W B) (Q : B -> world -> Prop) w :
  (forall w1,
     List.filter is_output (effects w1)
     = List.filter is_output (effects w) ++ [Draw (Plt.figure name size)] ->
     wp (k tt) Q (fun _ _ => True) w1) ->
  wp (bind (draw (Plt.figure name size)) k) Q (fun _ _ => True) w.
Proof.
  intros Hk. apply wp_bind, wp_draw. apply Hk. cbn [effects].
  by rewrite List.filter_app.
Qed.

(** Each view opens its window, and does nothing else that reaches the
    user. *)
Lemma basic_view_figure_outputs dataframe kwargs w fig w' :
  basic_view_figure np_exp curve_fit series_max dataframe kwargs w = Returns fig w' ->
  fig = "Základní přehled" /\
  List.filter is_output (effects w')
  = List.filter is_output (effects w) ++ [Draw (Plt.figure "Základní přehled" (19, 8)%Z)].
Proof.
  intros H. refine (wp_Returns _ (fun fig w' => _) (fun _ _ => True) w fig w' _ H).
  unfold basic_view_figure, apply_view. destruct (Kw.contains "dataframe" kwargs); [done|].
  cbv zeta.
  apply wp_quiet_bind; [apply quiet_currently_infected|intros infected w1 E1].
  apply wp_quiet_bind; [apply quiet_run|intros _ w2 E2].
  apply wp_quiet_bind; [apply quiet_since_new_age|intros subset w3 E3].
  apply wp_figure_bind. intros w4 E4.
  apply wp_quiet_bind; [by apply quiet_draw|intros _ w5 E5].
  apply wp_quiet_bind; [apply quiet_for_each; intros td; apply quiet_plot_with_trend
                       |intros r w6 E6].
  apply wp_quiet_bind; [apply quiet_decorate|intros _ w7 E7].
  apply wp_ret. split; [done|]. by rewrite E7, E6, E5, E4, E3, E2, E1.
Qed.

Lemma hospi_view_figure_outputs dataframe kwargs w fig w' :
  hospi_view_figure np_exp curve_fit series_max dataframe kwargs w = Returns fig w' ->
  fig = "Hospitalizace" /\
  List.filter is_output (effects w')
  = List.filter is_output (effects w) ++ [Draw (Plt.figure "Hospitalizace" (19, 8)%Z)].
Proof.
  intros H. refine (wp_Returns _ (fun fig w' => _) (fun _ _ => True) w fig w' _ H).
  unfold hospi_view_figure, apply_view. destruct (Kw.contains "dataframe" kwargs); [done|].
  cbv zeta.
  apply wp_figure_bind. intros w1 E1.
  apply wp_quiet_bind; [by apply quiet_draw|intros _ w2 E2].
  apply wp_quiet_bind; [apply quiet_since_new_age|intros selected w3 E3].
  apply wp_quiet_bind; [apply quiet_run|intros subset w4 E4].
  apply wp_quiet_bind; [apply quiet_run|intros a w5 E5].
  apply wp_quiet_bind; [apply quiet_run|intros b w6 E6].
  apply wp_quiet_bind; [apply quiet_run|intros _ w7 E7].
  apply wp_quiet_bind; [apply quiet_for_each; intros td; apply quiet_stack_band
                       |intros r w8 E8].
  apply wp_quiet_bind; [apply quiet_decorate|intros _ w9 E9].
  apply wp_ret. split; [done|]. by rewrite E9, E8, E7, E6, E5, E4, E3, E2, E1.
Qed.

Lemma incrm_view_figure_outputs dataframe kwargs w fig w' :
  incrm_view_figure np_exp curve_fit series_max dataframe kwargs w = Returns fig w' ->
  fig = "Denní přírůstky" /\
  List.filter is_output (effects w')
  = List.filter is_output (effects w) ++ [Draw (Plt.figure "Denní přírůstky" (19, 8)%Z)].
Proof.
  intros H. refine (wp_Returns _ (fun fig w' => _) (fun _ _ => True) w fig w' _ H).
  unfold incrm_view_figure, apply_view. destruct (Kw.contains "dataframe" kwargs); [done|].
  cbv zeta.
  apply wp_quiet_bind; [apply quiet_currently_infected|intros infected w1 E1].
  apply wp_quiet_bind; [apply quiet_run|intros _ w2 E2].
  apply wp_quiet_bind; [apply quiet_since_new_age|intros selected w3 E3].
  apply wp_quiet_bind; [apply quiet_run|intros subset w3' E3'].
  apply wp_figure_bind. intros w4 E4.
  apply wp_quiet_bind; [by apply quiet_draw|intros _ w5 E5].
  apply wp_quiet_bind; [apply quiet_for_each; intros td; apply quiet_plot_with_trend
                       |intros r w6 E6].
  apply wp_quiet_bind; [apply quiet_decorate|intros _ w7 E7].
  apply wp_ret. split; [done|]. by rewrite E7, E6, E5, E4, E3', E3, E2, E1.
Qed.

(** A decorated view that returns, called with a file name and [display]. *)
Lemma view_outputs func name size dataframe file display w w' :
  (forall w0 fig w1, func dataframe
                       [("display", Kw.Bool display); ("filename", Kw.Text file)] w0
                     = Returns fig w1 ->
     fig = name /\
     List.filter is_output (effects w1)
     = List.filter is_output (effects w0) ++ [Draw (Plt.figure name size)]) ->
  Os.startswith_sep file = false ->
  handle_fig func dataframe [("display", Kw.Bool display); ("filename", Kw.Text file)] w
  = Returns tt w' ->
  List.filter is_output (effects w')
  = List.filter is_output (effects w)
    ++ [Draw (Plt.figure name size); Draw (Plt.savefig name (String.append "figs/" file) 100)]
    ++ (if display then [] else [Draw (Plt.close name); Draw (Plt.clf name)]).
Proof.
  intros Hf Hs H.
  destruct (func dataframe [("display", Kw.Bool display); ("filename", Kw.Text file)] w)
    as [fig w1|e w1] eqn:F.
  2:{ unfold handle_fig, bind in H. by rewrite F in H. }
  rewrite (handle_fig_run func dataframe
             [("display", Kw.Bool display); ("filename", Kw.Text file)] w fig w1 file
             (Kw.Bool display) F eq_refl eq_refl) in H.
  injection H as <-. destruct (Hf _ _ _ F) as [-> E]. cbn [effects Kw.truthy].
  rewrite Hs, !List.filter_app, E. cbn [List.filter is_output].
  rewrite <- !app_assoc. f_equal. by destruct display.
Qed.

Lemma bind_Returns {A B} (m : W A) (k : A -> W B) w b w' :
  bind m k w = Returns b w' -> exists a w1, m w = Returns a w1 /\ k a w1 = Returns b w'.
Proof. unfold bind. destruct (m w) as [a w1|]; [eauto|done]. Qed.

(** X13: [robot_export] does not use its [path]: whatever it is given, the download
    is pickled as [data.pckl], and the figure of the basic view is saved as
    [figs/basic_overview.png], then closed and cleared; nothing else is
    written, opened or shown. *)
Theorem robot_export_ignores_path path w w' :
  robot_export np_exp curve_fit series_max read_csv path w = Returns tt w' ->
  robot_export np_exp curve_fit series_max read_csv None w = Returns tt w' /\
  exists out,
    List.filter is_output (effects w') =
      List.filter is_output (effects w)
      ++ [to_pickle "data.pckl" out;
          Draw (Plt.figure "Základní přehled" (19, 8)%Z);
          Draw (Plt.savefig "Základní přehled" "figs/basic_overview.png" 100);
          Draw (Plt.close "Základní přehled");
          Draw (Plt.clf "Základní přehled")].
Proof.
  intros H. split; [exact H|]. revert H. unfold robot_export. cbv zeta. intros H.
  apply bind_Returns in H as (dataframe & w1 & D & H).
  destruct (download_data_Returns _ _ _ _ D) as (out & _ & E1).
  apply (view_outputs _ "Základní přehled" (19, 8)%Z) in H;
    [|intros w0 fig w2; apply basic_view_figure_outputs|done].
  exists out. rewrite H, E1, List.filter_app. cbn [List.filter is_output].
  by rewrite <- !app_assoc.
Qed.

(** X14: the script pickles the download and saves the three figures under
    [figs/], in the order basic, hospi, incrm; the windows of [hospi_view] and
    [incrm_view] are closed before [plt.show()], which shows the basic view
    alone. *)
Theorem main_shows_basic_view_only w w' :
  main np_exp curve_fit series_max read_csv w = Returns tt w' ->
  exists out,
    List.filter is_output (effects w') =
      List.filter is_output (effects w)
      ++ [to_pickle "data.pckl" out;
          Draw (Plt.figure "Základní přehled" (19, 8)%Z);
          Draw (Plt.savefig "Základní přehled" "figs/basic_overview.png" 100);
          Draw (Plt.figure "Hospitalizace" (19, 8)%Z);
          Draw (Plt.savefig "Hospitalizace" "figs/hospi_overview.png" 100);
          Draw (Plt.close "Hospitalizace");
          Draw (Plt.clf "Hospitalizace");
          Draw (Plt.figure "Denní přírůstky" (19, 8)%Z);
          Draw (Plt.savefig "Denní přírůstky" "figs/incrm_overview.png" 100);
          Draw (Plt.close "Denní přírůstky");
          Draw (Plt.clf "Denní přírůstky");
          Draw Plt.show].
Proof.
  unfold main. intros H.
  apply bind_Returns in H as (dataframe & w1 & D & H).
  apply bind_Returns in H as ([] & w2 & V1 & H).
  apply bind_Returns in H as ([] & w3 & V2 & H).
  apply bind_Returns in H as ([] & w4 & V3 & H).
  injection H as <-.
  destruct (download_data_Returns _ _ _ _ D) as (out & _ & E1).
  apply (view_outputs _ "Základní přehled" (19, 8)%Z) in V1;
    [|intros w0 fig w5; apply basic_view_figure_outputs|done].
  apply (view_outputs _ "Hospitalizace" (19, 8)%Z) in V2;
    [|intros w0 fig w5; apply hospi_view_figure_outputs|done].
  apply (view_outputs _ "Denní přírůstky" (19, 8)%Z) in V3;
    [|intros w0 fig w5; apply incrm_view_figure_outputs|done].
  exists out. cbn [effects]. rewrite List.filter_app, V3, V2, V1, E1, List.filter_app.
  cbn [List.filter is_output]. by rewrite <- !app_assoc.
Qed.

End Download.

(** ** The further properties on the example data *)

Import Sample.

Lemma september_daily : daily (index september).
Proof.
  intros i a b Ha Hb.
  do 2 (destruct i as [|i];
        [injection Ha as <-; injection Hb as <-; eexists; split; vm_compute; reflexivity|]).
  discriminate Hb.
Qed.

Lemma data_well_formed : well_formed data.
Proof. unfold well_formed. repeat constructor. Qed.

Lemma stale_well_formed : well_formed stale.
Proof. unfold well_formed. repeat constructor. Qed.

Lemma base_well_formed : well_formed base.
Proof. unfold well_formed. repeat constructor. Qed.

Lemma base_NoDup : NoDup (index base).
Proof.
  apply NoDup_cons. split; [|apply NoDup_singleton].
  intros H. apply list_elem_of_In in H. destruct H as [H|[]]. discriminate H.
Qed.

Lemma hosp_NoDup : NoDup (index hosp).
Proof.
  apply NoDup_cons. split; [|apply NoDup_singleton].
  intros H. apply list_elem_of_In in H. destruct H as [H|[]]. discriminate H.
Qed.

(** A first frame with a date twice, out of order: the joined rows come out
    sorted by date, the two rows of 2021-08-31 in the order they had. *)
Example join_sorts_repeated_labels :
  Table.join
    {| index := ["2021-08-31"; "2021-08-30"; "2021-08-31"];
       columns := [("a", [1%float; 2%float; 3%float])] |}
    {| index := ["2021-08-30"; "2021-08-31"];
       columns := [("b", [10%float; 20%float])] |}
  = Ok {| index := ["2021-08-30"; "2021-08-31"; "2021-08-31"];
          columns := [("a", [2%float; 1%float; 3%float]);
                      ("b", [10%float; 20%float; 20%float])] |}.
Proof. vm_compute. reflexivity. Qed.

Lemma downloads_disjoint k : In k (keys hosp) -> ~ In k (keys base).
Proof.
  intros Hk Hb. cbn in Hk.
  repeat (destruct Hk as [<-|Hk];
          [cbn in Hb; repeat (destruct Hb as [Hb|Hb]; [discriminate Hb|]); exact Hb|]).
  exact Hk.
Qed.

Lemma no_rows_no_projection_witness :
  exists e,
    get_exponential exp_taylor fit_constant 0 "cases" "cases_exp"
      (Some "2021-09-09") (Some "2021-09-10") 14 (store_of no_rows) = Raise e.
Proof.
  apply (no_rows_no_projection exp_taylor fit_constant 0 no_rows).
  - reflexivity.
  - reflexivity.
Defined.

Lemma default_start_needs_28_rows_witness :
  get_exponential exp_taylor fit_constant 0 "cases" "cases_exp" None None 14
    (store_of september) = Raise IndexError.
Proof.
  apply (default_start_needs_28_rows exp_taylor fit_constant 0 september).
  - reflexivity.
  - reflexivity.
  - simpl. lia.
Defined.

Lemma returned_frame_well_formed_witness :
  exists out,
    store_after (get_exponential exp_taylor fit_constant 0 "cases" "cases_exp"
                   (Some "2021-09-09") None 2) (store_of september) !! 4 = Some out /\
    well_formed out /\
    length (index out) = length (index september) + Z.to_nat 2 /\
    forall c cells, lookup_column c (columns out) = Some cells ->
      length cells = length (index september) + Z.to_nat 2.
Proof.
  apply (returned_frame_well_formed exp_taylor fit_constant 0 september "cases" "cases_exp"
           (Some "2021-09-09") None 2 (store_of september)).
  - reflexivity.
  - exact september_well_formed.
  - lia.
  - vm_compute. reflexivity.
Defined.

Lemma projection_on_daily_index_witness :
  exists out stop' a b cells,
    store_after (get_exponential exp_taylor fit_constant 0 "cases" "cases_exp"
                   (Some "2021-09-09") None 2) (store_of september) !! 4 = Some out /\
    resolve None (index september) (-1) = Ok stop' /\
    fit exp_taylor fit_constant september "cases" "2021-09-09" stop' = Ok (a, b) /\
    length (index out) = length (index september) + Z.to_nat 2 /\
    lookup_column "cases_exp" (columns out) = Some cells /\
    forall i, 1 <= i < length (index out) ->
      cells !! i = Some (projected exp_taylor a b (i - 1)).
Proof.
  apply (projection_on_daily_index exp_taylor fit_constant 0 september "cases" "cases_exp"
           "2021-09-09" None 2 (store_of september)).
  - reflexivity.
  - exact september_well_formed.
  - exact september_daily.
  - reflexivity.
  - lia.
  - vm_compute. reflexivity.
Defined.

Lemma fit_on_daily_window_witness :
  fit exp_taylor fit_constant september "cases" "2021-09-09" "2021-09-10" =
  fit_constant (exponential exp_taylor) (range (S 2 - 1))
    (take (S 2 - 1) (drop 1 [5%float; 5%float; 5%float]))
    (PrimFloat.zero, PrimFloat.zero).
Proof.
  apply (fit_on_daily_window exp_taylor fit_constant september "cases"
           "2021-09-09" "2021-09-10" 1 2).
  - exact september_well_formed.
  - exact september_daily.
  - reflexivity.
  - reflexivity.
  - reflexivity.
Defined.

Lemma chained_calls_extend_index_witness :
  exists out1 out2 ext,
    store_after (get_exponential exp_taylor fit_constant 4 "cases" "cases_next"
                   (Some "2021-09-09") (Some "2021-09-10") 1)
      (store_after (get_exponential exp_taylor fit_constant 0 "cases" "cases_exp"
                      (Some "2021-09-09") None 2) (store_of september)) !! 0
    = Some september /\
    store_after (get_exponential exp_taylor fit_constant 4 "cases" "cases_next"
                   (Some "2021-09-09") (Some "2021-09-10") 1)
      (store_after (get_exponential exp_taylor fit_constant 0 "cases" "cases_exp"
                      (Some "2021-09-09") None 2) (store_of september)) !! 4
    = Some out1 /\
    store_after (get_exponential exp_taylor fit_constant 4 "cases" "cases_next"
                   (Some "2021-09-09") (Some "2021-09-10") 1)
      (store_after (get_exponential exp_taylor fit_constant 0 "cases" "cases_exp"
                      (Some "2021-09-09") None 2) (store_of september)) !! 8
    = Some out2 /\
    index_extension (index september) (2 + 1) = Ok ext /\
    length ext = Z.to_nat 2 + Z.to_nat 1 /\
    index out2 = index september ++ ext.
Proof.
  apply (chained_calls_extend_index exp_taylor fit_constant 0 september
           "cases" "cases_exp" (Some "2021-09-09") None 2
           "cases" "cases_next" (Some "2021-09-09") (Some "2021-09-10") 1
           (store_of september)
           (store_after (get_exponential exp_taylor fit_constant 0 "cases" "cases_exp"
                           (Some "2021-09-09") None 2) (store_of september))).
  - reflexivity.
  - lia.
  - lia.
  - vm_compute. reflexivity.
  - vm_compute. reflexivity.
Defined.

Lemma window_is_chronological_witness :
  mask_and (ge_index "2021-09-10" (index september))
           (index_ge (index september) "2021-09-09") !! 0 =
    Some (Calendar.leb (Calendar.Date 2021 9 8) (Calendar.Date 2021 9 10)
          && Calendar.leb (Calendar.Date 2021 9 9) (Calendar.Date 2021 9 8)) /\
  index_ge (index september) "2021-09-09" !! 0 =
    Some (Calendar.leb (Calendar.Date 2021 9 9) (Calendar.Date 2021 9 8)).
Proof.
  apply (window_is_chronological (index september) "2021-09-09" "2021-09-10" 0 "2021-09-08").
  - reflexivity.
  - reflexivity.
  - reflexivity.
  - reflexivity.
Defined.

Lemma display_is_required_witness :
  handle_fig (basic_view_figure exp_taylor fit_constant largest) 0
    [("filename", Kw.Text "basic_overview.png")] (world_of data) =
  Raises (Exn (KeyError "display"))
    (mkWorld
       (frames (final (basic_view_figure exp_taylor fit_constant largest 0
                         [("filename", Kw.Text "basic_overview.png")] (world_of data))))
       (effects (final (basic_view_figure exp_taylor fit_constant largest 0
                          [("filename", Kw.Text "basic_overview.png")] (world_of data)))
        ++ [Draw (Plt.savefig "Základní přehled"
                    (Os.path_join FIG_PATH "basic_overview.png") 100)])).
Proof.
  apply (display_is_required (basic_view_figure exp_taylor fit_constant largest) 0
           [("filename", Kw.Text "basic_overview.png")] (world_of data) "Základní přehled"
           (final (basic_view_figure exp_taylor fit_constant largest 0
                     [("filename", Kw.Text "basic_overview.png")] (world_of data)))
           "basic_overview.png").
  - vm_compute. reflexivity.
  - reflexivity.
  - reflexivity.
Defined.

Lemma figure_saved_then_closed_witness :
  handle_fig (hospi_view_figure exp_taylor fit_constant largest) 0
    [("display", Kw.Bool false); ("filename", Kw.Text "hospi_overview.png")] (world_of data) =
  Returns tt
    (mkWorld
       (frames (final (hospi_view_figure exp_taylor fit_constant largest 0
                         [("display", Kw.Bool false); ("filename", Kw.Text "hospi_overview.png")]
                         (world_of data))))
       (effects (final (hospi_view_figure exp_taylor fit_constant largest 0
                          [("display", Kw.Bool false); ("filename", Kw.Text "hospi_overview.png")]
                          (world_of data)))
        ++ [Draw (Plt.savefig "Hospitalizace"
                    (if Os.startswith_sep "hospi_overview.png" then "hospi_overview.png"
                     else String.append "figs/" "hospi_overview.png") 100)]
        ++ (if Kw.truthy (Kw.Bool false) then []
            else [Draw (Plt.close "Hospitalizace"); Draw (Plt.clf "Hospitalizace")]))).
Proof.
  apply (figure_saved_then_closed (hospi_view_figure exp_taylor fit_constant largest) 0
           [("display", Kw.Bool false); ("filename", Kw.Text "hospi_overview.png")]
           (world_of data) "Hospitalizace"
           (final (hospi_view_figure exp_taylor fit_constant largest 0
                     [("display", Kw.Bool false); ("filename", Kw.Text "hospi_overview.png")]
                     (world_of data)))
           "hospi_overview.png" (Kw.Bool false)).
  - vm_compute. reflexivity.
  - reflexivity.
  - reflexivity.
Defined.

Lemma basic_view_writes_caller_frame_witness :
  frames (final (basic_view exp_taylor fit_constant largest 0
                   [("display", Kw.Bool false)] (world_of data))) !! 0
  = Some (Table.setitem data "aktualne_nakazenych"
            (Series.sub (Series.sub [9%float; 9%float] [1%float; 1%float])
               [3%float; 3%float])) /\
  forall k f, k <> 0 -> frames (world_of data) !! k = Some f ->
    frames (final (basic_view exp_taylor fit_constant largest 0
                     [("display", Kw.Bool false)] (world_of data))) !! k = Some f.
Proof.
  apply (basic_view_writes_caller_frame exp_taylor fit_constant largest 0
           [("display", Kw.Bool false)] (world_of data) data).
  - reflexivity.
  - reflexivity.
  - reflexivity.
  - reflexivity.
  - reflexivity.
Defined.

Lemma incrm_view_writes_caller_frame_witness :
  frames (final (incrm_view exp_taylor fit_constant largest 0
                   [("display", Kw.Bool false)] (world_of data))) !! 0
  = Some (Table.setitem data "aktualne_nakazenych"
            (Series.sub (Series.sub [9%float; 9%float] [1%float; 1%float])
               [3%float; 3%float])) /\
  forall k f, k <> 0 -> frames (world_of data) !! k = Some f ->
    frames (final (incrm_view exp_taylor fit_constant largest 0
                     [("display", Kw.Bool false)] (world_of data))) !! k = Some f.
Proof.
  apply (incrm_view_writes_caller_frame exp_taylor fit_constant largest 0
           [("display", Kw.Bool false)] (world_of data) data).
  - reflexivity.
  - reflexivity.
  - reflexivity.
  - reflexivity.
  - reflexivity.
Defined.

Lemma basic_view_needs_recent_rows_witness :
  exists e w',
    basic_view exp_taylor fit_constant largest 0
      [("display", Kw.Bool false); ("filename", Kw.Text "basic_overview.png")]
      (world_of stale) = Raises e w' /\
    effects w' =
      effects (world_of stale)
      ++ [Draw (Plt.figure "Základní přehled" (19, 8)%Z); Draw Plt.gca].
Proof.
  apply (basic_view_needs_recent_rows exp_taylor fit_constant largest 0
           [("display", Kw.Bool false); ("filename", Kw.Text "basic_overview.png")]
           (world_of stale) stale
           [9%float; 9%float] [1%float; 1%float] [3%float; 3%float]).
  - reflexivity.
  - exact stale_well_formed.
  - reflexivity.
  - exact fit_constant_needs_two_points.
  - reflexivity.
  - reflexivity.
  - reflexivity.
  - vm_compute. lia.
Defined.

Lemma plot_with_trend_draws_witness :
  exists out ext col trend,
    returned exp_taylor fit_constant data "pocet_hosp" (String.append "pocet_hosp" "_exp")
      (Some "2021-08-30") None 14 = Ok out /\
    index_extension (index data) 14 = Ok ext /\
    length ext = 14 /\
    lookup_column "pocet_hosp" (columns data) = Some col /\
    lookup_column (String.append "pocet_hosp" "_exp") (columns out) = Some trend /\
    frames (final (plot_with_trend exp_taylor fit_constant "x" 0
                     (Td.mk "pocet_hosp" "Počet hospitalizovaných" "k") (world_of data))) !! 0
    = Some data /\
    frames (final (plot_with_trend exp_taylor fit_constant "x" 0
                     (Td.mk "pocet_hosp" "Počet hospitalizovaných" "k") (world_of data))) !! 4
    = Some out /\
    effects (final (plot_with_trend exp_taylor fit_constant "x" 0
                      (Td.mk "pocet_hosp" "Počet hospitalizovaných" "k") (world_of data))) =
      effects (world_of data)
      ++ [Draw (Plt.plot (index data ++ ext) (col ++ replicate 14 Np.nan) "k"
                  (Some "-") (Some "x") (Some "Počet hospitalizovaných"));
          Draw (Plt.plot (index data ++ ext) trend (String.append ":" "k")
                  None None None)].
Proof.
  apply (plot_with_trend_draws exp_taylor fit_constant "x" 0
           (Td.mk "pocet_hosp" "Počet hospitalizovaných" "k") (world_of data) 4
           (final (plot_with_trend exp_taylor fit_constant "x" 0
                     (Td.mk "pocet_hosp" "Počet hospitalizovaných" "k") (world_of data)))
           data).
  - reflexivity.
  - exact data_well_formed.
  - discriminate.
  - vm_compute. reflexivity.
Defined.

Lemma hospi_view_stacks_bands_witness :
  exists sub hosp c1 c2 c3 c4,
    Pd.getitem_mask data (index_gt (index data) "2020-09-01") = Ok sub /\
    lookup_column "pocet_hosp" (columns sub) = Some hosp /\
    lookup_column "stav_tezky" (columns sub) = Some c1 /\
    lookup_column "stav_stredni" (columns sub) = Some c2 /\
    lookup_column "stav_lehky" (columns sub) = Some c3 /\
    lookup_column "stav_bez_priznaku" (columns sub) = Some c4 /\
    List.filter is_fill_between
      (effects (final (hospi_view exp_taylor fit_constant largest 0
                         [("display", Kw.Bool false); ("filename", Kw.Text "hospi_overview.png")]
                         (world_of data)))) =
      List.filter is_fill_between (effects (world_of data))
      ++ [Draw (Plt.fill_between (index sub)
                  (Series.sub hosp hosp)
                  (Series.add (Series.sub hosp hosp) c1)
                  "k" "Hospitalizováni ve vážném stavu");
          Draw (Plt.fill_between (index sub)
                  (Series.add (Series.sub hosp hosp) c1)
                  (Series.add (Series.add (Series.sub hosp hosp) c1) c2)
                  "r" "Hospitalizováni se středně těžkými příznaky");
          Draw (Plt.fill_between (index sub)
                  (Series.add (Series.add (Series.sub hosp hosp) c1) c2)
                  (Series.add (Series.add (Series.add (Series.sub hosp hosp) c1) c2) c3)
                  "y" "Hospitalizováni s lehkými příznaky");
          Draw (Plt.fill_between (index sub)
                  (Series.add (Series.add (Series.add (Series.sub hosp hosp) c1) c2) c3)
                  (Series.add
                     (Series.add (Series.add (Series.add (Series.sub hosp hosp) c1) c2) c3) c4)
                  "g" "Hospitalizováni bez příznaků")].
Proof.
  apply (hospi_view_stacks_bands exp_taylor fit_constant largest 0
           [("display", Kw.Bool false); ("filename", Kw.Text "hospi_overview.png")]
           (world_of data)
           (final (hospi_view exp_taylor fit_constant largest 0
                     [("display", Kw.Bool false); ("filename", Kw.Text "hospi_overview.png")]
                     (world_of data)))
           data).
  - reflexivity.
  - vm_compute. reflexivity.
Defined.

Lemma download_data_left_join_witness :
  exists r w' out,
    download_data downloads "data.pckl" (mkWorld [] []) = Returns r w' /\
    frames w' !! r = Some out /\
    effects w' = effects (mkWorld [] []) ++ [to_pickle "data.pckl" out] /\
    index out = index base /\
    (forall c cells, lookup_column c (columns base) = Some cells ->
       lookup_column c (columns out) = Some cells) /\
    (forall c cells, lookup_column c (columns hosp) = Some cells ->
       exists joined,
         lookup_column c (columns out) = Some joined /\
         length joined = length (index base) /\
         forall i a, index base !! i = Some a ->
           (forall j, index hosp !! j = Some a ->
              joined !! i = Some (default Np.nan (cells !! j))) /\
           (~ In a (index hosp) -> joined !! i = Some Np.nan)).
Proof.
  apply (download_data_left_join downloads "data.pckl" (mkWorld [] []) base hosp).
  - reflexivity.
  - reflexivity.
  - exact base_well_formed.
  - exact base_NoDup.
  - exact hosp_NoDup.
  - exact downloads_disjoint.
Defined.

Lemma robot_export_ignores_path_witness :
  robot_export exp_taylor fit_constant largest downloads None (mkWorld [] []) =
  Returns tt (final (robot_export exp_taylor fit_constant largest downloads
                       (Some "exports") (mkWorld [] []))) /\
  exists out,
    List.filter is_output
      (effects (final (robot_export exp_taylor fit_constant largest downloads
                         (Some "exports") (mkWorld [] [])))) =
      List.filter is_output (effects (mkWorld [] []))
      ++ [to_pickle "data.pckl" out;
          Draw (Plt.figure "Základní přehled" (19, 8)%Z);
          Draw (Plt.savefig "Základní přehled" "figs/basic_overview.png" 100);
          Draw (Plt.close "Základní přehled");
          Draw (Plt.clf "Základní přehled")].
Proof.
  apply (robot_export_ignores_path exp_taylor fit_constant largest downloads
           (Some "exports") (mkWorld [] [])).
  vm_compute. reflexivity.
Defined.

Lemma main_shows_basic_view_only_witness :
  exists out,
    List.filter is_output
      (effects (final (main exp_taylor fit_constant largest downloads (mkWorld [] [])))) =
      List.filter is_output (effects (mkWorld [] []))
      ++ [to_pickle "data.pckl" out;
          Draw (Plt.figure "Základní přehled" (19, 8)%Z);
          Draw (Plt.savefig "Základní přehled" "figs/basic_overview.png" 100);
          Draw (Plt.figure "Hospitalizace" (19, 8)%Z);
          Draw (Plt.savefig "Hospitalizace" "figs/hospi_overview.png" 100);
          Draw (Plt.close "Hospitalizace");
          Draw (Plt.clf "Hospitalizace");
          Draw (Plt.figure "Denní přírůstky" (19, 8)%Z);
          Draw (Plt.savefig "Denní přírůstky" "figs/incrm_overview.png" 100);
          Draw (Plt.close "Denní přírůstky");
          Draw (Plt.clf "Denní přírůstky");
          Draw Plt.show].
Proof.
  apply (main_shows_basic_view_only exp_taylor fit_constant largest downloads (mkWorld [] [])).
  vm_compute. reflexivity.
Defined.
